(** * SEMagi API client: the completion waiter

    A shallow embedding of [scripts/api_client.py], class [SEMagiAPIClient]:
    [get_task_status], [get_task_results], [get_task_results_with_retry],
    [wait_for_completion] and the waiting half of [process_file].

    Conventions of the embedding.
    - Python [int] is [Z]; wall-clock readings and sleep lengths are [Q]
      (the floats of the source, taken exact).  The two float products
      whose value decides a wait, [estimate_time * 0.1] and
      [int(estimate_time * 1.5)], are computed in IEEE-754 binary64 as
      Python does, with the [OverflowError] of the conversions.
    - The remote service and the terminal are an environment [env]: the
      n-th call of an endpoint is answered by an HTTP response or by an
      exception of [session.request]; the n-th [time.sleep] either runs to
      its end or is cut by Ctrl-C ([KeyboardInterrupt]).  A length that
      [time.sleep] refuses (negative, or 2^63 nanoseconds and more) raises
      before the process is suspended, and is not counted.
    - The clock moves only while the program sleeps.
    - JSON bodies have the documented shape (a status snapshot carries
      status, estimate_time, message and result; a result is a dict).
    - [print], and the values computed only to be printed, are left out:
      the numbers they format are taken to be printable.
      [_display_results] prints too, but it can raise on a result it
      cannot render, and the waiter calls it inside its [try] blocks: the
      environment says for each result whether it raises, and what.
    - Loops that the source writes as [while True] take a fuel argument;
      running out of it is the separate verdict [OutOfFuel]. *)

From Stdlib Require Import ZArith QArith Qround Lqa Lia List String Bool.
From Stdlib Require Import SpecFloat.
Import ListNotations.
Local Open Scope Z_scope.

(* ================================================================== *)
(** ** Python values *)

Module Py.

(** The exception classes that reach the waiter.  [KeyboardInterrupt]
    derives from [BaseException] only, all others from [Exception]. *)
Inductive exn : Type :=
| ValueError (msg : string)
| HTTPError (msg : string)
| RequestException (msg : string)
| TimeoutError (max_wait : Z)
| OverflowError (msg : string)
| OSError (msg : string)
| KeyboardInterrupt.

Definition is_Exception (e : exn) : bool :=
  match e with
  | KeyboardInterrupt => false
  | _ => true
  end.

(** [needle in s] on strings. *)
Fixpoint contains (needle s : string) : bool :=
  if String.prefix needle s then true
  else match s with
       | EmptyString => false
       | String _ s' => contains needle s'
       end.

(** [max(a, b)] and [min(a, b)]: the first argument wins a tie. *)
Definition Qlt_bool (a b : Q) : bool := negb (Qle_bool b a).
Definition max (a b : Q) : Q := if Qlt_bool a b then b else a.
Definition min (a b : Q) : Q := if Qlt_bool b a then b else a.

(** [d.get(key, default)] on an optional entry. *)
Definition get {A : Type} (entry : option A) (default : A) : A :=
  match entry with
  | Some v => v
  | None => default
  end.

#[local] Unset Elimination Schemes.
Inductive json : Type :=
| JNull
| JBool (b : bool)
| JNum (n : Z)
| JStr (s : string)
| JList (l : list json)
| JDict (d : list (string * json)).
#[local] Set Elimination Schemes.

Definition dict : Type := list (string * json).

Fixpoint dict_get (k : string) (d : dict) : option json :=
  match d with
  | [] => None
  | (k', v) :: d' => if String.eqb k k' then Some v else dict_get k d'
  end.

(** [d[k] = v]: an existing key keeps its place, a new one goes last. *)
Fixpoint dict_set (k : string) (v : json) (d : dict) : dict :=
  match d with
  | [] => [(k, v)]
  | (k', v') :: d' =>
      if String.eqb k k' then (k, v) :: d' else (k', v') :: dict_set k v d'
  end.

Definition truthy (v : json) : bool :=
  match v with
  | JNull => false
  | JBool b => b
  | JNum n => negb (n =? 0)
  | JStr s => negb (String.eqb s "")
  | JList l => match l with [] => false | _ => true end
  | JDict d => match d with [] => false | _ => true end
  end.

Definition nonempty (d : dict) : bool :=
  match d with
  | [] => false
  | _ => true
  end.

End Py.
Import Py.

(* ================================================================== *)
(** ** Python floats *)

(** A Python [float] is an IEEE-754 binary64 number: 53 bits of
    mantissa, rounding to nearest, ties to even. *)
Module Float.

Definition prec : Z := 53.
Definition emax : Z := 1024.

(** The double nearest to an int; an infinity when there is none. *)
Definition nearest (n : Z) : spec_float := binary_normalize prec emax n 0 false.

Definition is_finite (x : spec_float) : bool :=
  match x with
  | S754_zero _ => true
  | S754_finite _ _ _ => true
  | _ => false
  end.

(** [float(n)], as mixed arithmetic does it to an int operand: [None] is
    [OverflowError: int too large to convert to float]. *)
Definition of_int (n : Z) : option spec_float :=
  if is_finite (nearest n) then Some (nearest n) else None.

Definition mul (x y : spec_float) : spec_float := SFmul prec emax x y.

(** The exact value of a finite double. *)
Definition to_Q (x : spec_float) : Q :=
  match x with
  | S754_finite s m e =>
      let a := if 0 <=? e then inject_Z (Zpos m * 2 ^ e)
               else Zpos m # Z.to_pos (2 ^ (- e)) in
      if s then (- a)%Q else a
  | _ => 0%Q
  end.

(** [int(x)] drops the fraction, toward zero; [None] is the
    [OverflowError] (or [ValueError]) on an infinity (or a NaN). *)
Definition to_int (x : spec_float) : option Z :=
  match x with
  | S754_zero _ => Some 0
  | S754_finite s m e =>
      let a := if 0 <=? e then Zpos m * 2 ^ e else Zpos m / 2 ^ (- e) in
      Some (if s then - a else a)
  | _ => None
  end.

(** The literals [1.5] = 0x1.8p+0 and [0.1] = 0x1.999999999999ap-4. *)
Definition one_and_a_half : spec_float :=
  S754_finite false 6755399441055744 (-52).

Definition one_tenth : spec_float :=
  S754_finite false 7205759403792794 (-56).

End Float.

Definition int_too_large : exn :=
  OverflowError "int too large to convert to float".

Definition float_infinity : exn :=
  OverflowError "cannot convert float infinity to integer".

(* ================================================================== *)
(** ** The HTTP collaborator and the clock *)

(** What [session.request] hands back: the status code, the decoded body
    and the message the error branches dig out of it
    ([error_data.get('detail', error_data.get('error', ...))]). *)
Record response (B : Type) : Type := mkResponse {
  status_code : Z;
  body : B;
  error_message : string
}.
Arguments mkResponse {B} _ _ _.
Arguments status_code {B} _.
Arguments body {B} _.
Arguments error_message {B} _.

Inductive answer (B : Type) : Type :=
| Responds (r : response B)
| Throws (e : exn).
Arguments Responds {B} _.
Arguments Throws {B} _.

(** A status snapshot, the JSON body of [GET /api/tasks/{id}/status]. *)
Record status_info : Type := mkInfo {
  info_status : option string;
  info_estimate_time : option Z;
  info_message : option string;
  info_result : option dict
}.

(** The outside of the process: the service behind the two endpoints,
    the keyboard, and the terminal.  [display_raises results] is what
    [_display_results(results)] raises on that result, if anything (a
    [created_time] that [datetime.fromtimestamp] refuses, a field of the
    wrong type, Ctrl-C while printing). *)
Record env : Type := mkEnv {
  status_endpoint : nat -> answer status_info;
  results_endpoint : nat -> answer dict;
  sleep_interrupted : nat -> bool;
  display_raises : dict -> option exn
}.

(** What the environment saw of the process: each call with the clock
    reading at which it was made; a fetch with the status code it got
    ([None] when [session.request] threw instead). *)
Inductive event : Type :=
| GetStatus (at_time : Q) (code : option Z)
| GetResults (at_time : Q) (code : option Z)
| Sleep (at_time : Q) (secs : Q).

(** The running process as the environment sees it: the clock, how many
    calls of each kind were made, and the calls themselves, newest first. *)
Record world : Type := mkWorld {
  now : Q;
  status_calls : nat;
  results_calls : nat;
  sleep_calls : nat;
  log : list event
}.

Definition note_status (code : option Z) (w : world) : world :=
  mkWorld (now w) (S (status_calls w)) (results_calls w) (sleep_calls w)
          (GetStatus (now w) code :: log w).

Definition note_results (code : option Z) (w : world) : world :=
  mkWorld (now w) (status_calls w) (S (results_calls w)) (sleep_calls w)
          (GetResults (now w) code :: log w).

Definition note_sleep (secs : Q) (w : world) : world :=
  mkWorld (now w) (status_calls w) (results_calls w) (S (sleep_calls w))
          (Sleep (now w) secs :: log w).

Definition pass (secs : Q) (w : world) : world :=
  mkWorld (now w + secs)%Q (status_calls w) (results_calls w) (sleep_calls w)
          (log w).

Definition boot (t0 : Q) : world := mkWorld t0 0 0 0 [].

Definition trace (w : world) : list event := rev (log w).

(* ================================================================== *)
(** ** A state-and-exception monad over the world *)

Inductive res (A : Type) : Type :=
| Ok (a : A)
| Exc (e : exn)
| OutOfFuel.
Arguments Ok {A} _.
Arguments Exc {A} _.
Arguments OutOfFuel {A}.

Definition M (A : Type) : Type := world -> res A * world.

Definition ret {A} (a : A) : M A := fun w => (Ok a, w).

Definition raise {A} (e : exn) : M A := fun w => (Exc e, w).

Definition out_of_fuel {A} : M A := fun w => (OutOfFuel, w).

Definition bind {A B} (c : M A) (k : A -> M B) : M B :=
  fun w =>
    match c w with
    | (Ok a, w') => k a w'
    | (Exc e, w') => (Exc e, w')
    | (OutOfFuel, w') => (OutOfFuel, w')
    end.

(** [try: c except BaseException as e: ...] with the exception reified,
    so that the handler is ordinary code after it. *)
Definition attempt {A} (c : M A) : M (exn + A) :=
  fun w =>
    match c w with
    | (Ok a, w') => (Ok (inr a), w')
    | (Exc e, w') => (Ok (inl e), w')
    | (OutOfFuel, w') => (OutOfFuel, w')
    end.

Declare Scope py_scope.
Delimit Scope py_scope with py.
Notation "x <- c ;; k" := (bind c (fun x => k))
  (at level 100, c at next level, right associativity) : py_scope.
Notation "c ;; k" := (bind c (fun _ => k))
  (at level 100, right associativity) : py_scope.
Local Open Scope py_scope.

Definition time_time : M Q := fun w => (Ok (now w), w).

(** What [time.sleep] refuses: a negative length ([ValueError]), and a
    length of 2^63 nanoseconds or more, which the clock of the interpreter
    does not hold ([OverflowError]). *)
Definition negative_sleep : exn :=
  ValueError "sleep length must be non-negative".

Definition sleep_too_long : exn :=
  OverflowError "timestamp too large to convert to C _PyTime_t".

Definition longest_sleep : Q := 9223372036854775808 # 1000000000.

Definition refused (secs : Q) : option exn :=
  if Qlt_bool secs 0 then Some negative_sleep
  else if Qle_bool longest_sleep secs then Some sleep_too_long
  else None.

Section Client.

Variable E : env.

(** [time.sleep(secs)]: a length that was refused raises before the
    process is suspended at all. *)
Definition time_sleep (secs : Q) : M unit :=
  fun w =>
    match refused secs with
    | Some e => (Exc e, w)
    | None =>
        if sleep_interrupted E (sleep_calls w)
        then (Exc KeyboardInterrupt, note_sleep secs w)
        else (Ok tt, pass secs (note_sleep secs w))
    end.

(** [self._display_results(results)], as a call: it prints, or raises. *)
Definition _display_results (results : dict) : M unit :=
  match display_raises E results with
  | Some e => raise e
  | None => ret tt
  end.

(** [self._make_request('GET', f'/api/tasks/{task_id}/status')]. *)
Definition request_status : M (response status_info) :=
  fun w =>
    match status_endpoint E (status_calls w) with
    | Responds r => (Ok r, note_status (Some (status_code r)) w)
    | Throws e => (Exc e, note_status None w)
    end.

(** [self._make_request('GET', f'/api/tasks/{task_id}/results')]. *)
Definition request_results : M (response dict) :=
  fun w =>
    match results_endpoint E (results_calls w) with
    | Responds r => (Ok r, note_results (Some (status_code r)) w)
    | Throws e => (Exc e, note_results None w)
    end.

(* ---------------------------------------------------------------- *)
(** ** [get_task_status], [get_task_results] *)

Definition task_missing (task_id : string) : exn :=
  ValueError ("任务不存在: " ++ task_id).

Definition results_missing (task_id : string) : exn :=
  ValueError ("任务结果不存在: " ++ task_id).

Definition NOT_READY : string := "任务尚未完成".

Definition task_not_ready (task_id : string) : exn :=
  ValueError (NOT_READY ++ ": " ++ task_id).

Definition get_task_status (task_id : string) : M status_info :=
  response <- request_status ;;
  if status_code response =? 200 then ret (body response)
  else if status_code response =? 404 then raise (task_missing task_id)
  else raise (HTTPError ("查询状态失败: " ++ error_message response)).

Definition get_task_results (task_id : string) : M dict :=
  response <- request_results ;;
  if status_code response =? 200 then ret (body response)
  else if status_code response =? 404 then raise (results_missing task_id)
  else if status_code response =? 409 then raise (task_not_ready task_id)
  else raise (HTTPError ("获取结果失败: " ++ error_message response)).

(* ---------------------------------------------------------------- *)
(** ** [get_task_results_with_retry] *)

(** The wait chosen after the [retry_count]-th "not ready" answer.
    [//] is floor division of ints.  [estimate_time * 1.5] converts the
    int to a float, multiplies in floating point, and [int(...)] drops
    the fraction of the product; both conversions can raise
    [OverflowError]. *)
Definition retry_wait_time (estimate_time retry_count : Z) : exn + Z :=
  if retry_count =? 1 then inr (Z.max 5 (estimate_time / 2))
  else if retry_count =? 2 then inr (Z.max 10 estimate_time)
  else
    match Float.of_int estimate_time with
    | None => inl int_too_large
    | Some x =>
        match Float.to_int (Float.mul x Float.one_and_a_half) with
        | None => inl float_infinity
        | Some n => inr (Z.max 15 n)
        end
    end.

(** [for remaining in range(wait_time, 0, -1): time.sleep(1)]. *)
Fixpoint countdown (remaining : nat) : M unit :=
  match remaining with
  | O => ret tt
  | S r => time_sleep 1 ;; countdown r
  end.

(** The [while retry_count <= max_retries] loop.  A result of [None]
    is the loop ending without a [return]. *)
Fixpoint results_retry_loop (fuel : nat) (task_id : string)
    (estimate_time max_retries retry_count : Z) : M (option dict) :=
  match fuel with
  | O => out_of_fuel
  | S fuel' =>
      if retry_count <=? max_retries then
        r <- attempt (get_task_results task_id) ;;
        match r with
        | inr results => ret (Some results)
        | inl (ValueError msg) =>
            if contains NOT_READY msg then
              let retry_count := retry_count + 1 in
              if max_retries <? retry_count then raise (ValueError msg)
              else
                match retry_wait_time estimate_time retry_count with
                | inl overflow => raise overflow
                | inr wait_time =>
                    countdown (Z.to_nat wait_time) ;;
                    results_retry_loop fuel' task_id estimate_time max_retries
                                       retry_count
                end
            else raise (ValueError msg)
        | inl e => raise e
        end
      else ret None
  end.

(** Every turn of the loop that does not leave it adds one to
    [retry_count]: the fuel given here is never used up. *)
Definition get_task_results_with_retry (task_id : string)
    (estimate_time max_retries : Z) : M (option dict) :=
  results_retry_loop (S (Z.to_nat (max_retries + 1))) task_id estimate_time
                     max_retries 0.

(* ---------------------------------------------------------------- *)
(** ** [wait_for_completion] *)

(** [self.polling_config], a dict read with [.get(key, default)]. *)
Record polling_config : Type := mkConfig {
  cfg_respect_estimate_time : option bool;
  cfg_custom_interval_seconds : option Q;
  cfg_min_interval_seconds : option Q;
  cfg_max_interval_seconds : option Q;
  cfg_limited_retry_strategy : option bool;
  cfg_max_retries : option Z;
  cfg_retry_on_error : option bool
}.

Variable polling : polling_config.

Definition respect_estimate_time : bool :=
  get (cfg_respect_estimate_time polling) true.
Definition custom_interval : Q := get (cfg_custom_interval_seconds polling) 5%Q.
Definition min_interval : Q := get (cfg_min_interval_seconds polling) 2%Q.
Definition max_interval : Q := get (cfg_max_interval_seconds polling) 30%Q.
Definition limited_retry_strategy : bool :=
  get (cfg_limited_retry_strategy polling) true.
Definition max_retries : Z := get (cfg_max_retries polling) 3.
Definition retry_on_error : bool := get (cfg_retry_on_error polling) true.

(** What the function hands back: the embedded result with its two
    extra keys, a copy of the snapshot with ['status'] overwritten, the
    interruption notice, or (from [process_file]) the creation record. *)
Record task_info : Type := mkTask {
  task_id_of : string;
  task_status : option string;
  task_estimate_time : option Z
}.

Inductive retval : Type :=
| RetResult (result_data : dict)
| RetStatus (final_status : status_info)
| RetInterrupted (task_id : string)
| RetTask (info : task_info).

Definition set_status (s : string) (i : status_info) : status_info :=
  mkInfo (Some s) (info_estimate_time i) (info_message i) (info_result i).

(** The Wait Session: the two counters of the loop. *)
Record session : Type := mkSession {
  check_count : Z;
  error_count : Z
}.

Inductive step : Type :=
| Continue (s : session)
| Return (r : retval).

(** The pre-wait: [while True] around a one-second sleep. *)
Fixpoint estimate_wait (fuel : nat) (estimate_time : Z) (wait_start : Q)
    : M unit :=
  match fuel with
  | O => out_of_fuel
  | S fuel' =>
      t <- time_time ;;
      let elapsed_wait := (t - wait_start)%Q in
      if Qle_bool (inject_Z estimate_time) elapsed_wait then ret tt
      else time_sleep 1 ;; estimate_wait fuel' estimate_time wait_start
  end.

(** [estimate_time * 0.1] converts the int to a float first: the one
    place of the interval selection that can raise. *)
Definition interval_overflows (estimate_time : Z) (elapsed : Q) : bool :=
  respect_estimate_time && (0 <? estimate_time)
  && negb (Qle_bool (inject_Z estimate_time) elapsed)
  && negb (Float.is_finite (Float.nearest estimate_time)).

(** The interval chosen after a poll that did not end the wait. *)
Definition next_interval (estimate_time : Z) (elapsed : Q) (check_count : Z)
    : Q :=
  if negb respect_estimate_time then
    Py.max min_interval (Py.min custom_interval max_interval)
  else if (0 <? estimate_time) && Qle_bool (inject_Z estimate_time) elapsed then
    let overtime := (elapsed - inject_Z estimate_time)%Q in
    if Qlt_bool overtime 30 then 5%Q
    else if Qlt_bool overtime 120 then 10%Q
    else 15%Q
  else if 0 <? estimate_time then
    Py.max 5 (Float.to_Q (Float.mul (Float.nearest estimate_time)
                                    Float.one_tenth))
  else
    if check_count <=? 3 then 5%Q
    else if check_count <=? 10 then 10%Q
    else 15%Q.

Definition is_terminal_failure (status : string) : bool :=
  String.eqb status "failed" || String.eqb status "error"
  || String.eqb status "cancelled".

Definition embedded_result (i : status_info) : option dict :=
  match info_result i with
  | Some d => if nonempty d then Some d else None
  | None => None
  end.

Definition completed_now (i : status_info) : retval :=
  RetStatus (set_status "completed" i).

(** The [if status == 'completed': ... elif status in [...]] statement:
    either a [return], or the value of [status] it leaves behind. *)
Definition check_finished (task_id : string) (check_count : Z)
    (status_info : status_info) (status : string) : M (retval + string) :=
  if String.eqb status "completed" then
    match embedded_result status_info with
    | Some result_data =>
        let result_data :=
          dict_set "_already_displayed" (JBool true)
                   (dict_set "status" (JStr "completed") result_data) in
        _display_results result_data ;;
        ret (inl (RetResult result_data))
    | None =>
        if check_count <=? 3 then
          r <- attempt (get_task_results task_id) ;;
          match r with
          | inr _ => ret (inl (completed_now status_info))
          | inl (ValueError msg) =>
              if contains NOT_READY msg then ret (inr "running"%string)
              else ret (inl (completed_now status_info))
          | inl e =>
              if is_Exception e then ret (inl (completed_now status_info))
              else raise e
          end
        else ret (inl (completed_now status_info))
    end
  else if is_terminal_failure status then
    ret (inl (RetStatus (set_status status status_info)))
  else ret (inr status).

(** The rest of the [try] block once the snapshot is in hand. *)
Definition poll_body (task_id : string) (estimate_time : Z) (elapsed : Q)
    (s : session) (status_info : status_info) : M step :=
  let status := get (info_status status_info) "unknown"%string in
  verdict <- check_finished task_id (check_count s) status_info status ;;
  match verdict with
  | inl r => ret (Return r)
  | inr _ =>
      if interval_overflows estimate_time elapsed then raise int_too_large
      else
        let interval := next_interval estimate_time elapsed (check_count s) in
        time_sleep interval ;;
        if limited_retry_strategy && (max_retries <=? check_count s) then
          ret (Return (RetStatus (set_status "polling_limit_reached"
                                             status_info)))
        else ret (Continue s)
  end.

(** The two [except] clauses of the loop. *)
Definition on_exception (task_id : string) (s : session) (e : exn) : M step :=
  match e with
  | KeyboardInterrupt => ret (Return (RetInterrupted task_id))
  | _ =>
      if negb retry_on_error then raise e
      else
        let error_count := error_count s + 1 in
        if error_count <=? 3 then
          time_sleep 5 ;;
          ret (Continue (mkSession (check_count s) error_count))
        else raise e
  end.

(** One turn of the poll loop. *)
Definition poll_iteration (task_id : string) (estimate_time max_wait : Z)
    (start_time : Q) (s : session) : M step :=
  t <- time_time ;;
  let elapsed := (t - start_time)%Q in
  if Qlt_bool (inject_Z max_wait) elapsed then raise (TimeoutError max_wait)
  else
    fetched <- attempt (get_task_status task_id) ;;
    match fetched with
    | inl e => on_exception task_id s e
    | inr status_info =>
        let s1 := mkSession (check_count s + 1) 0 in
        ran <- attempt (poll_body task_id estimate_time elapsed s1 status_info) ;;
        match ran with
        | inl e => on_exception task_id s1 e
        | inr next => ret next
        end
    end.

Fixpoint poll_loop (fuel : nat) (task_id : string) (estimate_time max_wait : Z)
    (start_time : Q) (s : session) : M retval :=
  match fuel with
  | O => out_of_fuel
  | S fuel' =>
      next <- poll_iteration task_id estimate_time max_wait start_time s ;;
      match next with
      | Return r => ret r
      | Continue s' =>
          poll_loop fuel' task_id estimate_time max_wait start_time s'
      end
  end.

Definition wait_for_completion (fuel : nat) (task_id : string)
    (estimate_time max_wait : Z) : M retval :=
  start_time <- time_time ;;
  (if (0 <? estimate_time) && respect_estimate_time then
     wait_start <- time_time ;;
     estimate_wait fuel estimate_time wait_start
   else ret tt) ;;
  poll_loop fuel task_id estimate_time max_wait start_time (mkSession 0 0).

(* ---------------------------------------------------------------- *)
(** ** [process_file], from the creation record on *)

(** [final_status.get('status')]. *)
Definition status_of (r : retval) : option string :=
  match r with
  | RetResult d =>
      match dict_get "status" d with
      | Some (JStr s) => Some s
      | _ => None
      end
  | RetStatus i => info_status i
  | RetInterrupted _ => Some "interrupted"%string
  | RetTask t => task_status t
  end.

(** [final_status.get('_already_displayed')]. *)
Definition already_displayed (r : retval) : bool :=
  match r with
  | RetResult d =>
      match dict_get "_already_displayed" d with
      | Some v => truthy v
      | None => false
      end
  | _ => false
  end.

(** [final_status['status'] = 'completed']. *)
Definition mark_completed (r : retval) : retval :=
  match r with
  | RetResult d => RetResult (dict_set "status" (JStr "completed") d)
  | RetStatus i => RetStatus (set_status "completed" i)
  | RetInterrupted _ => r
  | RetTask t => RetTask (mkTask (task_id_of t) (Some "completed"%string)
                                 (task_estimate_time t))
  end.

Definition is_completed (r : retval) : bool :=
  match status_of r with
  | Some s => String.eqb s "completed"
  | None => false
  end.

(** The [try: ... except KeyboardInterrupt] that ends [process_file]. *)
Definition await_task (fuel : nat) (task_id : string) (estimate_time : Z)
    : M retval :=
  ran <- attempt
    (final_status <- wait_for_completion fuel task_id estimate_time 1800 ;;
     if is_completed final_status then
       if already_displayed final_status then ret final_status
       else
         fetched <- attempt
           (results <- get_task_results_with_retry task_id estimate_time 3 ;;
            match results with
            | Some results =>
                if nonempty results then
                  _display_results results ;;
                  ret (Some (RetResult
                               (dict_set "status" (JStr "completed") results)))
                else ret None
            | None => ret None
            end) ;;
         match fetched with
         | inr (Some shown) => ret shown
         | inr None => ret (mark_completed final_status)
         | inl e =>
             if is_Exception e then ret (mark_completed final_status)
             else raise e
         end
     else ret final_status) ;;
  match ran with
  | inr r => ret r
  | inl KeyboardInterrupt => ret (RetInterrupted task_id)
  | inl e => raise e
  end.

Definition process_file (fuel : nat) (created : task_info)
    (wait_for_completion_flag : bool) : M retval :=
  let task_id := task_id_of created in
  let task_status := get (task_status created) "processing"%string in
  let estimate_time := get (task_estimate_time created) 0 in
  found <-
    (if String.eqb task_status "duplicated" then
       r <- attempt
         (results <- get_task_results task_id ;;
          if nonempty results then
            _display_results results ;;
            ret (Some (RetResult
                         (dict_set "status" (JStr "completed") results)))
          else ret None) ;;
       match r with
       | inr found => ret found
       | inl e => if is_Exception e then ret None else raise e
       end
     else ret None) ;;
  match found with
  | Some r => ret r
  | None =>
      if negb wait_for_completion_flag then ret (RetTask created)
      else await_task fuel task_id estimate_time
  end.

End Client.

(* ================================================================== *)
(** ** Environments and runs used in the examples *)

Definition script {B : Type} (l : list (answer B)) (rest : answer B)
    : nat -> answer B :=
  fun n => nth n l rest.

Definition http {B : Type} (code : Z) (b : B) : answer B :=
  Responds (mkResponse code b "").

Definition snapshot (s : string) : status_info :=
  mkInfo (Some s) None None None.

Definition snapshot_with (s : string) (result : dict) : status_info :=
  mkInfo (Some s) None None (Some result).

Definition never (n : nat) : bool := false.

(** A terminal that takes every result. *)
Definition prints (results : dict) : option exn := None.


(** [polling_config or {...}]: no key set. *)
Definition defaults : polling_config :=
  mkConfig None None None None None None None.

Definition unlimited : polling_config :=
  mkConfig None None None None (Some false) None None.

Definition fail_fast : polling_config :=
  mkConfig None None None None None None (Some false).

(** The outcome, the events in the order they happened, and the clock. *)
Definition run {A : Type} (c : M A) (w : world) : res A * list event * Q :=
  let (r, w') := c w in (r, trace w', now w').

(** How many status fetches in a log came back with code 200. *)
Fixpoint polls_in (l : list event) : Z :=
  match l with
  | [] => 0
  | GetStatus _ (Some code) :: l' =>
      (if code =? 200 then 1 else 0) + polls_in l'
  | _ :: l' => polls_in l'
  end.

(** The task is never known under its identifier, then completes. *)
Definition unknown_then_done : env :=
  mkEnv (script [http 404 (snapshot "")]
                (http 200 (snapshot_with "completed" [("groups"%string, JNum 7)])))
        (fun _ => http 200 [])
        never prints.

Definition always_running : env :=
  mkEnv (fun _ => http 200 (snapshot "running"))
        (fun _ => http 409 [])
        never prints.

(** The service says completed but keeps the results back. *)
Definition early_completed : env :=
  mkEnv (fun _ => http 200 (snapshot "completed"))
        (fun _ => http 409 [])
        never prints.


Definition always_failing : env :=
  mkEnv (fun _ => Throws (RequestException "connection refused"))
        (fun _ => http 409 []) never prints.

(** Three failures, one good fetch, then failures again. *)
Definition flaky : env :=
  mkEnv (fun n => if (n =? 3)%nat then http 200 (snapshot "running")
                  else http 500 (snapshot ""))
        (fun _ => http 409 []) never prints.

(* ================================================================== *)
(** ** Relations between the world before and after a piece of the run *)

(** No poll was added. *)
Definition same_polls (w w' : world) : Prop :=
  polls_in (log w') = polls_in (log w).




(* ================================================================== *)
(** ** The retry waits as the specification words them *)

(** "attempt 1 waits max(5, estimate/2); attempt 2 waits max(10, estimate);
    attempt 3+ waits max(15, estimate*1.5)", in exact arithmetic. *)
Definition spec_retry_wait (estimate : Z) (attempt : Z) : Q :=
  if attempt =? 1 then Py.max 5 (inject_Z estimate / 2)
  else if attempt =? 2 then Py.max 10 (inject_Z estimate)
  else Py.max 15 (inject_Z estimate * (3 # 2)).

Definition always_not_ready : env :=
  mkEnv (fun _ => http 200 (snapshot "completed"))
        (fun _ => http 409 [])
        never prints.

(* ================================================================== *)
(** ** More environments *)

Definition failed_snapshot : status_info :=
  mkInfo (Some "failed"%string) None (Some "quota exceeded"%string) None.

Definition failing_task : env :=
  mkEnv (fun _ => http 200 failed_snapshot) (fun _ => http 409 []) never prints.

(** The task completes, the results endpoint is out of order. *)
Definition broken_results : env :=
  mkEnv (fun _ => http 200 (snapshot "completed"))
        (fun _ => http 500 [])
        never prints.

(** A computation that never runs out of fuel, whatever the world. *)
Definition ends {A : Type} (c : M A) : Prop :=
  forall w, fst (c w) <> OutOfFuel.

(** The results are ready on the second call. *)
Definition ready_on_retry : env :=
  mkEnv (fun _ => http 200 (snapshot "completed"))
        (script [http 409 []] (http 200 [("groups"%string, JNum 7)]))
        never prints.

(** A task that was submitted before and whose results are kept. *)
Definition kept_results : env :=
  mkEnv (fun _ => http 200 (snapshot "running"))
        (fun _ => http 200 [("groups"%string, JNum 7)])
        never prints.

Definition duplicate_task : task_info :=
  mkTask "t1" (Some "duplicated"%string) (Some 0).

Definition fresh_task : task_info :=
  mkTask "t1" (Some "processing"%string) (Some 30).

(* ================================================================== *)
(** ** [create_task] *)

(** What [create_task] raises: [FileNotFoundError], or one of [exn]. *)
Inductive raised : Type :=
| FileNotFoundError (msg : string)
| Raised (e : exn).

(** The file to send, as the operating system shows it:
    [os.path.exists(file_path)]; what [open(file_path, 'rb')] and
    [f.read()] raise, if anything (the path is a directory, the file may
    not be read, it was removed in between); [os.path.basename(file_path)],
    [os.path.splitext(file_name)[1].lower()] and
    [base64.b64encode(file_content).decode('utf-8')]. *)
Record upload : Type := mkUpload {
  file_exists : bool;
  read_error : option raised;
  file_name : string;
  file_ext : string;
  encoded_content : string
}.

(** The JSON body of [POST /api/tasks], and the dict [create_task] makes
    up for a duplicate. *)
Record creation : Type := mkCreation {
  c_task_id : option string;
  c_status : option string;
  c_task_name : option string;
  c_message : option string;
  c_estimate_time : option Z
}.

(** [{'function': ..., 'task_name': ..., 'file_name': ...,
      'file_content': ..., **params}]. *)
Definition request_payload (function task_name : string) (f : upload)
    (params : dict) : dict :=
  fold_left (fun d kv => dict_set (fst kv) (snd kv) d) params
            [("function"%string, JStr function);
             ("task_name"%string, JStr task_name);
             ("file_name"%string, JStr (file_name f));
             ("file_content"%string, JStr (encoded_content f))].

(** [post] is the service behind [POST /api/tasks]: what it answers to a
    payload. *)
Definition create_task (post : dict -> answer creation)
    (function file_path task_name : string) (params : dict) (f : upload)
    : raised + creation :=
  if negb (file_exists f) then
    inl (FileNotFoundError ("文件不存在: " ++ file_path))
  else
    match read_error f with
    | Some e => inl e
    | None =>
        if String.eqb function "group-only"
           && negb (String.eqb (file_ext f) ".json") then
          inl (Raised (ValueError
                         ("group-only功能需要JSON文件，当前文件类型: "
                          ++ file_ext f)))
        else if String.eqb function "scrap-and-group"
                && negb (String.eqb (file_ext f) ".csv"
                         || String.eqb (file_ext f) ".txt") then
          inl (Raised (ValueError
                         ("scrap-and-group功能需要CSV或TXT文件，当前文件类型: "
                          ++ file_ext f)))
        else
          match post (request_payload function task_name f params) with
          | Throws e => inl (Raised e)
          | Responds response =>
              let code := status_code response in
              if (code =? 200) || (code =? 201) || (code =? 202)
                 || (code =? 409) then
                let result := body response in
                let status := get (c_status result) "unknown"%string in
                if (code =? 409) || String.eqb status "duplicated" then
                  inr (mkCreation (c_task_id result)
                                  (Some "duplicated"%string)
                                  (Some (get (c_task_name result) task_name))
                                  (Some (get (c_message result)
                                             "Task already exists"%string))
                                  (Some 0))
                else inr result
              else
                inl (Raised (HTTPError
                               ("API Error: " ++ error_message response)))
          end
    end.

Definition keywords_json : upload :=
  mkUpload true None "keywords.json" ".json" "W10=".

Definition keywords_csv : upload :=
  mkUpload true None "keywords.csv" ".csv" "YQ==".

(** A directory that goes by the name of a CSV file. *)
Definition is_a_directory : raised :=
  Raised (OSError "[Errno 21] Is a directory: 'data/keywords.csv'").

Definition csv_directory : upload :=
  mkUpload true (Some is_a_directory) "keywords.csv" ".csv" "".

(** A service that knows the task already. *)
Definition known_task (payload : dict) : answer creation :=
  Responds (mkResponse 409
              (mkCreation (Some "t1"%string) None None None (Some 45)) "").

(* ================================================================== *)
(** ** [load_settings] *)

(** [k in d] on a dict. *)
Definition has_key (k : string) (d : dict) : bool :=
  match dict_get k d with
  | Some _ => true
  | None => false
  end.

(** [v == s] for a string [s]. *)
Definition is_str (s : string) (v : json) : bool :=
  match v with
  | JStr t => String.eqb t s
  | _ => false
  end.

(** [if sub_key not in section: section[sub_key] = sub_value], where
    [section] is whatever the file has under the key.  [in] looks for a
    key in a dict, for a substring in a string, for an element in a list,
    and raises [TypeError] on the rest; item assignment with a string key
    raises [TypeError] on all but a dict.  [None] is that error. *)
Definition fill_entry (section : json) (sub_key : string) (sub_value : json)
    : option json :=
  match section with
  | JDict d =>
      if has_key sub_key d then Some section
      else Some (JDict (dict_set sub_key sub_value d))
  | JStr s => if contains sub_key s then Some section else None
  | JList l => if existsb (is_str sub_key) l then Some section else None
  | _ => None
  end.

(** [for sub_key, sub_value in value.items(): ...]. *)
Fixpoint fill_section (entries : dict) (section : json) : option json :=
  match entries with
  | [] => Some section
  | (sub_key, sub_value) :: rest =>
      match fill_entry section sub_key sub_value with
      | Some section' => fill_section rest section'
      | None => None
      end
  end.

(** The body of [for key, value in default_settings.items()]. *)
Definition merge_entry (settings : dict) (key : string) (value : json)
    : option dict :=
  match dict_get key settings with
  | None => Some (dict_set key value settings)
  | Some section =>
      match value with
      | JDict sub =>
          match fill_section sub section with
          | Some section' => Some (dict_set key section' settings)
          | None => None
          end
      | _ => Some settings
      end
  end.

Fixpoint merge_defaults (default_settings settings : dict) : option dict :=
  match default_settings with
  | [] => Some settings
  | (key, value) :: rest =>
      match merge_entry settings key value with
      | Some settings' => merge_defaults rest settings'
      | None => None
      end
  end.

(** What is on disk: no [settings.json]; one that is gone when [open]
    looks for it ([FileNotFoundError]); one that [json.load] cannot parse
    ([json.JSONDecodeError]); one that cannot be opened or decoded at all
    ([PermissionError], [IsADirectoryError], [UnicodeDecodeError]); or its
    content, a JSON object. *)
Inductive settings_file : Type :=
| NoFile
| Vanished
| NotJson
| Unreadable
| Content (settings : dict).

(** [default_settings] is the literal of the source, taken as a parameter
    (it holds floats, which [JNum] does not).  The [except] clause names
    [json.JSONDecodeError] and [FileNotFoundError] only: [None] is an
    exception that leaves the function, the [TypeError] of the merge or
    the error of a file that cannot be opened or decoded. *)
Definition load_settings (default_settings : dict) (file : settings_file)
    : option dict :=
  match file with
  | NoFile => Some default_settings
  | Vanished => Some default_settings
  | NotJson => Some default_settings
  | Unreadable => None
  | Content settings => merge_defaults default_settings settings
  end.

(** The "polling" part of the defaults, and a file that sets two keys. *)
Definition polling_defaults : dict :=
  [("api_key"%string, JStr "");
   ("polling"%string,
    JDict [("respect_estimate_time"%string, JBool true);
           ("custom_interval_seconds"%string, JNum 5);
           ("max_retries"%string, JNum 3)])].

Definition my_settings : dict :=
  [("polling"%string, JDict [("max_retries"%string, JNum 10)]);
   ("api_key"%string, JStr "secret")].

(* ================================================================== *)
(** ** [_display_results] and [__init__] *)

(** The three printers [_display_results] chooses from. *)
Inductive rendering : Type :=
| RenderV2
| RenderLegacy
| RenderUnknown.

(** Which printer gets the results.  [None] is the [AttributeError] of
    [results.get] on a value that is not a dict. *)
Definition display_results (results : json) : option rendering :=
  match results with
  | JDict d =>
      let response_version := get (dict_get "response_version" d) (JStr "1.0") in
      if is_str "2.0" response_version || has_key "task" d then Some RenderV2
      else if match results with
              | JList (_ :: _) => true
              | _ => false
              end
           then Some RenderLegacy
      else Some RenderUnknown
  | _ => None
  end.

(** [bool(polling_config)] of a config dict with none of the known keys. *)
Definition no_key_set (pc : polling_config) : bool :=
  match pc with
  | mkConfig None None None None None None None => true
  | _ => false
  end.

(** [self.polling_config = polling_config or {...}]: the four keys the
    constructor falls back to. *)
Definition init_polling_config (given : option polling_config)
    : polling_config :=
  let fallback :=
    mkConfig (Some true) (Some 5%Q) (Some 2%Q) (Some 30%Q) None None None in
  match given with
  | None => fallback
  | Some pc => if no_key_set pc then fallback else pc
  end.

(* ================================================================== *)
(** ** What can keep a turn from its sleep *)

(** What the sleep of a turn raises before the process is suspended, if
    anything: the [OverflowError] of [estimate_time * 0.1], or what
    [time.sleep] raises on a length it refuses. *)
Definition sleep_refused (P : polling_config) (estimate_time : Z)
    (elapsed : Q) (n : Z) : option exn :=
  if interval_overflows P estimate_time elapsed then Some int_too_large
  else refused (next_interval P estimate_time elapsed n).

(** The 53-bit mantissa of an integer of at most 53 bits. *)
Definition mantissa (p : positive) : positive :=
  Z.to_pos (2 ^ (53 - Zpos (digits2_pos p)) * Zpos p).

(** The world after [k] sleeps of one second that ran to their end. *)
Fixpoint slept (k : nat) (w : world) : world :=
  match k with
  | O => w
  | S k' => slept k' (pass 1 (note_sleep 1 w))
  end.









(* ================================================================== *)
(** * Properties *)

(** ** Strings and comparisons *)

Lemma prefix_app (p s : string) : String.prefix p (p ++ s) = true.
Proof.
  induction p as [|c p IH]; simpl.
  - destruct s; reflexivity.
  - destruct (Ascii.ascii_dec c c); [exact IH | congruence].
Qed.

Lemma contains_prefix (p s : string) : contains p (p ++ s) = true.
Proof.
  generalize (prefix_app p s). generalize (p ++ s)%string.
  intros t H. destruct t; cbn [contains]; rewrite H; reflexivity.
Qed.

Lemma not_ready_recognised (task_id : string) :
  contains NOT_READY (NOT_READY ++ ": " ++ task_id) = true.
Proof. apply contains_prefix. Qed.

Lemma Qlt_bool_true (a b : Q) : Qlt_bool a b = true <-> (a < b)%Q.
Proof.
  unfold Qlt_bool. destruct (Qle_bool b a) eqn:H; simpl.
  - apply Qle_bool_iff in H. split; [discriminate | intro; lra].
  - split; [intros _ | reflexivity].
    apply Qnot_le_lt. intro H'. apply Qle_bool_iff in H'. congruence.
Qed.

Lemma Qlt_bool_false (a b : Q) : Qlt_bool a b = false <-> (b <= a)%Q.
Proof.
  unfold Qlt_bool. destruct (Qle_bool b a) eqn:H; simpl.
  - apply Qle_bool_iff in H. split; [intros _; exact H | reflexivity].
  - split; [discriminate | intro H'].
    apply Qle_bool_iff in H'. congruence.
Qed.

(** ** The calls to the outside, one by one *)

Section Calls.

Variable E : env.
Variable P : polling_config.

Lemma refused_nonneg (secs : Q) : refused secs = None -> (0 <= secs)%Q.
Proof.
  unfold refused. destruct (Qlt_bool secs 0) eqn:H0; [discriminate|].
  intros _. apply Qlt_bool_false. exact H0.
Qed.

Lemma refused_none (secs : Q) :
  (0 <= secs)%Q -> (secs < longest_sleep)%Q -> refused secs = None.
Proof.
  intros H0 H1. unfold refused.
  apply Qlt_bool_false in H0. rewrite H0.
  destruct (Qle_bool longest_sleep secs) eqn:Hq; [|reflexivity].
  apply Qle_bool_iff in Hq. lra.
Qed.

Lemma refused_Exception (secs : Q) (e : exn) :
  refused secs = Some e -> is_Exception e = true.
Proof.
  unfold refused. destruct (Qlt_bool secs 0).
  - intro H. inversion H. reflexivity.
  - destruct (Qle_bool longest_sleep secs); [|discriminate].
    intro H. inversion H. reflexivity.
Qed.

Lemma time_sleep_done (secs : Q) (w : world) :
  refused secs = None ->
  sleep_interrupted E (sleep_calls w) = false ->
  time_sleep E secs w = (Ok tt, pass secs (note_sleep secs w)).
Proof. intros H0 H. unfold time_sleep. rewrite H0, H. reflexivity. Qed.


Lemma time_sleep_refused (secs : Q) (w : world) (e : exn) :
  refused secs = Some e -> time_sleep E secs w = (Exc e, w).
Proof. intro H0. unfold time_sleep. rewrite H0. reflexivity. Qed.

Lemma get_task_status_200 (task_id : string) (w : world) (r : response status_info) :
  status_endpoint E (status_calls w) = Responds r ->
  status_code r = 200 ->
  get_task_status E task_id w = (Ok (body r), note_status (Some 200) w).
Proof.
  intros Ha Hc. unfold get_task_status, bind, request_status.
  rewrite Ha, Hc. reflexivity.
Qed.

Lemma get_task_status_404 (task_id : string) (w : world) (r : response status_info) :
  status_endpoint E (status_calls w) = Responds r ->
  status_code r = 404 ->
  get_task_status E task_id w = (Exc (task_missing task_id), note_status (Some 404) w).
Proof.
  intros Ha Hc. unfold get_task_status, bind, request_status.
  rewrite Ha, Hc. reflexivity.
Qed.



Lemma get_task_results_409 (task_id : string) (w : world) (r : response dict) :
  results_endpoint E (results_calls w) = Responds r ->
  status_code r = 409 ->
  get_task_results E task_id w =
    (Exc (task_not_ready task_id), note_results (Some 409) w).
Proof.
  intros Ha Hc. unfold get_task_results, bind, request_results.
  rewrite Ha, Hc. reflexivity.
Qed.

(** ** One turn of the poll loop, by what the status fetch did *)

Lemma poll_iteration_timeout (task_id : string) (estimate_time max_wait : Z)
    (start_time : Q) (s : session) (w : world) :
  (inject_Z max_wait < now w - start_time)%Q ->
  poll_iteration E P task_id estimate_time max_wait start_time s w =
    (Exc (TimeoutError max_wait), w).
Proof.
  intro H. apply Qlt_bool_true in H.
  unfold poll_iteration, bind, time_time. rewrite H. reflexivity.
Qed.

Lemma poll_iteration_unfold (task_id : string) (estimate_time max_wait : Z)
    (start_time : Q) (s : session) (w : world) :
  (now w - start_time <= inject_Z max_wait)%Q ->
  poll_iteration E P task_id estimate_time max_wait start_time s w =
    match get_task_status E task_id w with
    | (Ok status_info, w1) =>
        let s1 := mkSession (check_count s + 1) 0 in
        match poll_body E P task_id estimate_time (now w - start_time) s1
                        status_info w1 with
        | (Ok next, w2) => (Ok next, w2)
        | (Exc e, w2) => on_exception E P task_id s1 e w2
        | (OutOfFuel, w2) => (OutOfFuel, w2)
        end
    | (Exc e, w1) => on_exception E P task_id s e w1
    | (OutOfFuel, w1) => (OutOfFuel, w1)
    end.
Proof.
  intro H. apply Qlt_bool_false in H.
  unfold poll_iteration, bind, time_time, attempt. rewrite H.
  destruct (get_task_status E task_id w) as [[i|e|] w1]; try reflexivity.
  cbv zeta.
  destruct (poll_body E P task_id estimate_time (now w - start_time)
              {| check_count := check_count s + 1; error_count := 0 |} i w1)
    as [[next|e|] w2]; reflexivity.
Qed.

(** The [except Exception] clause, spelled out. *)
Lemma on_exception_Exception (task_id : string) (s : session) (e : exn) (w : world) :
  is_Exception e = true ->
  on_exception E P task_id s e w =
    if negb (retry_on_error P) then (Exc e, w)
    else if error_count s + 1 <=? 3 then
      if sleep_interrupted E (sleep_calls w)
      then (Exc KeyboardInterrupt, note_sleep 5 w)
      else (Ok (Continue (mkSession (check_count s) (error_count s + 1))),
            pass 5 (note_sleep 5 w))
    else (Exc e, w).
Proof.
  intro He. unfold on_exception.
  destruct e; try discriminate He;
    (destruct (negb (retry_on_error P)); [reflexivity|];
     destruct (error_count s + 1 <=? 3); [|reflexivity];
     unfold bind, time_sleep; change (refused 5) with (@None exn); cbv iota;
     destruct (sleep_interrupted E (sleep_calls w)); reflexivity).
Qed.

Lemma on_exception_interrupt (task_id : string) (s : session) (w : world) :
  on_exception E P task_id s KeyboardInterrupt w =
    (Ok (Return (RetInterrupted task_id)), w).
Proof. reflexivity. Qed.

End Calls.

(** ** Frame rules

    A relation between the world before and after that every call to the
    outside respects is respected by every function of the client.  Only
    sleeps of a length that is not negative need to respect it: the others
    raise and leave the world as it is. *)

Section Frame.

Variable E : env.
Variable P : polling_config.
Variable R : world -> world -> Prop.

Hypothesis R_refl : forall w, R w w.
Hypothesis R_trans : forall a b c, R a b -> R b c -> R a c.
Hypothesis R_sleep : forall secs w,
  (0 <= secs)%Q ->
  R w (note_sleep secs w) /\ R w (pass secs (note_sleep secs w)).
Hypothesis R_results : forall c w, R w (note_results c w).
Hypothesis R_status : forall c w, R w (note_status c w).

Lemma ret_frame {A} (a : A) (w : world) : R w (snd (ret a w)).
Proof. apply R_refl. Qed.

Lemma raise_frame {A} (e : exn) (w : world) : R w (snd (@raise A e w)).
Proof. apply R_refl. Qed.

Lemma bind_frame {A B} (c : M A) (k : A -> M B) (w : world) :
  R w (snd (c w)) ->
  (forall a w1, R w1 (snd (k a w1))) ->
  R w (snd (bind c k w)).
Proof.
  intros Hc Hk. unfold bind.
  destruct (c w) as [[a|e|] w1]; simpl in *; auto.
  apply R_trans with w1; auto.
Qed.

Lemma attempt_frame {A} (c : M A) (w : world) :
  R w (snd (c w)) -> R w (snd (attempt c w)).
Proof.
  intros Hc. unfold attempt.
  destruct (c w) as [[a|e|] w1]; simpl in *; auto.
Qed.

Lemma time_sleep_frame (secs : Q) (w : world) :
  R w (snd (time_sleep E secs w)).
Proof.
  unfold time_sleep. destruct (refused secs) eqn:H0; [apply R_refl|].
  apply refused_nonneg in H0. destruct (R_sleep secs w H0) as [H1 H2].
  destruct (sleep_interrupted E (sleep_calls w)); assumption.
Qed.

Lemma display_frame (results : dict) (w : world) :
  R w (snd (_display_results E results w)).
Proof.
  unfold _display_results. destruct (display_raises E results); apply R_refl.
Qed.

Lemma get_task_results_frame (task_id : string) (w : world) :
  R w (snd (get_task_results E task_id w)).
Proof.
  unfold get_task_results. apply bind_frame.
  - unfold request_results.
    destruct (results_endpoint E (results_calls w)); apply R_results.
  - intros r w1.
    repeat match goal with |- context [if ?b then _ else _] => destruct b end;
      apply R_refl.
Qed.


Lemma countdown_frame (n : nat) (w : world) :
  R w (snd (countdown E n w)).
Proof.
  revert w. induction n as [|n IH]; intro w; simpl.
  - apply R_refl.
  - apply bind_frame; [apply time_sleep_frame | intros _ w1; apply IH].
Qed.

Lemma check_finished_frame (task_id : string) (n : Z) (i : status_info)
    (status : string) (w : world) :
  R w (snd (check_finished E task_id n i status w)).
Proof.
  unfold check_finished.
  destruct (String.eqb status "completed").
  - destruct (embedded_result i).
    { apply bind_frame; [apply display_frame | intros; apply R_refl]. }
    destruct (n <=? 3); [|apply R_refl].
    apply bind_frame.
    + apply attempt_frame, get_task_results_frame.
    + intros [e|d] w1; [|apply R_refl].
      destruct e; simpl; try apply R_refl.
      destruct (contains NOT_READY msg); apply R_refl.
  - destruct (is_terminal_failure status); apply R_refl.
Qed.

Lemma poll_body_frame (task_id : string) (estimate_time : Z) (elapsed : Q)
    (s : session) (i : status_info) (w : world) :
  R w (snd (poll_body E P task_id estimate_time elapsed s i w)).
Proof.
  unfold poll_body. apply bind_frame.
  - apply check_finished_frame.
  - intros [r|st] w1; [apply R_refl|].
    destruct (interval_overflows P estimate_time elapsed); [apply R_refl|].
    apply bind_frame; [apply time_sleep_frame|].
    intros _ w2.
    destruct (limited_retry_strategy P && (max_retries P <=? check_count s));
      apply R_refl.
Qed.

Lemma on_exception_frame (task_id : string) (s : session) (e : exn) (w : world) :
  R w (snd (on_exception E P task_id s e w)).
Proof.
  unfold on_exception.
  destruct e; try apply R_refl;
    (destruct (negb (retry_on_error P)); [apply R_refl|];
     destruct (error_count s + 1 <=? 3); [|apply R_refl];
     apply bind_frame; [apply time_sleep_frame | intros; apply R_refl]).
Qed.




End Frame.

(** ** What a fetched snapshot leads to *)

Section Verdicts.

Variable E : env.
Variable P : polling_config.

Lemma check_finished_unfinished (task_id : string) (n : Z) (i : status_info)
    (status : string) (w : world) :
  String.eqb status "completed" = false ->
  is_terminal_failure status = false ->
  check_finished E task_id n i status w = (Ok (inr status), w).
Proof.
  intros Hc Ht. unfold check_finished. rewrite Hc, Ht. reflexivity.
Qed.

Lemma check_finished_embedded (task_id : string) (n : Z) (i : status_info)
    (d : dict) (w : world) :
  embedded_result i = Some d ->
  check_finished E task_id n i "completed" w =
    let shown := dict_set "_already_displayed" (JBool true)
                          (dict_set "status" (JStr "completed") d) in
    match display_raises E shown with
    | Some e => (Exc e, w)
    | None => (Ok (inl (RetResult shown)), w)
    end.
Proof.
  intros Hd. unfold check_finished. rewrite Hd.
  cbn [String.eqb Ascii.eqb Bool.eqb]. cbv zeta.
  unfold bind, _display_results.
  destruct (display_raises E _); reflexivity.
Qed.

Lemma check_finished_not_ready (task_id : string) (n : Z) (i : status_info)
    (r : response dict) (w : world) :
  embedded_result i = None ->
  n <= 3 ->
  results_endpoint E (results_calls w) = Responds r ->
  status_code r = 409 ->
  check_finished E task_id n i "completed" w =
    (Ok (inr "running"%string), note_results (Some 409) w).
Proof.
  intros Hd Hn Ha Hc. apply Z.leb_le in Hn.
  unfold check_finished. rewrite Hd, Hn. cbn [String.eqb Ascii.eqb Bool.eqb].
  unfold bind, attempt. rewrite (get_task_results_409 E task_id w r Ha Hc).
  unfold task_not_ready. rewrite not_ready_recognised. reflexivity.
Qed.

Lemma check_finished_trusted (task_id : string) (n : Z) (i : status_info)
    (w : world) :
  embedded_result i = None ->
  3 < n ->
  check_finished E task_id n i "completed" w = (Ok (inl (completed_now i)), w).
Proof.
  intros Hd Hn. apply Z.leb_gt in Hn.
  unfold check_finished. rewrite Hd, Hn. reflexivity.
Qed.

Lemma poll_body_returns (task_id : string) (estimate_time : Z) (elapsed : Q)
    (s : session) (i : status_info) (w w1 : world) (r : retval) :
  check_finished E task_id (check_count s) i (get (info_status i) "unknown"%string) w
    = (Ok (inl r), w1) ->
  poll_body E P task_id estimate_time elapsed s i w = (Ok (Return r), w1).
Proof.
  intro H. unfold poll_body, bind. rewrite H. reflexivity.
Qed.

Lemma poll_body_goes_on (task_id : string) (estimate_time : Z) (elapsed : Q)
    (s : session) (i : status_info) (w w1 : world) (status : string) :
  check_finished E task_id (check_count s) i (get (info_status i) "unknown"%string) w
    = (Ok (inr status), w1) ->
  poll_body E P task_id estimate_time elapsed s i w =
    let interval := next_interval P estimate_time elapsed (check_count s) in
    match sleep_refused P estimate_time elapsed (check_count s) with
    | Some e => (Exc e, w1)
    | None =>
        if sleep_interrupted E (sleep_calls w1)
        then (Exc KeyboardInterrupt, note_sleep interval w1)
        else (Ok (if limited_retry_strategy P && (max_retries P <=? check_count s)
                  then Return (RetStatus (set_status "polling_limit_reached" i))
                  else Continue s),
              pass interval (note_sleep interval w1))
    end.
Proof.
  intro H. unfold poll_body, bind. rewrite H. cbv zeta. unfold sleep_refused.
  destruct (interval_overflows P estimate_time elapsed); [reflexivity|].
  unfold time_sleep.
  destruct (refused (next_interval P estimate_time elapsed (check_count s)));
    [reflexivity|].
  destruct (sleep_interrupted E (sleep_calls w1)); [reflexivity|].
  destruct (limited_retry_strategy P && (max_retries P <=? check_count s));
    reflexivity.
Qed.




Lemma poll_body_continue (task_id : string) (estimate_time : Z) (elapsed : Q)
    (s s' : session) (i : status_info) (w w1 : world) :
  poll_body E P task_id estimate_time elapsed s i w = (Ok (Continue s'), w1) ->
  s' = s /\ limited_retry_strategy P && (max_retries P <=? check_count s) = false.
Proof.
  unfold poll_body, bind.
  destruct (check_finished E task_id (check_count s) i
              (get (info_status i) "unknown"%string) w) as [[[r|st]|e'|] w2];
    try discriminate.
  destruct (interval_overflows P estimate_time elapsed); [discriminate|].
  unfold time_sleep.
  destruct (refused (next_interval P estimate_time elapsed (check_count s)));
    [discriminate|].
  destruct (sleep_interrupted E (sleep_calls w2)); [discriminate|].
  destruct (limited_retry_strategy P && (max_retries P <=? check_count s));
    [discriminate|].
  unfold ret. intro H. inversion H. split; reflexivity.
Qed.

Lemma on_exception_continue (task_id : string) (s s' : session) (e : exn)
    (w w1 : world) :
  on_exception E P task_id s e w = (Ok (Continue s'), w1) ->
  s' = mkSession (check_count s) (error_count s + 1) /\
  is_Exception e = true /\ retry_on_error P = true /\ error_count s + 1 <= 3.
Proof.
  destruct (is_Exception e) eqn:He.
  - rewrite on_exception_Exception by exact He.
    destruct (retry_on_error P); simpl; [|discriminate].
    destruct (error_count s + 1 <=? 3) eqn:Hn; [|discriminate].
    destruct (sleep_interrupted E (sleep_calls w)); [discriminate|].
    intro H. inversion H. apply Z.leb_le in Hn. auto.
  - destruct e; try discriminate He. rewrite on_exception_interrupt. discriminate.
Qed.

(** A turn whose fetch brought an unfinished task: the closed form. *)
Lemma poll_iteration_goes_on (task_id : string) (estimate_time max_wait : Z)
    (start_time : Q) (s : session) (w w0 w1 : world) (i : status_info)
    (status : string) :
  (now w - start_time <= inject_Z max_wait)%Q ->
  get_task_status E task_id w = (Ok i, w0) ->
  check_finished E task_id (check_count s + 1) i
                 (get (info_status i) "unknown"%string) w0 = (Ok (inr status), w1) ->
  poll_iteration E P task_id estimate_time max_wait start_time s w =
    let interval :=
      next_interval P estimate_time (now w - start_time) (check_count s + 1) in
    match sleep_refused P estimate_time (now w - start_time)
                        (check_count s + 1) with
    | Some e => on_exception E P task_id (mkSession (check_count s + 1) 0) e w1
    | None =>
        if sleep_interrupted E (sleep_calls w1)
        then (Ok (Return (RetInterrupted task_id)), note_sleep interval w1)
        else (Ok (if limited_retry_strategy P
                     && (max_retries P <=? check_count s + 1)
                  then Return (RetStatus (set_status "polling_limit_reached" i))
                  else Continue (mkSession (check_count s + 1) 0)),
              pass interval (note_sleep interval w1))
    end.
Proof.
  intros Ht Hs Hc.
  rewrite poll_iteration_unfold by exact Ht. rewrite Hs. cbv zeta.
  rewrite (poll_body_goes_on task_id estimate_time (now w - start_time)
             (mkSession (check_count s + 1) 0) i w0 w1 status Hc).
  cbn [check_count]. cbv zeta.
  destruct (sleep_refused P estimate_time (now w - start_time)
              (check_count s + 1)); [reflexivity|].
  destruct (sleep_interrupted E (sleep_calls w1)); reflexivity.
Qed.

(** What the error handler makes of a refused sleep: every refusal is of
    class [Exception], and the counter was just put back to zero. *)
Lemma sleep_refused_Exception (estimate_time : Z) (elapsed : Q) (n : Z)
    (e : exn) :
  sleep_refused P estimate_time elapsed n = Some e -> is_Exception e = true.
Proof.
  unfold sleep_refused.
  destruct (interval_overflows P estimate_time elapsed).
  - intro H. inversion H. reflexivity.
  - apply refused_Exception.
Qed.

Lemma poll_iteration_returns (task_id : string) (estimate_time max_wait : Z)
    (start_time : Q) (s : session) (w w0 w1 : world) (i : status_info)
    (r : retval) :
  (now w - start_time <= inject_Z max_wait)%Q ->
  get_task_status E task_id w = (Ok i, w0) ->
  check_finished E task_id (check_count s + 1) i
                 (get (info_status i) "unknown"%string) w0 = (Ok (inl r), w1) ->
  poll_iteration E P task_id estimate_time max_wait start_time s w =
    (Ok (Return r), w1).
Proof.
  intros Ht Hs Hc.
  rewrite poll_iteration_unfold by exact Ht. rewrite Hs. cbv zeta.
  rewrite (poll_body_returns task_id estimate_time (now w - start_time)
             (mkSession (check_count s + 1) 0) i w0 w1 r Hc).
  reflexivity.
Qed.

End Verdicts.

(** ** Failures of the status fetch *)

Lemma poll_iteration_fetch_failed (E : env) (P : polling_config)
    (task_id : string) (estimate_time max_wait : Z) (start_time : Q)
    (s : session) (w w1 : world) (e : exn) :
  (now w - start_time <= inject_Z max_wait)%Q ->
  get_task_status E task_id w = (Exc e, w1) ->
  is_Exception e = true ->
  poll_iteration E P task_id estimate_time max_wait start_time s w =
    if negb (retry_on_error P) then (Exc e, w1)
    else if error_count s + 1 <=? 3 then
      if sleep_interrupted E (sleep_calls w1)
      then (Exc KeyboardInterrupt, note_sleep 5 w1)
      else (Ok (Continue (mkSession (check_count s) (error_count s + 1))),
            pass 5 (note_sleep 5 w1))
    else (Exc e, w1).
Proof.
  intros Ht Hs He.
  rewrite poll_iteration_unfold by exact Ht. rewrite Hs.
  apply on_exception_Exception. exact He.
Qed.

(** C1, as the code has it.  In the poll loop an unknown task identifier
    (HTTP 404 on the status fetch, raised as [ValueError]) is not told
    apart from any other failure of the fetch: it leaves
    [wait_for_completion] at once only when [retry_on_error] is off or
    when three failures in a row came before it; otherwise the loop sleeps
    five seconds and fetches again.  The same holds of every exception of
    class [Exception] the fetch raises: the retry looks at no kind. *)
Theorem C1_not_found_follows_retry_policy (E : env) (P : polling_config)
    (task_id : string) (estimate_time max_wait : Z) (start_time : Q)
    (s : session) (w : world) :
  (now w - start_time <= inject_Z max_wait)%Q ->
  (forall r : response status_info,
     status_endpoint E (status_calls w) = Responds r ->
     status_code r = 404 ->
     poll_iteration E P task_id estimate_time max_wait start_time s w =
       let w1 := note_status (Some 404) w in
       if negb (retry_on_error P) then (Exc (task_missing task_id), w1)
       else if error_count s + 1 <=? 3 then
         if sleep_interrupted E (sleep_calls w)
         then (Exc KeyboardInterrupt, note_sleep 5 w1)
         else (Ok (Continue (mkSession (check_count s) (error_count s + 1))),
               pass 5 (note_sleep 5 w1))
       else (Exc (task_missing task_id), w1)) /\
  (forall (e : exn) (w1 : world),
     get_task_status E task_id w = (Exc e, w1) ->
     is_Exception e = true ->
     poll_iteration E P task_id estimate_time max_wait start_time s w =
       if negb (retry_on_error P) then (Exc e, w1)
       else if error_count s + 1 <=? 3 then
         if sleep_interrupted E (sleep_calls w1)
         then (Exc KeyboardInterrupt, note_sleep 5 w1)
         else (Ok (Continue (mkSession (check_count s) (error_count s + 1))),
               pass 5 (note_sleep 5 w1))
       else (Exc e, w1)).
Proof.
  intro Ht. split.
  - intros r Ha Hc.
    apply (poll_iteration_fetch_failed E P task_id estimate_time max_wait
             start_time s w (note_status (Some 404) w) (task_missing task_id) Ht).
    + apply get_task_status_404 with r; assumption.
    + reflexivity.
  - intros e w1 Hs He.
    apply poll_iteration_fetch_failed; assumption.
Qed.

Lemma C1_not_found_follows_retry_policy_witness :
  (now (boot 0) - 0 <= inject_Z 1800)%Q /\
  poll_iteration unknown_then_done defaults "t1" 0 1800 0 (mkSession 0 0) (boot 0)
    = (Ok (Continue (mkSession 0 1)),
       pass 5 (note_sleep 5 (note_status (Some 404) (boot 0)))).
Proof.
  assert (Ht : (now (boot 0) - 0 <= inject_Z 1800)%Q)
    by (unfold Qle; simpl; lia).
  split; [exact Ht|].
  destruct (C1_not_found_follows_retry_policy unknown_then_done defaults "t1"
              0 1800 0 (mkSession 0 0) (boot 0) Ht) as [H404 _].
  rewrite (H404 (mkResponse 404 (snapshot "") "") eq_refl eq_refl).
  reflexivity.
Defined.

(** C1 as stated fails: with the default policy ([retry_on_error] on) the
    404 on the first status fetch does not leave [wait_for_completion];
    the loop sleeps five seconds, fetches again and returns the result
    the second fetch brought. *)
Lemma C1_counterexample :
  retry_on_error defaults = true /\
  get_task_status unknown_then_done "t1" (boot 0)
    = (Exc (task_missing "t1"), note_status (Some 404) (boot 0)) /\
  run (wait_for_completion unknown_then_done defaults 5 "t1" 0 1800) (boot 0)
    = (Ok (RetResult [("groups"%string, JNum 7);
                      ("status"%string, JStr "completed");
                      ("_already_displayed"%string, JBool true)]),
       [GetStatus 0 (Some 404); Sleep 0 5; GetStatus 5 (Some 200)],
       5%Q).
Proof. repeat split; vm_compute; reflexivity. Qed.

(** A turn whose fetch succeeded and which goes round again has added one
    to the poll count.  Its error counter is zero when the [try] block ran
    to its end (the poll count is then below the limit), and one when the
    block raised after the fetch and the handler retried. *)
Lemma poll_iteration_fetched_continue (E : env) (P : polling_config)
    (task_id : string) (estimate_time max_wait : Z) (start_time : Q)
    (s s' : session) (w w0 w' : world) (i : status_info) :
  get_task_status E task_id w = (Ok i, w0) ->
  poll_iteration E P task_id estimate_time max_wait start_time s w
    = (Ok (Continue s'), w') ->
  (s' = mkSession (check_count s + 1) 0 /\
   limited_retry_strategy P && (max_retries P <=? check_count s + 1) = false /\
   exists w2,
     poll_body E P task_id estimate_time (now w - start_time)
               (mkSession (check_count s + 1) 0) i w0 = (Ok (Continue s'), w2))
  \/
  (s' = mkSession (check_count s + 1) 1 /\
   exists e w2,
     poll_body E P task_id estimate_time (now w - start_time)
               (mkSession (check_count s + 1) 0) i w0 = (Exc e, w2) /\
     is_Exception e = true).
Proof.
  intros Hs.
  destruct (Qlt_le_dec (inject_Z max_wait) (now w - start_time)) as [Hlt|Hle].
  - rewrite poll_iteration_timeout by exact Hlt. discriminate.
  - rewrite poll_iteration_unfold by exact Hle. rewrite Hs. cbv zeta.
    destruct (poll_body E P task_id estimate_time (now w - start_time)
                {| check_count := check_count s + 1; error_count := 0 |} i w0)
      as [[next|e|] w2] eqn:Hb.
    + intro H. inversion H; subst. left.
      pose proof Hb as Hb'. apply poll_body_continue in Hb'.
      destruct Hb' as [Hs' Hlim]. split; [exact Hs'|]. split; [exact Hlim|].
      exists w'. reflexivity.
    + intro H. apply on_exception_continue in H.
      destruct H as [Hs' [He _]]. right. split; [exact Hs'|].
      exists e, w2. split; [reflexivity | exact He].
    + discriminate.
Qed.

Lemma poll_iteration_fetched_count (E : env) (P : polling_config)
    (task_id : string) (estimate_time max_wait : Z) (start_time : Q)
    (s s' : session) (w w0 w' : world) (i : status_info) :
  get_task_status E task_id w = (Ok i, w0) ->
  poll_iteration E P task_id estimate_time max_wait start_time s w
    = (Ok (Continue s'), w') ->
  check_count s' = check_count s + 1.
Proof.
  intros Hs Hp.
  destruct (poll_iteration_fetched_continue E P task_id estimate_time max_wait
              start_time s s' w w0 w' i Hs Hp) as [[Hs' _]|[Hs' _]];
    rewrite Hs'; reflexivity.
Qed.


Lemma poll_iteration_failed_continue (E : env) (P : polling_config)
    (task_id : string) (estimate_time max_wait : Z) (start_time : Q)
    (s s' : session) (w w1 w' : world) (e : exn) :
  get_task_status E task_id w = (Exc e, w1) ->
  poll_iteration E P task_id estimate_time max_wait start_time s w
    = (Ok (Continue s'), w') ->
  s' = mkSession (check_count s) (error_count s + 1).
Proof.
  intros Hs.
  destruct (Qlt_le_dec (inject_Z max_wait) (now w - start_time)) as [Hlt|Hle].
  - rewrite poll_iteration_timeout by exact Hlt. discriminate.
  - rewrite poll_iteration_unfold by exact Hle. rewrite Hs.
    intro H. apply on_exception_continue in H. tauto.
Qed.



(** The counter is of failures in a row: after three failures and one
    good fetch, three more failures are retried again, and the loop
    leaves with the fourth. *)
Example retry_budget_is_consecutive :
  run (poll_loop flaky defaults 8 "t1" 0 1800 0 (mkSession 0 0)) (boot 0)
    = (Exc (HTTPError "查询状态失败: "),
       [GetStatus 0 (Some 500); Sleep 0 5; GetStatus 5 (Some 500); Sleep 5 5;
        GetStatus 10 (Some 500); Sleep 10 5; GetStatus 15 (Some 200); Sleep 15 5;
        GetStatus 20 (Some 500); Sleep 20 5; GetStatus 25 (Some 500); Sleep 25 5;
        GetStatus 30 (Some 500); Sleep 30 5; GetStatus 35 (Some 500)],
       35%Q).
Proof. vm_compute. reflexivity. Qed.

(** C10.  A turn of the loop whose status fetch failed and which goes
    round again leaves the poll count as it was; a turn whose fetch
    succeeded and which goes round again has added one to it.  And every
    turn, whatever the counters, starts by comparing the elapsed time with
    [max_wait]: once it is over, the turn raises [TimeoutError] before any
    fetch, also in the middle of the error retries. *)
Theorem C10_failed_fetches_do_not_count (E : env) (P : polling_config)
    (task_id : string) (estimate_time max_wait : Z) (start_time : Q)
    (s : session) (w : world) :
  (forall (e : exn) (w1 w' : world) (s' : session),
     get_task_status E task_id w = (Exc e, w1) ->
     poll_iteration E P task_id estimate_time max_wait start_time s w =
       (Ok (Continue s'), w') ->
     check_count s' = check_count s) /\
  (forall (i : status_info) (w0 w' : world) (s' : session),
     get_task_status E task_id w = (Ok i, w0) ->
     poll_iteration E P task_id estimate_time max_wait start_time s w =
       (Ok (Continue s'), w') ->
     check_count s' = check_count s + 1) /\
  ((inject_Z max_wait < now w - start_time)%Q ->
   poll_iteration E P task_id estimate_time max_wait start_time s w =
     (Exc (TimeoutError max_wait), w)).
Proof.
  split; [|split].
  - intros e w1 w' s' Hs Hp.
    rewrite (poll_iteration_failed_continue E P task_id estimate_time max_wait
               start_time s s' w w1 w' e Hs Hp).
    reflexivity.
  - intros i w0 w' s' Hs Hp.
    apply (poll_iteration_fetched_count E P task_id estimate_time max_wait
             start_time s s' w w0 w' i Hs Hp).
  - apply poll_iteration_timeout.
Qed.

Lemma C10_failed_fetches_do_not_count_witness :
  (inject_Z 7 < now (mkWorld 10 2 0 2 []) - 0)%Q /\
  poll_iteration always_failing defaults "t1" 0 7 0 (mkSession 0 2)
                 (mkWorld 10 2 0 2 [])
    = (Exc (TimeoutError 7), mkWorld 10 2 0 2 []).
Proof.
  assert (Ht : (inject_Z 7 < now (mkWorld 10 2 0 2 []) - 0)%Q)
    by (unfold Qlt; simpl; lia).
  split; [exact Ht|].
  destruct (C10_failed_fetches_do_not_count always_failing defaults "t1" 0 7 0
              (mkSession 0 2) (mkWorld 10 2 0 2 [])) as [_ [_ H]].
  exact (H Ht).
Defined.

(** The same in a whole run: the fetch never succeeds, [max_wait] is seven
    seconds; two fetches are retried, the third turn sees ten seconds gone
    and raises [TimeoutError] without fetching. *)
Example timeout_covers_error_retries :
  run (wait_for_completion always_failing defaults 5 "t1" 0 7) (boot 0)
    = (Exc (TimeoutError 7),
       [GetStatus 0 None; Sleep 0 5; GetStatus 5 None; Sleep 5 5],
       10%Q).
Proof. vm_compute. reflexivity. Qed.

(** ** Optimistic completion *)

(** C2, as the code has it.  The status fetch of this turn brought
    "completed" without a result; [n] is the poll count with this poll.
    - [n <= 3] and the results endpoint answers 409 (not ready): exactly
      one results call is made, the status is put back to "running", and
      the turn goes on as for a running task: it sleeps for the interval
      of the policy, then returns "polling_limit_reached" if
      [limited_retry_strategy] is on and [n >= max_retries], and goes
      round again otherwise (an interrupt of the sleep returns the
      interruption notice).  It does not return "completed".  When the
      sleep is refused (an interval below zero or too long for
      [time.sleep], an estimate beyond the floats) the turn ends in the
      error handler instead: it raises if [retry_on_error] is off, and
      otherwise sleeps five seconds and goes round again with the error
      counter at one, the limit not looked at.
    - [n > 3]: the turn returns "completed" with no results call. *)
Theorem C2_completed_without_result (E : env) (P : polling_config)
    (task_id : string) (estimate_time max_wait : Z) (start_time : Q)
    (s : session) (w : world) (r0 : response status_info) :
  (now w - start_time <= inject_Z max_wait)%Q ->
  status_endpoint E (status_calls w) = Responds r0 ->
  status_code r0 = 200 ->
  info_status (body r0) = Some "completed"%string ->
  embedded_result (body r0) = None ->
  let n := check_count s + 1 in
  let w0 := note_status (Some 200) w in
  (n <= 3 ->
   forall r : response dict,
     results_endpoint E (results_calls w) = Responds r ->
     status_code r = 409 ->
     let w1 := note_results (Some 409) w0 in
     let interval := next_interval P estimate_time (now w - start_time) n in
     check_finished E task_id n (body r0) "completed" w0
       = (Ok (inr "running"%string), w1) /\
     poll_iteration E P task_id estimate_time max_wait start_time s w =
       match sleep_refused P estimate_time (now w - start_time) n with
       | None =>
           if sleep_interrupted E (sleep_calls w)
           then (Ok (Return (RetInterrupted task_id)), note_sleep interval w1)
           else (Ok (if limited_retry_strategy P && (max_retries P <=? n)
                     then Return (RetStatus (set_status "polling_limit_reached"
                                                        (body r0)))
                     else Continue (mkSession n 0)),
                 pass interval (note_sleep interval w1))
       | Some e =>
           if negb (retry_on_error P) then (Exc e, w1)
           else if sleep_interrupted E (sleep_calls w)
           then (Exc KeyboardInterrupt, note_sleep 5 w1)
           else (Ok (Continue (mkSession n 1)), pass 5 (note_sleep 5 w1))
       end) /\
  (3 < n ->
   poll_iteration E P task_id estimate_time max_wait start_time s w =
     (Ok (Return (RetStatus (set_status "completed" (body r0)))), w0)).
Proof.
  intros Ht Ha Hc Hst Hemb n w0.
  pose proof (get_task_status_200 E task_id w r0 Ha Hc) as Hs.
  split.
  - intros Hn r Hr Hrc w1 interval.
    assert (Hcf : check_finished E task_id n (body r0) "completed" w0
                  = (Ok (inr "running"%string), w1)).
    { apply check_finished_not_ready with r; assumption. }
    split; [exact Hcf|].
    rewrite (poll_iteration_goes_on E P task_id estimate_time max_wait start_time
               s w w0 w1 (body r0) "running" Ht Hs)
      by (rewrite Hst; exact Hcf).
    cbv zeta. fold n.
    destruct (sleep_refused P estimate_time (now w - start_time) n)
      as [e|] eqn:Hsr; [|reflexivity].
    rewrite on_exception_Exception
      by (apply (sleep_refused_Exception P estimate_time (now w - start_time)
                   n e Hsr)).
    reflexivity.
  - intros Hn.
    apply (poll_iteration_returns E P task_id estimate_time max_wait start_time
             s w w0 w0 (body r0) _ Ht Hs).
    rewrite Hst. apply check_finished_trusted; assumption.
Qed.

Lemma C2_completed_without_result_witness :
  (now (boot 0) - 0 <= inject_Z 1800)%Q /\
  poll_iteration early_completed defaults "t1" 0 1800 0 (mkSession 0 0) (boot 0)
    = (Ok (Continue (mkSession 1 0)),
       pass 5 (note_sleep 5 (note_results (Some 409)
                               (note_status (Some 200) (boot 0))))) /\
  poll_iteration early_completed defaults "t1" 0 1800 0 (mkSession 3 0) (boot 0)
    = (Ok (Return (RetStatus (snapshot "completed"))),
       note_status (Some 200) (boot 0)).
Proof.
  assert (Ht : (now (boot 0) - 0 <= inject_Z 1800)%Q)
    by (unfold Qle; simpl; lia).
  split; [exact Ht|]. split.
  - destruct (C2_completed_without_result early_completed defaults "t1" 0 1800 0
                (mkSession 0 0) (boot 0) (mkResponse 200 (snapshot "completed") "")
                Ht eq_refl eq_refl eq_refl eq_refl) as [H _].
    destruct (H ltac:(simpl; lia) (mkResponse 409 [] "") eq_refl eq_refl)
      as [_ Hp].
    rewrite Hp. reflexivity.
  - destruct (C2_completed_without_result early_completed defaults "t1" 0 1800 0
                (mkSession 3 0) (boot 0) (mkResponse 200 (snapshot "completed") "")
                Ht eq_refl eq_refl eq_refl eq_refl) as [_ H].
    rewrite (H ltac:(simpl; lia)). reflexivity.
Defined.

(** C2 as stated fails: under the default policy
    ([limited_retry_strategy] on, [max_retries] 3) the third poll sees
    "completed" without a result, the results call answers "not ready",
    and the loop does not go on polling: it sleeps and returns
    "polling_limit_reached". *)
Lemma C2_counterexample :
  fst (poll_iteration early_completed defaults "t1" 0 1800 0 (mkSession 2 0)
                      (mkWorld 10 2 2 2 []))
    = Ok (Return (RetStatus (snapshot "polling_limit_reached"))) /\
  run (wait_for_completion early_completed defaults 10 "t1" 0 1800) (boot 0)
    = (Ok (RetStatus (snapshot "polling_limit_reached")),
       [GetStatus 0 (Some 200); GetResults 0 (Some 409); Sleep 0 5;
        GetStatus 5 (Some 200); GetResults 5 (Some 409); Sleep 5 5;
        GetStatus 10 (Some 200); GetResults 10 (Some 409); Sleep 10 5],
       15%Q).
Proof. split; vm_compute; reflexivity. Qed.

(** ** Polls of an unfinished task *)




(** C9.  Without an estimate and with [respect_estimate_time] on, the
    interval depends on the poll count alone: 5 seconds for polls 1 to 3,
    10 for polls 4 to 10, 15 from poll 11 on; the fourth poll sleeps 10.
    It is the interval the loop sleeps after the poll of that number. *)
Theorem C9_no_estimate_ramp (P : polling_config) :
  respect_estimate_time P = true ->
  (forall (elapsed : Q) (n : Z),
     next_interval P 0 elapsed n =
       if n <=? 3 then 5%Q else if n <=? 10 then 10%Q else 15%Q) /\
  (forall (elapsed : Q) (n : Z), 1 <= n <= 3 -> next_interval P 0 elapsed n = 5%Q) /\
  (forall (elapsed : Q) (n : Z), 4 <= n <= 10 -> next_interval P 0 elapsed n = 10%Q) /\
  (forall (elapsed : Q) (n : Z), 11 <= n -> next_interval P 0 elapsed n = 15%Q) /\
  (forall elapsed : Q, next_interval P 0 elapsed 4 = 10%Q) /\
  (forall (E : env) (task_id : string) (max_wait : Z) (start_time : Q)
          (s : session) (w : world) (r : response status_info),
     (now w - start_time <= inject_Z max_wait)%Q ->
     status_endpoint E (status_calls w) = Responds r ->
     status_code r = 200 ->
     String.eqb (get (info_status (body r)) "unknown"%string) "completed" = false ->
     is_terminal_failure (get (info_status (body r)) "unknown"%string) = false ->
     log (snd (poll_iteration E P task_id 0 max_wait start_time s w)) =
       Sleep (now w) (if check_count s + 1 <=? 3 then 5%Q
                      else if check_count s + 1 <=? 10 then 10%Q else 15%Q)
       :: GetStatus (now w) (Some 200) :: log w).
Proof.
  intro Hr.
  assert (Hramp : forall (elapsed : Q) (n : Z),
             next_interval P 0 elapsed n =
               if n <=? 3 then 5%Q else if n <=? 10 then 10%Q else 15%Q).
  { intros elapsed n. unfold next_interval. rewrite Hr. reflexivity. }
  split; [exact Hramp|].
  split; [|split; [|split; [|split]]].
  - intros elapsed n Hn. rewrite Hramp.
    destruct (Z.leb_spec n 3); [reflexivity | lia].
  - intros elapsed n Hn. rewrite Hramp.
    destruct (Z.leb_spec n 3); [lia|].
    destruct (Z.leb_spec n 10); [reflexivity | lia].
  - intros elapsed n Hn. rewrite Hramp.
    destruct (Z.leb_spec n 3); [lia|].
    destruct (Z.leb_spec n 10); [lia | reflexivity].
  - intro elapsed. rewrite Hramp. reflexivity.
  - intros E task_id max_wait start_time s w r Ht Ha Hc Hnc Hnt.
    pose proof (get_task_status_200 E task_id w r Ha Hc) as Hs.
    rewrite (poll_iteration_goes_on E P task_id 0 max_wait start_time
               s w (note_status (Some 200) w) (note_status (Some 200) w) (body r)
               (get (info_status (body r)) "unknown"%string) Ht Hs).
    + cbv zeta.
      assert (Hfine : sleep_refused P 0 (now w - start_time) (check_count s + 1)
                      = None).
      { unfold sleep_refused, interval_overflows. rewrite Hr, Hramp.
        cbn [Z.ltb Z.compare andb].
        destruct (check_count s + 1 <=? 3); [reflexivity|].
        destruct (check_count s + 1 <=? 10); reflexivity. }
      rewrite Hfine, Hramp.
      destruct (sleep_interrupted E (sleep_calls (note_status (Some 200) w)));
        reflexivity.
    + apply check_finished_unfinished; assumption.
Qed.

Lemma C9_no_estimate_ramp_witness :
  respect_estimate_time unlimited = true /\
  next_interval unlimited 0 15 4 = 10%Q.
Proof.
  split; [reflexivity|].
  destruct (C9_no_estimate_ramp unlimited eq_refl) as [_ [_ [_ [_ [H _]]]]].
  exact (H 15%Q).
Defined.

(** The ramp in a run without polling limit: the sleeps after polls 1 to 4
    are 5, 5, 5 and 10 seconds. *)
Example fourth_poll_sleeps_ten :
  run (wait_for_completion always_running unlimited 4 "t1" 0 1800) (boot 0)
    = (OutOfFuel,
       [GetStatus 0 (Some 200); Sleep 0 5; GetStatus 5 (Some 200); Sleep 5 5;
        GetStatus 10 (Some 200); Sleep 10 5; GetStatus 15 (Some 200); Sleep 15 10],
       25%Q).
Proof. vm_compute. reflexivity. Qed.

(** ** Intervals that can be slept *)

Lemma max_lower_bound (a b : Q) : (a <= Py.max a b)%Q.
Proof.
  unfold Py.max. destruct (Qlt_bool a b) eqn:H.
  - apply Qlt_bool_true in H. lra.
  - lra.
Qed.

(** Under [respect_estimate_time] every interval is at least 5 seconds. *)
Lemma next_interval_respectful (P : polling_config) (estimate_time : Z)
    (elapsed : Q) (n : Z) :
  respect_estimate_time P = true ->
  (5 <= next_interval P estimate_time elapsed n)%Q.
Proof.
  intro Hr. unfold next_interval. rewrite Hr. simpl negb. cbv iota.
  destruct ((0 <? estimate_time) &&
            Qle_bool (inject_Z estimate_time) elapsed).
  - destruct (Qlt_bool (elapsed - inject_Z estimate_time) 30); [lra|].
    destruct (Qlt_bool (elapsed - inject_Z estimate_time) 120); lra.
  - destruct (0 <? estimate_time); [apply max_lower_bound|].
    destruct (n <=? 3); [lra|]. destruct (n <=? 10); lra.
Qed.



(** ** Counting the polls of a run *)

Section Polls.

Variable E : env.
Variable P : polling_config.

Lemma same_polls_refl (w : world) : same_polls w w.
Proof. reflexivity. Qed.

Lemma same_polls_trans (a b c : world) :
  same_polls a b -> same_polls b c -> same_polls a c.
Proof. unfold same_polls. congruence. Qed.

Lemma same_polls_sleep (secs : Q) (w : world) :
  (0 <= secs)%Q ->
  same_polls w (note_sleep secs w) /\ same_polls w (pass secs (note_sleep secs w)).
Proof. intros _. split; reflexivity. Qed.

Lemma same_polls_results (c : option Z) (w : world) :
  same_polls w (note_results c w).
Proof. reflexivity. Qed.

Lemma polls_poll_body (task_id : string) (estimate_time : Z) (elapsed : Q)
    (s : session) (i : status_info) (w : world) :
  polls_in (log (snd (poll_body E P task_id estimate_time elapsed s i w)))
    = polls_in (log w).
Proof.
  apply (poll_body_frame E P same_polls same_polls_refl
           same_polls_trans same_polls_sleep same_polls_results).
Qed.

Lemma polls_on_exception (task_id : string) (s : session) (e : exn) (w : world) :
  polls_in (log (snd (on_exception E P task_id s e w))) = polls_in (log w).
Proof.
  apply (on_exception_frame E P same_polls same_polls_refl
           same_polls_trans same_polls_sleep).
Qed.


Lemma polls_get_task_status (task_id : string) (w : world) :
  polls_in (log (snd (get_task_status E task_id w))) =
    polls_in (log w) +
    match fst (get_task_status E task_id w) with
    | Ok _ => 1
    | _ => 0
    end.
Proof.
  unfold get_task_status, bind, request_status.
  destruct (status_endpoint E (status_calls w)) as [r|e]; [|simpl; lia].
  destruct (status_code r =? 200) eqn:H200.
  - simpl. rewrite H200. lia.
  - destruct (status_code r =? 404); simpl; rewrite H200; lia.
Qed.

(** One turn adds at most one poll, and what it adds to the polls it
    adds to the poll count. *)
Lemma poll_iteration_counts (task_id : string) (estimate_time max_wait : Z)
    (start_time : Q) (s : session) (w w' : world) (r : res step) :
  poll_iteration E P task_id estimate_time max_wait start_time s w = (r, w') ->
  polls_in (log w) <= polls_in (log w') <= polls_in (log w) + 1 /\
  (forall s', r = Ok (Continue s') ->
     polls_in (log w') = polls_in (log w) + (check_count s' - check_count s)).
Proof.
  destruct (Qlt_le_dec (inject_Z max_wait) (now w - start_time)) as [Hlt|Hle].
  - rewrite poll_iteration_timeout by exact Hlt.
    intro H. inversion H; subst. split; [lia | discriminate].
  - rewrite poll_iteration_unfold by exact Hle.
    pose proof (polls_get_task_status task_id w) as Hg.
    destruct (get_task_status E task_id w) as [[i|e|] w1] eqn:Hs;
      simpl in Hg.
    + cbv zeta.
      pose proof (polls_poll_body task_id estimate_time (now w - start_time)
                    (mkSession (check_count s + 1) 0) i w1) as Hb.
      destruct (poll_body E P task_id estimate_time (now w - start_time)
                  {| check_count := check_count s + 1; error_count := 0 |} i w1)
        as [[next|e|] w2] eqn:Hpb; simpl in Hb.
      * intro H. inversion H; subst. split; [lia|].
        intros s' Hn. inversion Hn; subst.
        apply poll_body_continue in Hpb. destruct Hpb as [-> Hlim].
        simpl in *. lia.
      * pose proof (polls_on_exception task_id
                      (mkSession (check_count s + 1) 0) e w2) as Ho.
        intro H. rewrite H in Ho. simpl in Ho. split; [lia|].
        intros s' Hn. subst r.
        apply on_exception_continue in H. destruct H as [-> _].
        simpl. lia.
      * intro H. inversion H; subst. split; [lia | discriminate].
    + pose proof (polls_on_exception task_id s e w1) as Ho.
      intro H. rewrite H in Ho. simpl in Ho. split; [lia|].
      intros s' Hn. subst r.
      apply on_exception_continue in H. destruct H as [-> _].
      simpl. lia.
    + intro H. inversion H; subst. split; [lia | discriminate].
Qed.








End Polls.





(** The task stays "running": three polls, then "polling_limit_reached". *)
Example three_polls_then_limit :
  run (wait_for_completion always_running defaults 10 "t1" 0 1800) (boot 0)
    = (Ok (RetStatus (snapshot "polling_limit_reached")),
       [GetStatus 0 (Some 200); Sleep 0 5; GetStatus 5 (Some 200); Sleep 5 5;
        GetStatus 10 (Some 200); Sleep 10 5],
       15%Q) /\
  polls_in (log (snd (wait_for_completion always_running defaults 10 "t1" 0 1800
                                          (boot 0)))) = 3.
Proof. split; vm_compute; reflexivity. Qed.

(** ** The pre-wait *)

Section PreWait.

Variable E : env.
Variable P : polling_config.












End PreWait.



(** An estimate of three seconds: three sleeps of one second, and the
    first status fetch at second 3. *)
Example first_poll_after_the_estimate :
  run (wait_for_completion always_running defaults 10 "t1" 3 1800) (boot 0)
    = (Ok (RetStatus (snapshot "polling_limit_reached")),
       [Sleep 0 1; Sleep 1 1; Sleep 2 1; GetStatus 3 (Some 200); Sleep 3 5;
        GetStatus 8 (Some 200); Sleep 8 5; GetStatus 13 (Some 200); Sleep 13 5],
       18%Q).
Proof. vm_compute. reflexivity. Qed.

(** ** Ctrl-C *)



Lemma slept_calls (k : nat) (w : world) :
  sleep_calls (slept k w) = (sleep_calls w + k)%nat /\
  status_calls (slept k w) = status_calls w /\
  results_calls (slept k w) = results_calls w /\
  (now (slept k w) == now w + inject_Z (Z.of_nat k))%Q.
Proof.
  revert w. induction k as [|k IH]; intro w.
  - cbn [slept]. repeat split; try lia. change (inject_Z (Z.of_nat 0)) with 0%Q.
    lra.
  - cbn [slept]. destruct (IH (pass 1 (note_sleep 1 w))) as [H1 [H2 [H3 H4]]].
    cbn [sleep_calls status_calls results_calls now pass note_sleep] in *.
    repeat split; try lia; try assumption.
    rewrite H4, Nat2Z.inj_succ. unfold Z.succ. rewrite inject_Z_plus.
    change (inject_Z 1) with 1%Q. lra.
Qed.









(** ** Float products that are exact *)

Lemma digits2_pos_bounds (p : positive) :
  2 ^ (Zpos (digits2_pos p) - 1) <= Zpos p < 2 ^ Zpos (digits2_pos p).
Proof.
  induction p as [p IH|p IH|]; cbn [digits2_pos].
  - rewrite Pos2Z.inj_succ, (Pos2Z.inj_xI p).
    replace (Z.succ (Zpos (digits2_pos p)) - 1)
      with (Z.succ (Zpos (digits2_pos p) - 1)) by lia.
    rewrite !Z.pow_succ_r by lia.
    revert IH. generalize (2 ^ (Zpos (digits2_pos p) - 1)).
    generalize (2 ^ Zpos (digits2_pos p)). intros a b IH. lia.
  - rewrite Pos2Z.inj_succ, (Pos2Z.inj_xO p).
    replace (Z.succ (Zpos (digits2_pos p)) - 1)
      with (Z.succ (Zpos (digits2_pos p) - 1)) by lia.
    rewrite !Z.pow_succ_r by lia.
    revert IH. generalize (2 ^ (Zpos (digits2_pos p) - 1)).
    generalize (2 ^ Zpos (digits2_pos p)). intros a b IH. lia.
  - simpl. lia.
Qed.

Lemma digits2_pos_unique (p : positive) (d : Z) :
  2 ^ (d - 1) <= Zpos p < 2 ^ d -> Zpos (digits2_pos p) = d.
Proof.
  intros [Hlo Hhi]. pose proof (digits2_pos_bounds p) as [Blo Bhi].
  set (dp := Zpos (digits2_pos p)) in *.
  assert (Hdp : 0 < dp) by (unfold dp; lia).
  destruct (Z.lt_trichotomy dp d) as [Hlt|[Heq|Hgt]]; [|exact Heq|].
  - assert (2 ^ dp <= 2 ^ (d - 1)) by (apply Z.pow_le_mono_r; lia). lia.
  - destruct (Z.le_gt_cases 0 d) as [Hd|Hd].
    + assert (2 ^ d <= 2 ^ (dp - 1)) by (apply Z.pow_le_mono_r; lia). lia.
    + rewrite (Z.pow_neg_r 2 d) in Hhi by lia. lia.
Qed.

Lemma shr_1_double (x : Z) :
  0 <= x ->
  shr_1 (Build_shr_record (2 * x) false false) = Build_shr_record x false false.
Proof. intro H. destruct x as [|p|p]; [reflexivity | reflexivity | lia]. Qed.

Lemma iter_shr_exact (k : positive) :
  forall q, 0 <= q ->
    iter_pos shr_1 k (Build_shr_record (2 ^ Zpos k * q) false false)
      = Build_shr_record q false false.
Proof.
  induction k as [k IH|k IH|]; intros q Hq; cbn [iter_pos].
  - replace (2 ^ Zpos k~1 * q) with (2 * (2 ^ Zpos k * (2 ^ Zpos k * q))).
    + rewrite shr_1_double by (apply Z.mul_nonneg_nonneg; [lia|];
                               apply Z.mul_nonneg_nonneg; lia).
      rewrite IH by (apply Z.mul_nonneg_nonneg; lia).
      apply IH. exact Hq.
    + rewrite (Pos2Z.inj_xI k).
      replace (2 * Zpos k + 1) with (Zpos k + Zpos k + 1) by lia.
      rewrite !Z.pow_add_r by lia. ring.
  - replace (2 ^ Zpos k~0 * q) with (2 ^ Zpos k * (2 ^ Zpos k * q)).
    + rewrite IH by (apply Z.mul_nonneg_nonneg; lia).
      apply IH. exact Hq.
    + rewrite (Pos2Z.inj_xO k).
      replace (2 * Zpos k) with (Zpos k + Zpos k) by lia.
      rewrite !Z.pow_add_r by lia. ring.
  - apply shr_1_double. exact Hq.
Qed.

(** A mantissa that ends in [n] zero bits after its 53 leading ones is
    rounded to those 53 bits, exactly. *)
Lemma binary_round_aux_exact (s : bool) (m q : positive) (e n : Z) :
  0 <= n ->
  Zpos m = 2 ^ n * Zpos q ->
  Zpos (digits2_pos q) = 53 ->
  -1074 <= e + n <= 971 ->
  binary_round_aux 53 1024 s (Zpos m) e loc_Exact = S754_finite s q (e + n).
Proof.
  intros Hn Hm Hq He.
  assert (Hdm : Zpos (digits2_pos m) = 53 + n).
  { apply digits2_pos_unique. pose proof (digits2_pos_bounds q) as Hb.
    rewrite Hq in Hb. rewrite Hm.
    replace (53 + n - 1) with (n + 52) by lia.
    replace (53 + n) with (n + 53) by lia.
    rewrite !Z.pow_add_r by lia.
    assert (0 < 2 ^ n) by (apply Z.pow_pos_nonneg; lia).
    change (53 - 1) with 52 in Hb. nia. }
  unfold binary_round_aux, shr_fexp.
  cbn [Zdigits2 shr_record_of_loc]. rewrite Hdm.
  assert (Hf1 : fexp 53 1024 (53 + n + e) - e = n).
  { unfold fexp, emin. lia. }
  rewrite Hf1.
  assert (Hshr : shr (Build_shr_record (Zpos m) false false) e n
                 = (Build_shr_record (Zpos q) false false, e + n)).
  { destruct n as [|n'|n']; [| |lia].
    - rewrite Z.pow_0_r, Z.mul_1_l in Hm. injection Hm as Hm. subst m.
      rewrite Z.add_0_r. reflexivity.
    - cbn [shr]. rewrite Hm. rewrite iter_shr_exact by lia. reflexivity. }
  rewrite Hshr. cbn [shr_m loc_of_shr_record round_nearest_even Zdigits2].
  rewrite Hq.
  assert (Hf2 : fexp 53 1024 (53 + (e + n)) - (e + n) = 0).
  { unfold fexp, emin. lia. }
  rewrite Hf2. cbn [shr shr_m].
  assert (Hle : (e + n <=? 1024 - 53) = true) by (apply Z.leb_le; lia).
  rewrite Hle. reflexivity.
Qed.

Lemma iter_xO_value (p k : positive) :
  Zpos (Pos.iter xO p k) = 2 ^ Zpos k * Zpos p.
Proof.
  revert p. induction k as [|k IH] using Pos.peano_ind; intro p.
  - reflexivity.
  - rewrite Pos.iter_succ, Pos2Z.inj_xO, IH, Pos2Z.inj_succ, Z.pow_succ_r by lia.
    ring.
Qed.

Lemma mantissa_value (p : positive) :
  Zpos (digits2_pos p) <= 53 ->
  Zpos (mantissa p) = 2 ^ (53 - Zpos (digits2_pos p)) * Zpos p /\
  Zpos (digits2_pos (mantissa p)) = 53.
Proof.
  intro Hd. unfold mantissa.
  assert (Hpow : 0 < 2 ^ (53 - Zpos (digits2_pos p)))
    by (apply Z.pow_pos_nonneg; lia).
  assert (Hv : Zpos (Z.to_pos (2 ^ (53 - Zpos (digits2_pos p)) * Zpos p))
               = 2 ^ (53 - Zpos (digits2_pos p)) * Zpos p).
  { apply Z2Pos.id. nia. }
  split; [exact Hv|].
  apply digits2_pos_unique. rewrite Hv.
  pose proof (digits2_pos_bounds p) as [Blo Bhi].
  set (d := Zpos (digits2_pos p)) in *.
  replace (2 ^ (53 - 1)) with (2 ^ (53 - d) * 2 ^ (d - 1))
    by (rewrite <- Z.pow_add_r by lia; f_equal; lia).
  replace (2 ^ 53) with (2 ^ (53 - d) * 2 ^ d)
    by (rewrite <- Z.pow_add_r by lia; f_equal; lia).
  nia.
Qed.

Lemma binary_round_small (s : bool) (p : positive) :
  Zpos (digits2_pos p) <= 53 ->
  binary_round 53 1024 s p 0 =
    S754_finite s (mantissa p) (Zpos (digits2_pos p) - 53).
Proof.
  intro Hd. destruct (mantissa_value p Hd) as [Hv Hdig].
  unfold binary_round.
  assert (Hf : fexp 53 1024 (Zpos (digits2_pos p) + 0)
               = Zpos (digits2_pos p) - 53).
  { unfold fexp, emin. lia. }
  rewrite Hf. unfold shl_align.
  destruct (Zpos (digits2_pos p) - 53 - 0) as [|k|k] eqn:Hk; [| lia |].
  - assert (Hd53 : Zpos (digits2_pos p) = 53) by lia.
    rewrite Hd53 in Hv. change (2 ^ (53 - 53)) with 1 in Hv.
    rewrite Z.mul_1_l in Hv. injection Hv as Hv.
    rewrite (binary_round_aux_exact s p p 0 0); try lia.
    + rewrite Hv, Hd53. reflexivity.
  - assert (Hm : Pos.iter xO p k = mantissa p).
    { apply Pos2Z.inj. rewrite iter_xO_value, Hv. f_equal. f_equal. lia. }
    rewrite Hm.
    rewrite (binary_round_aux_exact s (mantissa p) (mantissa p)
               (Zpos (digits2_pos p) - 53) 0); try lia.
    rewrite Z.add_0_r. reflexivity.
Qed.

Lemma digits2_pos_le_53 (p : positive) :
  Zpos p < 2 ^ 53 -> Zpos (digits2_pos p) <= 53.
Proof.
  intro H. pose proof (digits2_pos_bounds p) as [Blo _].
  assert (Hlt : 2 ^ (Zpos (digits2_pos p) - 1) < 2 ^ 53) by lia.
  apply Z.pow_lt_mono_r_iff in Hlt; lia.
Qed.

Lemma digits2_pos_mono (p q : positive) :
  Zpos p <= Zpos q -> Zpos (digits2_pos p) <= Zpos (digits2_pos q).
Proof.
  intro H. pose proof (digits2_pos_bounds p) as [Blo _].
  pose proof (digits2_pos_bounds q) as [_ Bhi].
  assert (Hlt : 2 ^ (Zpos (digits2_pos p) - 1) < 2 ^ Zpos (digits2_pos q)) by lia.
  apply Z.pow_lt_mono_r_iff in Hlt; lia.
Qed.

(** The double of a small integer, times 1.5: the product is exact. *)
Lemma times_one_and_a_half (s : bool) (p : positive) :
  Zpos (3 * p) < 2 ^ 53 ->
  SFmul 53 1024 (S754_finite s (mantissa p) (Zpos (digits2_pos p) - 53))
        Float.one_and_a_half
    = S754_finite s (mantissa (3 * p)) (Zpos (digits2_pos (3 * p)) - 54).
Proof.
  intro H3.
  assert (HD : Zpos (digits2_pos (3 * p)) <= 53)
    by (apply digits2_pos_le_53; exact H3).
  assert (HdD : Zpos (digits2_pos p) <= Zpos (digits2_pos (3 * p)))
    by (apply digits2_pos_mono; lia).
  assert (Hd : Zpos (digits2_pos p) <= 53) by lia.
  destruct (mantissa_value p Hd) as [Hv _].
  destruct (mantissa_value (3 * p) HD) as [Hv3 Hdig3].
  set (d := Zpos (digits2_pos p)) in *.
  set (D := Zpos (digits2_pos (3 * p))) in *.
  unfold Float.one_and_a_half. cbn [SFmul]. rewrite xorb_false_r.
  rewrite (binary_round_aux_exact s _ (mantissa (3 * p)) (d - 53 + -52)
             (D - d + 51)).
  - f_equal. lia.
  - lia.
  - rewrite Pos2Z.inj_mul, Hv, Hv3, Pos2Z.inj_mul.
    change (Zpos 6755399441055744) with (3 * 2 ^ 51).
    replace (D - d + 51) with ((53 - d) + 51 - (53 - D)) by lia.
    assert (Hsplit : 2 ^ (53 - d + 51)
                     = 2 ^ (53 - d + 51 - (53 - D)) * 2 ^ (53 - D)).
    { rewrite <- Z.pow_add_r by lia. f_equal. lia. }
    rewrite (Z.pow_add_r 2 (53 - d) 51) in Hsplit by lia.
    transitivity (2 ^ (53 - d) * 2 ^ 51 * (3 * Zpos p)); [ring|].
    rewrite Hsplit. ring.
  - exact Hdig3.
  - assert (0 < D) by (unfold D; lia). lia.
Qed.

Lemma to_int_three_halves (s : bool) (p : positive) :
  Zpos (3 * p) < 2 ^ 53 ->
  Float.to_int (S754_finite s (mantissa (3 * p))
                            (Zpos (digits2_pos (3 * p)) - 54))
    = Some (if s then - (Zpos (3 * p) / 2) else Zpos (3 * p) / 2).
Proof.
  intro H3.
  assert (HD : Zpos (digits2_pos (3 * p)) <= 53)
    by (apply digits2_pos_le_53; exact H3).
  destruct (mantissa_value (3 * p) HD) as [Hv3 _].
  set (D := Zpos (digits2_pos (3 * p))) in *.
  unfold Float.to_int.
  assert (Hneg : (0 <=? D - 54) = false) by (apply Z.leb_gt; lia).
  rewrite Hneg, Hv3.
  replace (- (D - 54)) with (53 - D + 1) by lia.
  rewrite Z.pow_add_r by lia.
  change (2 ^ 1) with 2.
  rewrite Z.div_mul_cancel_l; [reflexivity | lia |].
  apply Z.pow_nonzero; lia.
Qed.

(** [int(e * 1.5)] for an int [e] with [|3 e| < 2^53]: three halves of
    [e], with the fraction dropped. *)
Lemma int_times_one_and_a_half (e : Z) :
  Z.abs (3 * e) < 2 ^ 53 ->
  Float.of_int e = Some (Float.nearest e) /\
  Float.to_int (Float.mul (Float.nearest e) Float.one_and_a_half)
    = Some (Z.quot (3 * e) 2).
Proof.
  intro H. destruct e as [|p|p].
  - split; reflexivity.
  - assert (H3 : Zpos (3 * p) < 2 ^ 53) by lia.
    assert (Hd : Zpos (digits2_pos p) <= 53)
      by (apply digits2_pos_le_53; lia).
    assert (Hn : Float.nearest (Zpos p)
                 = S754_finite false (mantissa p) (Zpos (digits2_pos p) - 53)).
    { unfold Float.nearest, Float.prec, Float.emax. cbn [binary_normalize].
      apply binary_round_small. exact Hd. }
    unfold Float.of_int, Float.mul, Float.prec, Float.emax. rewrite Hn.
    split; [reflexivity|].
    rewrite times_one_and_a_half by exact H3.
    rewrite to_int_three_halves by exact H3.
    f_equal. rewrite Z.quot_div_nonneg by lia. reflexivity.
  - assert (H3 : Zpos (3 * p) < 2 ^ 53) by lia.
    assert (Hd : Zpos (digits2_pos p) <= 53)
      by (apply digits2_pos_le_53; lia).
    assert (Hn : Float.nearest (Zneg p)
                 = S754_finite true (mantissa p) (Zpos (digits2_pos p) - 53)).
    { unfold Float.nearest, Float.prec, Float.emax. cbn [binary_normalize].
      apply binary_round_small. exact Hd. }
    unfold Float.of_int, Float.mul, Float.prec, Float.emax. rewrite Hn.
    split; [reflexivity|].
    rewrite times_one_and_a_half by exact H3.
    rewrite to_int_three_halves by exact H3.
    f_equal. change (3 * Z.neg p) with (- Zpos (3 * p)).
    rewrite Z.quot_opp_l by lia.
    rewrite Z.quot_div_nonneg by lia. reflexivity.
Qed.

(** ** Fetching the results with retries *)

Section ResultsRetry.

Variable E : env.

Hypothesis not_ready :
  forall n, exists r, results_endpoint E n = Responds r /\ status_code r = 409.
Hypothesis left_alone : forall n, sleep_interrupted E n = false.

Lemma get_task_results_not_ready (task_id : string) (w : world) :
  get_task_results E task_id w =
    (Exc (task_not_ready task_id), note_results (Some 409) w).
Proof.
  destruct (not_ready (results_calls w)) as [r [Ha Hc]].
  apply get_task_results_409 with r; assumption.
Qed.

(** Left alone, the countdown is so many sleeps of one second. *)
Lemma countdown_slept (n : nat) (w : world) :
  countdown E n w = (Ok tt, slept n w).
Proof.
  revert w. induction n as [|n IH]; intro w.
  - reflexivity.
  - cbn [countdown slept]. unfold bind.
    rewrite time_sleep_done by first [reflexivity | apply left_alone].
    apply IH.
Qed.

Lemma countdown_runs (n : nat) (w : world) :
  exists w',
    countdown E n w = (Ok tt, w') /\
    (now w' == now w + inject_Z (Z.of_nat n))%Q /\
    status_calls w' = status_calls w /\
    results_calls w' = results_calls w /\
    sleep_calls w' = (sleep_calls w + n)%nat.
Proof.
  exists (slept n w). split; [apply countdown_slept|].
  destruct (slept_calls n w) as [H1 [H2 [H3 H4]]]. auto.
Qed.

(** One turn of the retry loop against a service that is not ready. *)
Lemma results_retry_loop_turn (fuel : nat) (task_id : string)
    (estimate_time max_retries retry_count : Z) (w : world) :
  retry_count <= max_retries ->
  results_retry_loop E (S fuel) task_id estimate_time max_retries retry_count w =
    if max_retries <? retry_count + 1
    then (Exc (task_not_ready task_id), note_results (Some 409) w)
    else
      match retry_wait_time estimate_time (retry_count + 1) with
      | inl overflow => (Exc overflow, note_results (Some 409) w)
      | inr wait_time =>
          results_retry_loop E fuel task_id estimate_time max_retries
            (retry_count + 1)
            (slept (Z.to_nat wait_time) (note_results (Some 409) w))
      end.
Proof.
  intro Hk. apply Z.leb_le in Hk.
  cbn [results_retry_loop]. rewrite Hk. unfold bind at 1, attempt.
  rewrite get_task_results_not_ready. unfold task_not_ready.
  rewrite not_ready_recognised.
  destruct (max_retries <? retry_count + 1); [reflexivity|].
  destruct (retry_wait_time estimate_time (retry_count + 1)) as [e|wait_time];
    [reflexivity|].
  unfold bind. rewrite countdown_slept. reflexivity.
Qed.

(** Three retries against a service that is never ready: four calls, and
    between them the three waits, in this order. *)
Lemma four_not_ready_answers (task_id : string) (estimate_time wait3 : Z)
    (w : world) :
  retry_wait_time estimate_time 3 = inr wait3 ->
  let wait1 := Z.max 5 (estimate_time / 2) in
  let wait2 := Z.max 10 estimate_time in
  get_task_results_with_retry E task_id estimate_time 3 w =
    (Exc (task_not_ready task_id),
     note_results (Some 409)
       (slept (Z.to_nat wait3)
          (note_results (Some 409)
             (slept (Z.to_nat wait2)
                (note_results (Some 409)
                   (slept (Z.to_nat wait1)
                      (note_results (Some 409) w))))))).
Proof.
  intros H3 wait1 wait2. unfold get_task_results_with_retry.
  change (S (Z.to_nat (3 + 1))) with 5%nat.
  rewrite results_retry_loop_turn by lia.
  change (3 <? 0 + 1) with false. cbv iota.
  change (retry_wait_time estimate_time (0 + 1)) with (@inr exn Z wait1).
  cbv iota.
  rewrite results_retry_loop_turn by lia.
  change (3 <? 0 + 1 + 1) with false. cbv iota.
  change (retry_wait_time estimate_time (0 + 1 + 1)) with (@inr exn Z wait2).
  cbv iota.
  rewrite results_retry_loop_turn by lia.
  change (3 <? 0 + 1 + 1 + 1) with false. cbv iota.
  change (0 + 1 + 1 + 1) with 3. rewrite H3.
  rewrite results_retry_loop_turn by lia.
  reflexivity.
Qed.

End ResultsRetry.

Lemma floor_of_half (e : Z) : Qfloor (inject_Z e / 2) = e / 2.
Proof.
  unfold Qdiv, Qmult, Qinv, inject_Z, Qfloor. simpl. rewrite Z.mul_1_r.
  reflexivity.
Qed.

Lemma floor_of_three_halves (e : Z) : Qfloor (inject_Z e * (3 # 2)) = (e * 3) / 2.
Proof. unfold Qmult, inject_Z, Qfloor. simpl. reflexivity. Qed.

(** The waits of the specification with the fraction of a second
    dropped, in integer arithmetic. *)
Lemma floor_of_spec_retry_wait (e k : Z) :
  Qfloor (spec_retry_wait e k) =
    if k =? 1 then Z.max 5 (e / 2)
    else if k =? 2 then Z.max 10 e
    else Z.max 15 (Z.quot (3 * e) 2).
Proof.
  unfold spec_retry_wait.
  destruct (k =? 1); [|destruct (k =? 2)]; unfold Py.max.
  - destruct (Qlt_bool 5 (inject_Z e / 2)) eqn:H.
    + rewrite floor_of_half. apply Qlt_bool_true in H.
      unfold Qlt, Qdiv, Qmult, Qinv, inject_Z in H. simpl in H.
      Z.div_mod_to_equations. lia.
    + apply Qlt_bool_false in H.
      unfold Qle, Qdiv, Qmult, Qinv, inject_Z in H. simpl in H.
      change (Qfloor 5) with 5. Z.div_mod_to_equations. lia.
  - destruct (Qlt_bool 10 (inject_Z e)) eqn:H.
    + rewrite Qfloor_Z. apply Qlt_bool_true in H.
      unfold Qlt, inject_Z in H. simpl in H. lia.
    + apply Qlt_bool_false in H.
      unfold Qle, inject_Z in H. simpl in H.
      change (Qfloor 10) with 10. lia.
  - destruct (Qlt_bool 15 (inject_Z e * (3 # 2))) eqn:H.
    + rewrite floor_of_three_halves. apply Qlt_bool_true in H.
      unfold Qlt, Qmult, inject_Z in H. simpl in H.
      Z.quot_rem_to_equations. Z.div_mod_to_equations. lia.
    + apply Qlt_bool_false in H.
      unfold Qle, Qmult, inject_Z in H. simpl in H.
      change (Qfloor 15) with 15. Z.quot_rem_to_equations. lia.
Qed.

(** The third wait and the later ones, where the float product is exact. *)
Lemma retry_wait_time_late (e k : Z) :
  k <> 1 -> k <> 2 ->
  Z.abs (3 * e) < 2 ^ 53 ->
  retry_wait_time e k = inr (Z.max 15 (Z.quot (3 * e) 2)).
Proof.
  intros H1 H2 He. unfold retry_wait_time.
  destruct (Z.eqb_spec k 1); [contradiction|].
  destruct (Z.eqb_spec k 2); [contradiction|].
  destruct (int_times_one_and_a_half e He) as [Hof Hint].
  rewrite Hof, Hint. reflexivity.
Qed.

(** C5, as the code has it.  The waits are whole seconds.  Before retry 1
    the helper waits [max(5, e // 2)], before retry 2 [max(10, e)], for
    every int [e].  Before retry 3 and later it waits
    [max(15, int(e * 1.5))], where [e * 1.5] is a product of floats: as
    long as three times the estimate stays below 2^53 in size the product
    is exact and the wait is three halves of the estimate with the
    fraction dropped (toward zero).  Within that range the three waits are
    the values of the specification rounded down.  With the maximum of 3
    retries that [process_file] uses, a service that is never ready is
    asked four times: the first wait comes after the first answer, the
    second after the second, the third after the third, each counted down
    in sleeps of one second, and the fourth "not ready" leaves the helper
    as the exception it is, at once.  For [e = 20] the waits are 10, 20
    and 30 seconds. *)
Theorem C5_retry_waits_in_whole_seconds :
  (forall e, retry_wait_time e 1 = inr (Z.max 5 (e / 2))) /\
  (forall e, retry_wait_time e 2 = inr (Z.max 10 e)) /\
  (forall e k, 3 <= k -> Z.abs (3 * e) < 2 ^ 53 ->
     retry_wait_time e k = inr (Z.max 15 (Z.quot (3 * e) 2))) /\
  (forall e, 0 <= e -> Z.quot (3 * e) 2 = (3 * e) / 2) /\
  (forall e k, Z.abs (3 * e) < 2 ^ 53 ->
     retry_wait_time e k = inr (Qfloor (spec_retry_wait e k))) /\
  (retry_wait_time 20 1 = inr 10 /\ retry_wait_time 20 2 = inr 20 /\
   retry_wait_time 20 3 = inr 30) /\
  (forall (E : env) (task_id : string) (e : Z) (w : world),
     (forall n, exists r,
        results_endpoint E n = Responds r /\ status_code r = 409) ->
     (forall n, sleep_interrupted E n = false) ->
     Z.abs (3 * e) < 2 ^ 53 ->
     let asked (v : world) := note_results (Some 409) v in
     let w1 := slept (Z.to_nat (Z.max 5 (e / 2))) (asked w) in
     let w2 := slept (Z.to_nat (Z.max 10 e)) (asked w1) in
     let w3 := slept (Z.to_nat (Z.max 15 (Z.quot (3 * e) 2))) (asked w2) in
     get_task_results_with_retry E task_id e 3 w =
       (Exc (task_not_ready task_id), asked w3) /\
     (now w1 == now w + inject_Z (Z.max 5 (e / 2)))%Q /\
     (now w2 == now w1 + inject_Z (Z.max 10 e))%Q /\
     (now w3 == now w2 + inject_Z (Z.max 15 (Z.quot (3 * e) 2)))%Q /\
     results_calls (asked w3) = (results_calls w + 4)%nat /\
     status_calls (asked w3) = status_calls w).
Proof.
  split; [|split; [|split; [|split; [|split; [|split]]]]].
  - reflexivity.
  - reflexivity.
  - intros e k Hk He. apply retry_wait_time_late; [lia | lia | exact He].
  - intros e He. apply Z.quot_div_nonneg; lia.
  - intros e k He. rewrite floor_of_spec_retry_wait.
    destruct (Z.eqb_spec k 1) as [->|H1]; [reflexivity|].
    destruct (Z.eqb_spec k 2) as [->|H2]; [reflexivity|].
    apply retry_wait_time_late; assumption.
  - repeat split; vm_compute; reflexivity.
  - intros E task_id e w Hnr Hsl He asked w1 w2 w3.
    split.
    + apply (four_not_ready_answers E Hnr Hsl task_id e
               (Z.max 15 (Z.quot (3 * e) 2)) w).
      apply retry_wait_time_late; [lia | lia | exact He].
    + unfold w3, w2, w1, asked.
      repeat match goal with
      | |- context [slept ?n ?v] =>
          lazymatch goal with
          | _ : sleep_calls (slept n v) = _ |- _ => fail
          | _ => destruct (slept_calls n v) as [? [? [? ?]]]
          end
      end.
      cbn [now results_calls status_calls note_results] in *.
      rewrite !Z2Nat.id in * by lia.
      repeat split; try assumption; try lia; congruence.
Qed.

Lemma C5_retry_waits_in_whole_seconds_witness :
  (forall n, exists r,
     results_endpoint always_not_ready n = Responds r /\ status_code r = 409) /\
  (forall n, sleep_interrupted always_not_ready n = false) /\
  Z.abs (3 * 20) < 2 ^ 53 /\
  get_task_results_with_retry always_not_ready "t1" 20 3 (boot 0)
    = (Exc (task_not_ready "t1"),
       note_results (Some 409)
         (slept 30 (note_results (Some 409)
            (slept 20 (note_results (Some 409)
               (slept 10 (note_results (Some 409) (boot 0)))))))).
Proof.
  assert (Hnr : forall n, exists r,
             results_endpoint always_not_ready n = Responds r /\
             status_code r = 409).
  { intro n. exists (mkResponse 409 [] ""). split; reflexivity. }
  assert (Hsl : forall n, sleep_interrupted always_not_ready n = false)
    by (intro n; reflexivity).
  assert (He : Z.abs (3 * 20) < 2 ^ 53) by (vm_compute; reflexivity).
  split; [exact Hnr|]. split; [exact Hsl|]. split; [exact He|].
  destruct C5_retry_waits_in_whole_seconds as [_ [_ [_ [_ [_ [_ Hrun]]]]]].
  destruct (Hrun always_not_ready "t1"%string 20 (boot 0) Hnr Hsl He)
    as [Hres _].
  exact Hres.
Defined.

(** The run for an estimate of 20 seconds: results are asked for at
    seconds 0, 10, 30 and 60, and the fourth "not ready" is raised. *)
Example retry_waits_for_twenty :
  let (r, w) := get_task_results_with_retry always_not_ready "t1" 20 3 (boot 0) in
  r = Exc (task_not_ready "t1") /\
  filter (fun ev => match ev with GetResults _ _ => true | _ => false end)
         (trace w)
    = [GetResults 0 (Some 409); GetResults 10 (Some 409);
       GetResults 30 (Some 409); GetResults 60 (Some 409)] /\
  sleep_calls w = 60%nat /\ now w = 60%Q.
Proof. vm_compute. repeat split; reflexivity. Qed.

(** Beyond the exact range the third wait is what the floats make of it:
    a product that is rounded to 53 bits, and [OverflowError] for an
    estimate that no float holds. *)
Example third_wait_beyond_the_exact_range :
  retry_wait_time 3002399751580333 3 = inr 4503599627370500 /\
  Z.quot (3 * 3002399751580333) 2 = 4503599627370499 /\
  retry_wait_time (2 ^ 1024) 3 = inl int_too_large.
Proof. repeat split; vm_compute; reflexivity. Qed.

(** C5 as stated fails for odd estimates above ten: for [e = 11] the first
    wait is 5 seconds, not 5.5, and the third is 16 seconds, not 16.5. *)
Lemma C5_counterexample :
  retry_wait_time 11 1 = inr 5 /\
  (spec_retry_wait 11 1 == 11 # 2)%Q /\
  ~ (inject_Z 5 == spec_retry_wait 11 1)%Q /\
  retry_wait_time 11 3 = inr 16 /\
  (spec_retry_wait 11 3 == 33 # 2)%Q /\
  ~ (inject_Z 16 == spec_retry_wait 11 3)%Q.
Proof.
  repeat split; try reflexivity;
    intro H; vm_compute in H; discriminate H.
Qed.

(* ================================================================== *)
(** * Further properties of the client *)

(** ** Item assignment on dicts *)

Lemma dict_get_set_same (k : string) (v : json) (d : dict) :
  dict_get k (dict_set k v d) = Some v.
Proof.
  induction d as [|[k' v'] d IH]; simpl.
  - rewrite String.eqb_refl. reflexivity.
  - destruct (String.eqb k k') eqn:Hk; simpl.
    + rewrite String.eqb_refl. reflexivity.
    + rewrite Hk. exact IH.
Qed.

Lemma dict_get_set_other (k k' : string) (v : json) (d : dict) :
  k <> k' -> dict_get k' (dict_set k v d) = dict_get k' d.
Proof.
  intro Hne. induction d as [|[k0 v0] d IH]; simpl.
  - destruct (String.eqb_spec k' k); [congruence | reflexivity].
  - destruct (String.eqb_spec k k0) as [->|Hk]; simpl.
    + destruct (String.eqb_spec k' k0); [congruence | reflexivity].
    + destruct (String.eqb_spec k' k0); [reflexivity | exact IH].
Qed.

(** ** The interval policy *)

Lemma min_upper_bound (a b : Q) : (Py.min a b <= b)%Q.
Proof.
  unfold Py.min. destruct (Qlt_bool b a) eqn:H.
  - lra.
  - apply Qlt_bool_false in H. exact H.
Qed.

(** X1.  With [respect_estimate_time] off the interval is the custom
    interval clamped: the same whatever the estimate, the elapsed time and
    the poll count; never below [min_interval]; never above [max_interval]
    when the two bounds are in order; the custom interval itself when it
    lies between them. *)
Theorem fixed_interval_is_clamped (P : polling_config)
    (estimate_time : Z) (elapsed : Q) (n : Z) :
  respect_estimate_time P = false ->
  (forall (estimate_time' : Z) (elapsed' : Q) (n' : Z),
     next_interval P estimate_time' elapsed' n' =
       next_interval P estimate_time elapsed n) /\
  (min_interval P <= next_interval P estimate_time elapsed n)%Q /\
  ((min_interval P <= max_interval P)%Q ->
   (next_interval P estimate_time elapsed n <= max_interval P)%Q) /\
  ((min_interval P <= custom_interval P)%Q ->
   (custom_interval P <= max_interval P)%Q ->
   (next_interval P estimate_time elapsed n == custom_interval P)%Q).
Proof.
  intro Hr.
  assert (Hfix : forall e' el' n',
             next_interval P e' el' n' =
               Py.max (min_interval P)
                      (Py.min (custom_interval P) (max_interval P))).
  { intros e' el' n'. unfold next_interval. rewrite Hr. reflexivity. }
  split; [intros; rewrite !Hfix; reflexivity|].
  rewrite Hfix. split; [apply max_lower_bound|]. split.
  - intro Hmm. pose proof (min_upper_bound (custom_interval P) (max_interval P)).
    unfold Py.max.
    destruct (Qlt_bool (min_interval P)
                (Py.min (custom_interval P) (max_interval P))); assumption.
  - intros Hlo Hhi. unfold Py.max, Py.min.
    destruct (Qlt_bool (max_interval P) (custom_interval P)) eqn:H1.
    + apply Qlt_bool_true in H1. lra.
    + destruct (Qlt_bool (min_interval P) (custom_interval P)) eqn:H2.
      * reflexivity.
      * apply Qlt_bool_false in H2. lra.
Qed.

Lemma fixed_interval_is_clamped_witness :
  respect_estimate_time
    (mkConfig (Some false) (Some 60%Q) None None None None None) = false /\
  (next_interval (mkConfig (Some false) (Some 60%Q) None None None None None)
                 100 7 2 <= 30)%Q.
Proof.
  split; [reflexivity|].
  destruct (fixed_interval_is_clamped
              (mkConfig (Some false) (Some 60%Q) None None None None None)
              100 7 2 eq_refl) as [_ [_ [H _]]].
  apply H. unfold Qle. simpl. lia.
Defined.

(** X2.  An estimate that has elapsed: the interval steps with the time
    beyond the estimate, 5 seconds below 30, 10 seconds from 30 to below
    120, 15 seconds from 120 on, whatever the poll count; it never goes
    down as time goes on. *)
Theorem overtime_interval_steps (P : polling_config) (estimate_time : Z)
    (elapsed : Q) (n : Z) :
  respect_estimate_time P = true ->
  0 < estimate_time ->
  (inject_Z estimate_time <= elapsed)%Q ->
  ((elapsed - inject_Z estimate_time < 30)%Q ->
   next_interval P estimate_time elapsed n = 5%Q) /\
  ((30 <= elapsed - inject_Z estimate_time)%Q ->
   (elapsed - inject_Z estimate_time < 120)%Q ->
   next_interval P estimate_time elapsed n = 10%Q) /\
  ((120 <= elapsed - inject_Z estimate_time)%Q ->
   next_interval P estimate_time elapsed n = 15%Q) /\
  (forall (elapsed' : Q) (n' : Z),
     (elapsed <= elapsed')%Q ->
     (next_interval P estimate_time elapsed n
        <= next_interval P estimate_time elapsed' n')%Q).
Proof.
  intros Hr He Hel.
  assert (Hform : forall el k,
             (inject_Z estimate_time <= el)%Q ->
             next_interval P estimate_time el k =
               if Qlt_bool (el - inject_Z estimate_time) 30 then 5%Q
               else if Qlt_bool (el - inject_Z estimate_time) 120 then 10%Q
               else 15%Q).
  { intros el k Hle. unfold next_interval. rewrite Hr.
    apply Z.ltb_lt in He. rewrite He.
    apply Qle_bool_iff in Hle. rewrite Hle. reflexivity. }
  repeat split.
  - intro H. rewrite Hform by exact Hel.
    apply Qlt_bool_true in H. rewrite H. reflexivity.
  - intros H1 H2. rewrite Hform by exact Hel.
    apply Qlt_bool_false in H1. apply Qlt_bool_true in H2.
    rewrite H1, H2. reflexivity.
  - intro H. rewrite Hform by exact Hel.
    assert (H1 : Qlt_bool (elapsed - inject_Z estimate_time) 30 = false)
      by (apply Qlt_bool_false; lra).
    apply Qlt_bool_false in H. rewrite H1, H. reflexivity.
  - intros elapsed' n' Hmono.
    rewrite (Hform elapsed n Hel), (Hform elapsed' n') by lra.
    destruct (Qlt_bool (elapsed - inject_Z estimate_time) 30) eqn:A1;
      destruct (Qlt_bool (elapsed - inject_Z estimate_time) 120) eqn:A2;
      destruct (Qlt_bool (elapsed' - inject_Z estimate_time) 30) eqn:B1;
      destruct (Qlt_bool (elapsed' - inject_Z estimate_time) 120) eqn:B2;
      try lra;
      repeat match goal with
             | H : Qlt_bool _ _ = true |- _ => apply Qlt_bool_true in H
             | H : Qlt_bool _ _ = false |- _ => apply Qlt_bool_false in H
             end; lra.
Qed.

Lemma overtime_interval_steps_witness :
  respect_estimate_time defaults = true /\ 0 < 60 /\
  (inject_Z 60 <= 100)%Q /\
  next_interval defaults 60 100 7 = 10%Q.
Proof.
  assert (Hel : (inject_Z 60 <= 100)%Q) by (unfold Qle; simpl; lia).
  split; [reflexivity|]. split; [lia|]. split; [exact Hel|].
  destruct (overtime_interval_steps defaults 60 100 7 eq_refl ltac:(lia) Hel)
    as [_ [H _]].
  apply H; unfold Qle, Qlt; simpl; lia.
Defined.

(** A tenth of an estimate of at most 50 seconds is not above five
    seconds, in floats too. *)
Lemma tenth_up_to_fifty (estimate_time : Z) :
  0 < estimate_time <= 50 ->
  Qlt_bool 5 (Float.to_Q (Float.mul (Float.nearest estimate_time)
                                    Float.one_tenth)) = false.
Proof.
  intro H. destruct estimate_time as [|p|p]; try lia.
  repeat (destruct p as [p|p|]; try lia); vm_compute; reflexivity.
Qed.

(** X3.  An estimate that has not elapsed (the pre-wait was cut short of
    it by the clock, or the status says so early): the interval is
    [max(5, estimate_time * 0.1)] with the product taken in floats.  For
    an estimate within the floats it is never below five seconds, and it
    is five seconds for every estimate up to 50; for 51 it is the double
    next to 5.1, a little above it.  An estimate beyond the floats makes
    the product raise [OverflowError]: the turn has no interval and does
    not sleep. *)
Theorem interval_within_the_estimate (P : polling_config) (estimate_time : Z)
    (elapsed : Q) (n : Z) :
  respect_estimate_time P = true ->
  0 < estimate_time ->
  (elapsed < inject_Z estimate_time)%Q ->
  sleep_refused P estimate_time elapsed n =
    (if Float.is_finite (Float.nearest estimate_time)
     then refused (next_interval P estimate_time elapsed n)
     else Some int_too_large) /\
  (Float.is_finite (Float.nearest estimate_time) = true ->
   next_interval P estimate_time elapsed n =
     Py.max 5 (Float.to_Q (Float.mul (Float.nearest estimate_time)
                                     Float.one_tenth)) /\
   (5 <= next_interval P estimate_time elapsed n)%Q) /\
  (estimate_time <= 50 ->
   next_interval P estimate_time elapsed n = 5%Q /\
   sleep_refused P estimate_time elapsed n = None).
Proof.
  intros Hr He Hel.
  assert (Hq : Qle_bool (inject_Z estimate_time) elapsed = false).
  { destruct (Qle_bool (inject_Z estimate_time) elapsed) eqn:Hq;
      [|reflexivity].
    apply Qle_bool_iff in Hq. lra. }
  assert (Hpos : (0 <? estimate_time) = true) by (apply Z.ltb_lt; exact He).
  assert (Hform : next_interval P estimate_time elapsed n =
                    Py.max 5 (Float.to_Q (Float.mul (Float.nearest estimate_time)
                                                    Float.one_tenth))).
  { unfold next_interval. rewrite Hr, Hq, Hpos. reflexivity. }
  assert (Hsr : sleep_refused P estimate_time elapsed n =
                  (if Float.is_finite (Float.nearest estimate_time)
                   then refused (next_interval P estimate_time elapsed n)
                   else Some int_too_large)).
  { unfold sleep_refused, interval_overflows. rewrite Hr, Hq, Hpos.
    cbn [negb andb].
    destruct (Float.is_finite (Float.nearest estimate_time)); reflexivity. }
  split; [exact Hsr|]. split.
  - intros _. split; [exact Hform|].
    apply next_interval_respectful. exact Hr.
  - intro Hc.
    assert (H5 : next_interval P estimate_time elapsed n = 5%Q).
    { rewrite Hform. unfold Py.max.
      rewrite tenth_up_to_fifty by lia. reflexivity. }
    split; [exact H5|].
    rewrite Hsr, H5.
    destruct estimate_time as [|p|p]; try lia.
    repeat (destruct p as [p|p|]; try lia); vm_compute; reflexivity.
Qed.

Lemma interval_within_the_estimate_witness :
  respect_estimate_time defaults = true /\ 0 < 51 /\
  (10 < inject_Z 51)%Q /\
  next_interval defaults 51 10 1 = (5742089524897383 # 1125899906842624)%Q /\
  (51 # 10 < 5742089524897383 # 1125899906842624)%Q /\
  sleep_refused defaults 51 10 1 = None /\
  next_interval defaults 50 10 1 = 5%Q /\
  sleep_refused defaults (2 ^ 1024) 10 1 = Some int_too_large.
Proof.
  assert (Hel : (10 < inject_Z 51)%Q) by (unfold Qlt; simpl; lia).
  assert (Hel' : (10 < inject_Z 50)%Q) by (unfold Qlt; simpl; lia).
  assert (Hel2 : (10 < inject_Z (2 ^ 1024))%Q)
    by (unfold Qlt; vm_compute; reflexivity).
  split; [reflexivity|]. split; [lia|]. split; [exact Hel|].
  destruct (interval_within_the_estimate defaults 51 10 1 eq_refl
              ltac:(lia) Hel) as [Hs [H _]].
  destruct (interval_within_the_estimate defaults 50 10 1 eq_refl
              ltac:(lia) Hel') as [_ [_ H']].
  destruct (interval_within_the_estimate defaults (2 ^ 1024) 10 1 eq_refl
              ltac:(vm_compute; reflexivity) Hel2) as [Hs2 _].
  destruct (H eq_refl) as [H51 _].
  split; [rewrite H51; vm_compute; reflexivity|].
  split; [unfold Qlt; simpl; lia|].
  split; [rewrite Hs; vm_compute; reflexivity|].
  split; [apply H'; lia|].
  rewrite Hs2. vm_compute. reflexivity.
Defined.

(** ** Polls that end the wait *)

Lemma set_status_same (st : string) (i : status_info) :
  info_status i = Some st -> set_status st i = i.
Proof. destruct i; simpl; intro H; rewrite H; reflexivity. Qed.

Lemma terminal_failure_not_completed (st : string) :
  is_terminal_failure st = true -> String.eqb st "completed" = false.
Proof.
  unfold is_terminal_failure. intro H.
  destruct (String.eqb_spec st "completed") as [Heq | Hne];
    [subst st; discriminate H | reflexivity].
Qed.

(** X4.  A snapshot that says "completed" and carries a non-empty result
    is shown in the very turn that fetched it, on any poll and under any
    policy, with no call for the results.  When [_display_results] raises
    nothing, the turn ends the wait with no sleep: what is returned is the
    server's result with ['status'] set to "completed" and
    ['_already_displayed'] set to true; every other entry is as the server
    sent it.  When [_display_results] raises, the result is not returned:
    Ctrl-C gives the interruption notice, and any other exception is
    handled like a failed status fetch (raised again if [retry_on_error]
    is off; otherwise five seconds of sleep and another turn, with the
    error counter at one). *)
Theorem embedded_result_ends_the_wait (E : env) (P : polling_config)
    (task_id : string) (estimate_time max_wait : Z) (start_time : Q)
    (s : session) (w : world) (r : response status_info) (d : dict) :
  (now w - start_time <= inject_Z max_wait)%Q ->
  status_endpoint E (status_calls w) = Responds r ->
  status_code r = 200 ->
  info_status (body r) = Some "completed"%string ->
  info_result (body r) = Some d ->
  d <> [] ->
  let result_data :=
    dict_set "_already_displayed" (JBool true)
             (dict_set "status" (JStr "completed") d) in
  let w0 := note_status (Some 200) w in
  poll_iteration E P task_id estimate_time max_wait start_time s w =
    match display_raises E result_data with
    | None => (Ok (Return (RetResult result_data)), w0)
    | Some e =>
        if negb (is_Exception e) then (Ok (Return (RetInterrupted task_id)), w0)
        else if negb (retry_on_error P) then (Exc e, w0)
        else if sleep_interrupted E (sleep_calls w)
        then (Exc KeyboardInterrupt, note_sleep 5 w0)
        else (Ok (Continue (mkSession (check_count s + 1) 1)),
              pass 5 (note_sleep 5 w0))
    end /\
  status_of (RetResult result_data) = Some "completed"%string /\
  already_displayed (RetResult result_data) = true /\
  (forall k : string,
     k <> "status"%string -> k <> "_already_displayed"%string ->
     dict_get k result_data = dict_get k d).
Proof.
  intros Ht Ha Hc Hst Hres Hne result_data w0.
  pose proof (get_task_status_200 E task_id w r Ha Hc) as Hs.
  assert (Hemb : embedded_result (body r) = Some d).
  { unfold embedded_result. rewrite Hres. destruct d; [congruence | reflexivity]. }
  split; [|split; [|split]].
  - rewrite poll_iteration_unfold by exact Ht. rewrite Hs. cbv zeta.
    unfold poll_body, bind. cbn [check_count]. rewrite Hst. cbn [get].
    rewrite (check_finished_embedded E task_id (check_count s + 1) (body r) d
               (note_status (Some 200) w) Hemb).
    cbv zeta. fold result_data. fold w0.
    destruct (display_raises E result_data) as [e|]; [|reflexivity].
    destruct (is_Exception e) eqn:He.
    + rewrite on_exception_Exception by exact He. reflexivity.
    + destruct e; try discriminate He. reflexivity.
  - unfold status_of, result_data.
    rewrite dict_get_set_other by discriminate.
    rewrite dict_get_set_same. reflexivity.
  - unfold already_displayed, result_data.
    rewrite dict_get_set_same. reflexivity.
  - intros k H1 H2. unfold result_data.
    rewrite dict_get_set_other by congruence.
    apply dict_get_set_other. congruence.
Qed.

Lemma embedded_result_ends_the_wait_witness :
  (now (boot 0) - 0 <= inject_Z 1800)%Q /\
  fst (poll_iteration unknown_then_done defaults "t1" 0 1800 0 (mkSession 0 0)
                      (mkWorld 5 1 0 1 []))
    = Ok (Return (RetResult [("groups"%string, JNum 7);
                             ("status"%string, JStr "completed");
                             ("_already_displayed"%string, JBool true)])).
Proof.
  assert (Ht : (now (boot 0) - 0 <= inject_Z 1800)%Q)
    by (unfold Qle; simpl; lia).
  split; [exact Ht|].
  assert (Ht' : (now (mkWorld 5 1 0 1 []) - 0 <= inject_Z 1800)%Q)
    by (unfold Qle; simpl; lia).
  destruct (embedded_result_ends_the_wait unknown_then_done defaults "t1" 0 1800
              0 (mkSession 0 0) (mkWorld 5 1 0 1 [])
              (mkResponse 200
                 (snapshot_with "completed" [("groups"%string, JNum 7)]) "")
              [("groups"%string, JNum 7)]
              Ht' eq_refl eq_refl eq_refl eq_refl ltac:(discriminate))
    as [H _].
  rewrite H. reflexivity.
Defined.

(** X5.  A snapshot that says "failed", "error" or "cancelled" ends the
    wait in the turn that fetched it: the snapshot itself is returned, with
    its message, on any poll and under any policy, before any sleep and
    without touching the polling limit. *)
Theorem failed_task_ends_the_wait (E : env) (P : polling_config)
    (task_id : string) (estimate_time max_wait : Z) (start_time : Q)
    (s : session) (w : world) (r : response status_info) (st : string) :
  (now w - start_time <= inject_Z max_wait)%Q ->
  status_endpoint E (status_calls w) = Responds r ->
  status_code r = 200 ->
  info_status (body r) = Some st ->
  st = "failed"%string \/ st = "error"%string \/ st = "cancelled"%string ->
  poll_iteration E P task_id estimate_time max_wait start_time s w =
    (Ok (Return (RetStatus (body r))), note_status (Some 200) w).
Proof.
  intros Ht Ha Hc Hst Hfail.
  pose proof (get_task_status_200 E task_id w r Ha Hc) as Hs.
  assert (Hterm : is_terminal_failure st = true)
    by (destruct Hfail as [H | [H | H]]; subst st; reflexivity).
  rewrite <- (set_status_same st (body r) Hst) at 1.
  apply (poll_iteration_returns E P task_id estimate_time max_wait start_time
           s w (note_status (Some 200) w) (note_status (Some 200) w) (body r)
           _ Ht Hs).
  rewrite Hst. cbn [get]. unfold check_finished.
  rewrite (terminal_failure_not_completed st Hterm), Hterm. reflexivity.
Qed.

Lemma failed_task_ends_the_wait_witness :
  (now (boot 0) - 0 <= inject_Z 1800)%Q /\
  poll_iteration failing_task unlimited "t1" 0 1800 0 (mkSession 0 0) (boot 0)
    = (Ok (Return (RetStatus failed_snapshot)), note_status (Some 200) (boot 0)).
Proof.
  assert (Ht : (now (boot 0) - 0 <= inject_Z 1800)%Q)
    by (unfold Qle; simpl; lia).
  split; [exact Ht|].
  apply (failed_task_ends_the_wait failing_task unlimited "t1" 0 1800 0
           (mkSession 0 0) (boot 0) (mkResponse 200 failed_snapshot "")
           "failed" Ht eq_refl eq_refl eq_refl).
  left. reflexivity.
Defined.

Lemma results_missing_not_ready (task_id : string) :
  contains NOT_READY ("任务结果不存在: " ++ task_id) = contains NOT_READY task_id.
Proof. unfold NOT_READY. cbn. reflexivity. Qed.

Lemma get_task_results_answer (E : env) (task_id : string) (w : world) :
  get_task_results E task_id w =
    match results_endpoint E (results_calls w) with
    | Responds r =>
        (if status_code r =? 200 then Ok (body r)
         else if status_code r =? 404 then Exc (results_missing task_id)
         else if status_code r =? 409 then Exc (task_not_ready task_id)
         else Exc (HTTPError ("获取结果失败: " ++ error_message r)),
         note_results (Some (status_code r)) w)
    | Throws e => (Exc e, note_results None w)
    end.
Proof.
  unfold get_task_results, bind, request_results.
  destruct (results_endpoint E (results_calls w)) as [r|e]; [|reflexivity].
  destruct (status_code r =? 200); [reflexivity|].
  destruct (status_code r =? 404); [reflexivity|].
  destruct (status_code r =? 409); reflexivity.
Qed.

(** X6.  The confirming results call of polls 1 to 3 demotes the status
    only on "not ready".  Any other answer is read as completion: code
    200, a 404 (unless the task identifier itself contains the words of
    the not-ready message, which are looked for in the text of the
    exception), every other HTTP code, and a transport exception that is
    not a [ValueError]. *)
Theorem failed_confirmation_counts_as_completed (E : env) (P : polling_config)
    (task_id : string) (estimate_time max_wait : Z) (start_time : Q)
    (s : session) (w : world) (r0 : response status_info) :
  (now w - start_time <= inject_Z max_wait)%Q ->
  status_endpoint E (status_calls w) = Responds r0 ->
  status_code r0 = 200 ->
  info_status (body r0) = Some "completed"%string ->
  embedded_result (body r0) = None ->
  check_count s + 1 <= 3 ->
  (forall r : response dict,
     results_endpoint E (results_calls w) = Responds r ->
     status_code r <> 409 ->
     (status_code r = 404 -> contains NOT_READY task_id = false) ->
     poll_iteration E P task_id estimate_time max_wait start_time s w =
       (Ok (Return (RetStatus (set_status "completed" (body r0)))),
        note_results (Some (status_code r)) (note_status (Some 200) w))) /\
  (forall e : exn,
     results_endpoint E (results_calls w) = Throws e ->
     is_Exception e = true ->
     (forall msg, e <> ValueError msg) ->
     poll_iteration E P task_id estimate_time max_wait start_time s w =
       (Ok (Return (RetStatus (set_status "completed" (body r0)))),
        note_results None (note_status (Some 200) w))).
Proof.
  intros Ht Ha Hc Hst Hemb Hn.
  pose proof (get_task_status_200 E task_id w r0 Ha Hc) as Hs.
  apply Z.leb_le in Hn.
  split.
  - intros r Hr H409 H404.
    apply (poll_iteration_returns E P task_id estimate_time max_wait start_time
             s w (note_status (Some 200) w) _ (body r0) _ Ht Hs).
    rewrite Hst. cbn [get]. unfold check_finished.
    cbn [String.eqb Ascii.eqb Bool.eqb]. rewrite Hemb, Hn.
    unfold bind, attempt. rewrite get_task_results_answer.
    cbn [results_calls note_status]. rewrite Hr.
    destruct (Z.eqb_spec (status_code r) 200); [reflexivity|].
    destruct (Z.eqb_spec (status_code r) 404) as [H4|].
    + unfold results_missing. rewrite results_missing_not_ready.
      rewrite (H404 H4). reflexivity.
    + destruct (Z.eqb_spec (status_code r) 409); [contradiction|].
      reflexivity.
  - intros e Hr He Hnv.
    apply (poll_iteration_returns E P task_id estimate_time max_wait start_time
             s w (note_status (Some 200) w) _ (body r0) _ Ht Hs).
    rewrite Hst. cbn [get]. unfold check_finished.
    cbn [String.eqb Ascii.eqb Bool.eqb]. rewrite Hemb, Hn.
    unfold bind, attempt. rewrite get_task_results_answer.
    cbn [results_calls note_status]. rewrite Hr.
    destruct e; try reflexivity.
    + exfalso. apply (Hnv msg). reflexivity.
    + discriminate He.
Qed.

Lemma failed_confirmation_counts_as_completed_witness :
  (now (boot 0) - 0 <= inject_Z 1800)%Q /\
  fst (poll_iteration broken_results defaults "t1" 0 1800 0 (mkSession 0 0)
                      (boot 0))
    = Ok (Return (RetStatus (snapshot "completed"))).
Proof.
  assert (Ht : (now (boot 0) - 0 <= inject_Z 1800)%Q)
    by (unfold Qle; simpl; lia).
  split; [exact Ht|].
  destruct (failed_confirmation_counts_as_completed broken_results
              defaults "t1" 0 1800 0 (mkSession 0 0) (boot 0)
              (mkResponse 200 (snapshot "completed") "")
              Ht eq_refl eq_refl eq_refl eq_refl ltac:(simpl; lia)) as [H _].
  rewrite (H (mkResponse 500 [] "") eq_refl ltac:(simpl; lia)
             ltac:(simpl; intro; lia)).
  reflexivity.
Defined.

(** ** The wait always ends *)

Lemma ends_ret {A} (a : A) : ends (ret a).
Proof. intro w. discriminate. Qed.


Lemma ends_bind {A B} (c : M A) (k : A -> M B) :
  ends c -> (forall a, ends (k a)) -> ends (bind c k).
Proof.
  intros Hc Hk w. unfold bind. specialize (Hc w).
  destruct (c w) as [[a|e|] w1]; simpl in *.
  - apply Hk.
  - discriminate.
  - congruence.
Qed.


Section Ending.

Variable E : env.
Variable P : polling_config.

Lemma ends_time_sleep (secs : Q) : ends (time_sleep E secs).
Proof.
  intro w. unfold time_sleep.
  destruct (refused secs); [discriminate|].
  destruct (sleep_interrupted E (sleep_calls w)); discriminate.
Qed.



Lemma ends_get_task_results (task_id : string) : ends (get_task_results E task_id).
Proof.
  intro w. rewrite get_task_results_answer.
  destruct (results_endpoint E (results_calls w)) as [r|e]; [|discriminate].
  destruct (status_code r =? 200); [discriminate|].
  destruct (status_code r =? 404); [discriminate|].
  destruct (status_code r =? 409); discriminate.
Qed.

Lemma ends_countdown (n : nat) : ends (countdown E n).
Proof.
  induction n as [|n IH]; simpl.
  - apply ends_ret.
  - apply ends_bind; [apply ends_time_sleep | intros _; exact IH].
Qed.














End Ending.



(** An unfinished task under no polling limit: the wait ends with
    [TimeoutError] once [max_wait] is over. *)
Example unlimited_wait_times_out :
  fst (wait_for_completion always_running unlimited 40 "t1" 30 120 (boot 0))
    = Exc (TimeoutError 120).
Proof. vm_compute. reflexivity. Qed.



(** ** The results helper, against any service *)

Section AnyResults.

Variable E : env.

Lemma results_retry_loop_step (fuel : nat) (task_id : string)
    (estimate_time max_retries retry_count : Z) (w : world) :
  results_retry_loop E (S fuel) task_id estimate_time max_retries retry_count w =
    if retry_count <=? max_retries then
      match get_task_results E task_id w with
      | (Ok results, w1) => (Ok (Some results), w1)
      | (Exc (ValueError msg), w1) =>
          if contains NOT_READY msg then
            if max_retries <? retry_count + 1 then (Exc (ValueError msg), w1)
            else
              match retry_wait_time estimate_time (retry_count + 1) with
              | inl overflow => (Exc overflow, w1)
              | inr wait_time =>
                  match countdown E (Z.to_nat wait_time) w1 with
                  | (Ok _, w2) =>
                      results_retry_loop E fuel task_id estimate_time
                                         max_retries (retry_count + 1) w2
                  | (Exc x, w2) => (Exc x, w2)
                  | (OutOfFuel, w2) => (OutOfFuel, w2)
                  end
              end
          else (Exc (ValueError msg), w1)
      | (Exc x, w1) => (Exc x, w1)
      | (OutOfFuel, w1) => (OutOfFuel, w1)
      end
    else (Ok None, w).
Proof.
  cbn [results_retry_loop].
  destruct (retry_count <=? max_retries); [|reflexivity].
  unfold bind at 1, attempt.
  destruct (get_task_results E task_id w) as [[d|x|] w1]; try reflexivity.
  destruct x; try reflexivity.
  destruct (contains NOT_READY msg); [|reflexivity].
  destruct (max_retries <? retry_count + 1); [reflexivity|].
  destruct (retry_wait_time estimate_time (retry_count + 1)); reflexivity.
Qed.

Lemma calls_get_task_results (task_id : string) (w : world) :
  results_calls (snd (get_task_results E task_id w)) = S (results_calls w) /\
  status_calls (snd (get_task_results E task_id w)) = status_calls w /\
  sleep_calls (snd (get_task_results E task_id w)) = sleep_calls w.
Proof.
  rewrite get_task_results_answer.
  destruct (results_endpoint E (results_calls w)); repeat split.
Qed.

Lemma calls_countdown (n : nat) (w : world) :
  results_calls (snd (countdown E n w)) = results_calls w.
Proof.
  apply (countdown_frame E (fun a b => results_calls b = results_calls a)).
  - reflexivity.
  - intros a b c H1 H2. congruence.
  - intros secs v _. split; reflexivity.
Qed.

Lemma results_retry_loop_calls (fuel : nat) (task_id : string)
    (estimate_time max_retries retry_count : Z) (w : world) :
  (results_calls (snd (results_retry_loop E fuel task_id estimate_time
                                          max_retries retry_count w))
     <= results_calls w + Z.to_nat (max_retries + 1 - retry_count))%nat.
Proof.
  revert retry_count w.
  induction fuel as [|fuel IH]; intros k w; [simpl; lia|].
  rewrite results_retry_loop_step.
  destruct (Z.leb_spec k max_retries); [|simpl; lia].
  destruct (calls_get_task_results task_id w) as [Hc _].
  destruct (get_task_results E task_id w) as [[d|x|] w1]; simpl in Hc;
    try (simpl; lia).
  destruct x; try (simpl; lia).
  destruct (contains NOT_READY msg); [|simpl; lia].
  destruct (Z.ltb_spec max_retries (k + 1)); [simpl; lia|].
  destruct (retry_wait_time estimate_time (k + 1)) as [x|wait_time];
    [simpl; lia|].
  pose proof (calls_countdown (Z.to_nat wait_time) w1) as Hcd.
  destruct (countdown E (Z.to_nat wait_time) w1)
    as [[[]|x|] w2]; simpl in Hcd; try (simpl; lia).
  specialize (IH (k + 1) w2). lia.
Qed.

Lemma results_retry_loop_ends (fuel : nat) (task_id : string)
    (estimate_time max_retries retry_count : Z) (w : world) :
  (Z.to_nat (max_retries + 1 - retry_count) < fuel)%nat ->
  fst (results_retry_loop E fuel task_id estimate_time max_retries retry_count w)
    <> OutOfFuel.
Proof.
  revert retry_count w.
  induction fuel as [|fuel IH]; intros k w Hf; [lia|].
  rewrite results_retry_loop_step.
  destruct (Z.leb_spec k max_retries); [|discriminate].
  pose proof (ends_get_task_results E task_id w) as Hg.
  destruct (get_task_results E task_id w) as [[d|x|] w1]; simpl in Hg;
    try discriminate; [|congruence].
  destruct x; try discriminate.
  destruct (contains NOT_READY msg); [|discriminate].
  destruct (Z.ltb_spec max_retries (k + 1)); [discriminate|].
  destruct (retry_wait_time estimate_time (k + 1)) as [x|wait_time];
    [discriminate|].
  pose proof (ends_countdown E (Z.to_nat wait_time) w1) as Hcd.
  destruct (countdown E (Z.to_nat wait_time) w1)
    as [[[]|x|] w2]; simpl in Hcd; try discriminate; [|congruence].
  apply IH. lia.
Qed.

End AnyResults.

Lemma get_task_results_with_retry_ends (E : env) (task_id : string)
    (estimate_time max_retries : Z) (w : world) :
  fst (get_task_results_with_retry E task_id estimate_time max_retries w)
    <> OutOfFuel.
Proof.
  unfold get_task_results_with_retry. apply results_retry_loop_ends. lia.
Qed.

(** X9.  The results helper is bounded: against any service and under any
    Ctrl-C it returns or raises (the model's fuel is never used up), and
    it asks for the results at most [max_retries + 1] times.  With a
    negative [max_retries] it asks nothing and returns [None]. *)
Theorem results_helper_is_bounded (E : env) (task_id : string)
    (estimate_time max_retries : Z) (w : world) :
  fst (get_task_results_with_retry E task_id estimate_time max_retries w)
    <> OutOfFuel /\
  (results_calls (snd (get_task_results_with_retry E task_id estimate_time
                                                   max_retries w))
     <= results_calls w + Z.to_nat (max_retries + 1))%nat /\
  (max_retries < 0 ->
   get_task_results_with_retry E task_id estimate_time max_retries w
     = (Ok None, w)).
Proof.
  unfold get_task_results_with_retry. split; [|split].
  - apply results_retry_loop_ends. lia.
  - pose proof (results_retry_loop_calls E (S (Z.to_nat (max_retries + 1)))
                  task_id estimate_time max_retries 0 w) as H.
    rewrite Z.sub_0_r in H. exact H.
  - intro Hneg. rewrite results_retry_loop_step.
    destruct (Z.leb_spec 0 max_retries); [lia | reflexivity].
Qed.

(** X10.  Only "not ready" is retried.  On any turn of the helper, an
    answer with code 200 is returned at once; a 404 (for a task identifier
    that does not itself contain the words of the not-ready message),
    every other code but 409, and every exception of the request that is
    not a [ValueError] leave the helper at once as the exception raised:
    one call, no wait. *)
Theorem only_not_ready_is_retried (E : env) (fuel : nat) (task_id : string)
    (estimate_time max_retries retry_count : Z) (w : world) :
  retry_count <= max_retries ->
  (forall r : response dict,
     results_endpoint E (results_calls w) = Responds r ->
     (status_code r = 200 ->
      results_retry_loop E (S fuel) task_id estimate_time max_retries
                         retry_count w
        = (Ok (Some (body r)), note_results (Some 200) w)) /\
     (status_code r = 404 ->
      contains NOT_READY task_id = false ->
      results_retry_loop E (S fuel) task_id estimate_time max_retries
                         retry_count w
        = (Exc (results_missing task_id), note_results (Some 404) w)) /\
     (status_code r <> 200 -> status_code r <> 404 -> status_code r <> 409 ->
      results_retry_loop E (S fuel) task_id estimate_time max_retries
                         retry_count w
        = (Exc (HTTPError ("获取结果失败: " ++ error_message r)),
           note_results (Some (status_code r)) w))) /\
  (forall e : exn,
     results_endpoint E (results_calls w) = Throws e ->
     (forall msg, e <> ValueError msg) ->
     results_retry_loop E (S fuel) task_id estimate_time max_retries
                        retry_count w
       = (Exc e, note_results None w)).
Proof.
  intro Hk. apply Z.leb_le in Hk. split.
  - intros r Hr. repeat split.
    + intro Hc. rewrite results_retry_loop_step, Hk, get_task_results_answer, Hr, Hc.
      reflexivity.
    + intros Hc Hid.
      rewrite results_retry_loop_step, Hk, get_task_results_answer, Hr, Hc.
      cbn [Z.eqb Pos.eqb]. unfold results_missing.
      rewrite results_missing_not_ready, Hid. reflexivity.
    + intros H2 H4 H9.
      rewrite results_retry_loop_step, Hk, get_task_results_answer, Hr.
      destruct (Z.eqb_spec (status_code r) 200); [contradiction|].
      destruct (Z.eqb_spec (status_code r) 404); [contradiction|].
      destruct (Z.eqb_spec (status_code r) 409); [contradiction|].
      reflexivity.
  - intros e Hr Hnv.
    rewrite results_retry_loop_step, Hk, get_task_results_answer, Hr.
    destruct e; try reflexivity.
    exfalso. apply (Hnv msg). reflexivity.
Qed.

Lemma only_not_ready_is_retried_witness :
  0 <= 3 /\
  get_task_results_with_retry broken_results "t1" 20 3 (boot 0)
    = (Exc (HTTPError "获取结果失败: "), note_results (Some 500) (boot 0)).
Proof.
  split; [lia|].
  destruct (only_not_ready_is_retried broken_results 4 "t1" 20 3 0 (boot 0)
              ltac:(lia)) as [H _].
  destruct (H (mkResponse 500 [] "") eq_refl) as [_ [_ H5]].
  unfold get_task_results_with_retry.
  change (S (Z.to_nat (3 + 1))) with 5%nat.
  rewrite H5; [reflexivity | | |]; simpl; lia.
Defined.

Lemma results_helper_is_bounded_witness :
  -1 < 0 /\
  get_task_results_with_retry always_not_ready "t1" 20 (-1) (boot 0)
    = (Ok None, boot 0).
Proof.
  split; [lia|].
  destruct (results_helper_is_bounded always_not_ready "t1" 20 (-1) (boot 0))
    as [_ [_ H]].
  apply H. lia.
Defined.

(** X11.  Results that are not ready at the first call and ready at the
    second: the helper waits [max(5, e // 2)] seconds in one-second sleeps
    between the two calls and returns what the second call brought. *)
Theorem results_arrive_on_retry (E : env) (task_id : string)
    (estimate_time max_retries : Z) (w : world) (r1 r2 : response dict) :
  1 <= max_retries ->
  results_endpoint E (results_calls w) = Responds r1 ->
  status_code r1 = 409 ->
  results_endpoint E (S (results_calls w)) = Responds r2 ->
  status_code r2 = 200 ->
  (forall n, sleep_interrupted E n = false) ->
  exists w1,
    get_task_results_with_retry E task_id estimate_time max_retries w =
      (Ok (Some (body r2)), note_results (Some 200) w1) /\
    (now w1 == now w + inject_Z (Z.max 5 (estimate_time / 2)))%Q /\
    results_calls w1 = S (results_calls w) /\
    sleep_calls w1 = (sleep_calls w + Z.to_nat (Z.max 5 (estimate_time / 2)))%nat.
Proof.
  intros Hm Hr1 Hc1 Hr2 Hc2 Hsl.
  unfold get_task_results_with_retry.
  destruct (Z.to_nat (max_retries + 1)) as [|f] eqn:Hf; [lia|].
  rewrite results_retry_loop_step.
  assert (H0 : (0 <=? max_retries) = true) by (apply Z.leb_le; lia).
  rewrite H0, get_task_results_answer, Hr1, Hc1. cbn [Z.eqb Pos.eqb].
  unfold task_not_ready. rewrite not_ready_recognised.
  assert (H1 : (max_retries <? 0 + 1) = false) by (apply Z.ltb_ge; lia).
  rewrite H1.
  change (retry_wait_time estimate_time (0 + 1))
    with (@inr exn Z (Z.max 5 (estimate_time / 2))).
  cbv iota.
  destruct (countdown_runs E Hsl (Z.to_nat (Z.max 5 (estimate_time / 2)))
              (note_results (Some 409) w)) as [w1 [Hcd [Hn [_ [Hrc Hsc]]]]].
  rewrite Hcd. exists w1.
  rewrite results_retry_loop_step.
  assert (H2 : (0 + 1 <=? max_retries) = true) by (apply Z.leb_le; lia).
  rewrite H2, get_task_results_answer.
  cbn [results_calls note_results] in Hrc. rewrite Hrc, Hr2, Hc2.
  cbn [Z.eqb Pos.eqb].
  rewrite Z2Nat.id in Hn by lia.
  cbn [now sleep_calls note_results] in Hn, Hsc.
  repeat split; assumption.
Qed.

Lemma results_arrive_on_retry_witness :
  1 <= 3 /\
  (forall n, sleep_interrupted ready_on_retry n = false) /\
  fst (get_task_results_with_retry ready_on_retry "t1" 20 3 (boot 0))
    = Ok (Some [("groups"%string, JNum 7)]).
Proof.
  split; [lia|]. split; [intro n; reflexivity|].
  destruct (results_arrive_on_retry ready_on_retry "t1" 20 3 (boot 0)
              (mkResponse 409 [] "")
              (mkResponse 200 [("groups"%string, JNum 7)] "")
              ltac:(lia) eq_refl eq_refl eq_refl eq_refl (fun n => eq_refl))
    as [w1 [H _]].
  rewrite H. reflexivity.
Defined.

(** ** [process_file] around the wait *)

Lemma is_completed_marked (r : retval) :
  is_completed r = true -> status_of (mark_completed r) = Some "completed"%string.
Proof.
  destruct r as [d|i|t|t]; simpl.
  - intros _. rewrite dict_get_set_same. reflexivity.
  - reflexivity.
  - unfold is_completed. simpl. discriminate.
  - reflexivity.
Qed.

(** X12.  What [process_file] does with the outcome of the wait.  An
    outcome that is not "completed" (failed, polling limit, ...), and a
    "completed" one whose result was already shown, are handed on as they
    are, with no further call.  An exception of the wait other than
    Ctrl-C (the timeout, a failed status fetch) is not caught: it leaves
    [process_file] as it is. *)
Theorem wait_outcome_is_handed_on (E : env) (P : polling_config) (fuel : nat)
    (task_id : string) (estimate_time : Z) (w w1 : world) :
  (forall r,
     wait_for_completion E P fuel task_id estimate_time 1800 w = (Ok r, w1) ->
     is_completed r = false \/ already_displayed r = true ->
     await_task E P fuel task_id estimate_time w = (Ok r, w1)) /\
  (forall e,
     wait_for_completion E P fuel task_id estimate_time 1800 w = (Exc e, w1) ->
     is_Exception e = true ->
     await_task E P fuel task_id estimate_time w = (Exc e, w1)).
Proof.
  split.
  - intros r Hw Hr. unfold await_task, bind at 1, attempt, bind at 1.
    rewrite Hw.
    destruct (is_completed r) eqn:Hc.
    + destruct Hr as [Hr|Hr]; [discriminate|]. rewrite Hr. reflexivity.
    + reflexivity.
  - intros e Hw He. unfold await_task, bind at 1, attempt, bind at 1.
    rewrite Hw. destruct e; try reflexivity. discriminate He.
Qed.

Lemma wait_outcome_is_handed_on_witness :
  await_task failing_task defaults 5 "t1" 0 (boot 0)
    = (Ok (RetStatus failed_snapshot), note_status (Some 200) (boot 0)).
Proof.
  destruct (wait_outcome_is_handed_on failing_task defaults 5 "t1" 0 (boot 0)
              (note_status (Some 200) (boot 0))) as [H _].
  apply H; [reflexivity | left; reflexivity].
Defined.

(** X13.  Once the wait has returned "completed" without a shown result,
    nothing that happens while the results are fetched makes
    [process_file] fail: whether the results come, come empty, stay "not
    ready" through all retries or the fetch breaks, the outcome is a
    return with status "completed"; only Ctrl-C changes it, into the
    interruption notice. *)
Theorem completed_survives_results_failure (E : env) (P : polling_config)
    (fuel : nat) (task_id : string) (estimate_time : Z) (w w1 : world)
    (r : retval) :
  wait_for_completion E P fuel task_id estimate_time 1800 w = (Ok r, w1) ->
  is_completed r = true ->
  already_displayed r = false ->
  exists x w2,
    await_task E P fuel task_id estimate_time w = (Ok x, w2) /\
    (status_of x = Some "completed"%string \/ x = RetInterrupted task_id).
Proof.
  intros Hw Hc Hd.
  pose proof (get_task_results_with_retry_ends E task_id estimate_time 3 w1)
    as Hends.
  unfold await_task, bind, attempt, _display_results, ret, raise.
  rewrite Hw, Hc, Hd.
  destruct (get_task_results_with_retry E task_id estimate_time 3 w1)
    as [[[d|]|e|] w2]; simpl in Hends.
  - destruct (nonempty d).
    + destruct (display_raises E d) as [e|].
      * destruct e; eexists; eexists; (split; [reflexivity|]);
          try (left; apply is_completed_marked; exact Hc).
        right. reflexivity.
      * eexists; eexists. split; [reflexivity|]. left.
        simpl. rewrite dict_get_set_same. reflexivity.
    + eexists; eexists. split; [reflexivity|]. left.
      apply is_completed_marked. exact Hc.
  - eexists; eexists. split; [reflexivity|]. left.
    apply is_completed_marked. exact Hc.
  - destruct e; eexists; eexists; (split; [reflexivity|]);
      try (left; apply is_completed_marked; exact Hc).
    right. reflexivity.
  - congruence.
Qed.

Lemma completed_survives_results_failure_witness :
  is_completed (RetStatus (snapshot "completed")) = true /\
  already_displayed (RetStatus (snapshot "completed")) = false /\
  fst (await_task broken_results defaults 5 "t1" 0 (boot 0))
    = Ok (RetStatus (snapshot "completed")).
Proof.
  split; [reflexivity|]. split; [reflexivity|].
  destruct (completed_survives_results_failure broken_results defaults 5 "t1" 0
              (boot 0)
              (note_results (Some 500) (note_status (Some 200) (boot 0)))
              (RetStatus (snapshot "completed")) eq_refl eq_refl eq_refl)
    as [x [w2 [H _]]].
  vm_compute in H. injection H as Hx _. subst x. reflexivity.
Defined.

(** X14.  A task the service reports as a duplicate is first looked up at
    the results endpoint.  When that answers 200 with a non-empty result,
    [process_file] shows it and, if [_display_results] raises nothing,
    returns it with ['status'] set to "completed", after this one call:
    no status poll, no sleep, whether or not waiting was asked for.  When
    the endpoint answers anything else that is not Ctrl-C (an exception,
    or an empty result), or when showing the result raises an exception
    of class [Exception], [process_file] goes on as for a new task: it
    returns the creation record if no waiting was asked for, and waits
    otherwise.  Ctrl-C while the result is shown is not caught here. *)
Theorem duplicate_is_looked_up_first (E : env) (P : polling_config)
    (fuel : nat) (created : task_info) (flag : bool) (w : world) :
  task_status created = Some "duplicated"%string ->
  (forall r : response dict,
     results_endpoint E (results_calls w) = Responds r ->
     status_code r = 200 ->
     body r <> [] ->
     let w1 := note_results (Some 200) w in
     process_file E P fuel created flag w =
       match display_raises E (body r) with
       | None =>
           (Ok (RetResult (dict_set "status" (JStr "completed") (body r))), w1)
       | Some e =>
           if negb (is_Exception e) then (Exc e, w1)
           else if flag
           then await_task E P fuel (task_id_of created)
                           (get (task_estimate_time created) 0) w1
           else (Ok (RetTask created), w1)
       end) /\
  (forall (x : res dict) (w1 : world),
     get_task_results E (task_id_of created) w = (x, w1) ->
     (x = Ok [] \/ exists e, x = Exc e /\ is_Exception e = true) ->
     process_file E P fuel created flag w =
       if flag
       then await_task E P fuel (task_id_of created)
                       (get (task_estimate_time created) 0) w1
       else (Ok (RetTask created), w1)).
Proof.
  intro Hdup. split.
  - intros r Hr Hc Hne w1.
    unfold process_file. rewrite Hdup. cbn [get String.eqb Ascii.eqb Bool.eqb].
    unfold bind at 1, bind at 1, attempt, bind at 1.
    rewrite get_task_results_answer, Hr, Hc. cbn [Z.eqb Pos.eqb].
    fold w1.
    assert (Hn : nonempty (body r) = true)
      by (destruct (body r); [congruence | reflexivity]).
    rewrite Hn. unfold bind, _display_results.
    destruct (display_raises E (body r)) as [e|]; [|reflexivity].
    unfold raise. destruct (is_Exception e) eqn:He.
    + simpl. destruct flag; reflexivity.
    + reflexivity.
  - intros x w1 Hg Hx.
    unfold process_file. rewrite Hdup. cbn [get String.eqb Ascii.eqb Bool.eqb].
    unfold bind at 1, bind at 1, attempt, bind at 1. rewrite Hg.
    destruct Hx as [Hx|[e [Hx He]]]; subst x.
    + simpl. destruct flag; reflexivity.
    + rewrite He. simpl. destruct flag; reflexivity.
Qed.

Lemma duplicate_is_looked_up_first_witness :
  task_status duplicate_task = Some "duplicated"%string /\
  run (process_file kept_results defaults 5 duplicate_task true) (boot 0)
    = (Ok (RetResult [("groups"%string, JNum 7);
                      ("status"%string, JStr "completed")]),
       [GetResults 0 (Some 200)], 0%Q).
Proof.
  split; [reflexivity|].
  destruct (duplicate_is_looked_up_first kept_results defaults 5 duplicate_task
              true (boot 0) eq_refl) as [H _].
  unfold run.
  rewrite (H (mkResponse 200 [("groups"%string, JNum 7)] "") eq_refl eq_refl
             ltac:(discriminate)).
  reflexivity.
Defined.

(** A task that is not a duplicate, with waiting switched off:
    [process_file] returns the creation record and calls nothing. *)
Lemma no_wait_calls_nothing (E : env) (P : polling_config) (fuel : nat)
    (created : task_info) (w : world) :
  get (task_status created) "processing"%string <> "duplicated"%string ->
  process_file E P fuel created false w = (Ok (RetTask created), w).
Proof.
  intro Hnd. unfold process_file.
  destruct (String.eqb_spec (get (task_status created) "processing"%string)
              "duplicated") as [Heq|_]; [contradiction|].
  reflexivity.
Qed.

Lemma no_wait_calls_nothing_witness :
  get (task_status fresh_task) "processing"%string <> "duplicated"%string /\
  process_file always_running defaults 5 fresh_task false (boot 0)
    = (Ok (RetTask fresh_task), boot 0).
Proof.
  assert (H : get (task_status fresh_task) "processing"%string
              <> "duplicated"%string) by discriminate.
  split; [exact H|].
  apply no_wait_calls_nothing. exact H.
Defined.

(** ** Creating the task *)

(** X15.  [create_task] looks at the file before it sends anything.  A
    missing file raises [FileNotFoundError], also when its type would not
    fit.  A file that is there is read next: what [open] or [read] raises
    (the path is a directory, the file may not be read) leaves
    [create_task] as it is, before the type is looked at.  Of a file that
    was read, "group-only" takes only [.json], "scrap-and-group" only
    [.csv] and [.txt]; anything else raises [ValueError].  In all these
    cases the service is not asked: the outcome is the same whatever the
    service would answer.  A function name other than these two is not
    checked against the file type: the request goes out. *)
Theorem create_task_checks_the_file_first
    (function file_path task_name : string) (params : dict) (f : upload) :
  (file_exists f = false ->
   forall post,
     create_task post function file_path task_name params f =
       inl (FileNotFoundError ("文件不存在: " ++ file_path))) /\
  (file_exists f = true ->
   forall e,
     read_error f = Some e ->
     forall post,
       create_task post function file_path task_name params f = inl e) /\
  (file_exists f = true ->
   read_error f = None ->
   function = "group-only"%string ->
   file_ext f <> ".json"%string ->
   forall post,
     create_task post function file_path task_name params f =
       inl (Raised (ValueError
                      ("group-only功能需要JSON文件，当前文件类型: " ++ file_ext f)))) /\
  (file_exists f = true ->
   read_error f = None ->
   function = "scrap-and-group"%string ->
   file_ext f <> ".csv"%string -> file_ext f <> ".txt"%string ->
   forall post,
     create_task post function file_path task_name params f =
       inl (Raised (ValueError
                      ("scrap-and-group功能需要CSV或TXT文件，当前文件类型: "
                       ++ file_ext f)))) /\
  (file_exists f = true ->
   read_error f = None ->
   function <> "group-only"%string -> function <> "scrap-and-group"%string ->
   forall post e,
     post (request_payload function task_name f params) = Throws e ->
     create_task post function file_path task_name params f = inl (Raised e)).
Proof.
  unfold create_task. repeat split.
  - intros He post. rewrite He. reflexivity.
  - intros He e Hr post. rewrite He, Hr. reflexivity.
  - intros He Hr Hf Hx post. rewrite He, Hr. subst function. simpl.
    destruct (String.eqb_spec (file_ext f) ".json"); [contradiction|].
    reflexivity.
  - intros He Hr Hf Hc Ht post. rewrite He, Hr. subst function. simpl.
    destruct (String.eqb_spec (file_ext f) ".csv"); [contradiction|].
    destruct (String.eqb_spec (file_ext f) ".txt"); [contradiction|].
    reflexivity.
  - intros He Hr H1 H2 post e Hp. rewrite He, Hr. simpl.
    destruct (String.eqb_spec function "group-only"); [contradiction|].
    destruct (String.eqb_spec function "scrap-and-group"); [contradiction|].
    simpl. rewrite Hp. reflexivity.
Qed.

Lemma create_task_checks_the_file_first_witness :
  file_exists keywords_csv = true /\
  read_error keywords_csv = None /\
  file_ext keywords_csv <> ".json"%string /\
  create_task known_task "group-only" "data/keywords.csv" "my_task" []
              keywords_csv
    = inl (Raised (ValueError "group-only功能需要JSON文件，当前文件类型: .csv")) /\
  file_exists csv_directory = true /\
  read_error csv_directory = Some is_a_directory /\
  create_task known_task "group-only" "data/keywords.csv" "my_task" []
              csv_directory
    = inl is_a_directory.
Proof.
  assert (Hx : file_ext keywords_csv <> ".json"%string) by discriminate.
  split; [reflexivity|]. split; [reflexivity|]. split; [exact Hx|].
  destruct (create_task_checks_the_file_first "group-only" "data/keywords.csv"
              "my_task" [] keywords_csv) as [_ [_ [H _]]].
  destruct (create_task_checks_the_file_first "group-only" "data/keywords.csv"
              "my_task" [] csv_directory) as [_ [Hdir _]].
  split; [apply (H eq_refl eq_refl eq_refl Hx known_task)|].
  split; [reflexivity|]. split; [reflexivity|].
  apply (Hdir eq_refl is_a_directory eq_refl known_task).
Defined.

(** X16.  Once the file has passed (it is there, it was read, its type
    fits), the answer of the service decides.
    Code 409, or a code 200, 201 or 202 whose body says "duplicated", gives
    a record with status "duplicated", the task id of the service and an
    estimate of 0 whatever the service estimated; the task name and the
    message fall back to the requested name and to "Task already exists".
    Any other body under 200, 201 or 202 is returned as it is.  Any other
    code raises [HTTPError] with the message of the service. *)
Theorem create_task_reads_the_answer (post : dict -> answer creation)
    (function file_path task_name : string) (params : dict) (f : upload)
    (response : response creation) :
  file_exists f = true ->
  read_error f = None ->
  (function = "group-only"%string -> file_ext f = ".json"%string) ->
  (function = "scrap-and-group"%string ->
   file_ext f = ".csv"%string \/ file_ext f = ".txt"%string) ->
  post (request_payload function task_name f params) = Responds response ->
  let code := status_code response in
  let result := body response in
  (code = 409 \/
   ((code = 200 \/ code = 201 \/ code = 202) /\
    c_status result = Some "duplicated"%string) ->
   create_task post function file_path task_name params f =
     inr (mkCreation (c_task_id result) (Some "duplicated"%string)
                     (Some (get (c_task_name result) task_name))
                     (Some (get (c_message result) "Task already exists"%string))
                     (Some 0))) /\
  ((code = 200 \/ code = 201 \/ code = 202) ->
   c_status result <> Some "duplicated"%string ->
   create_task post function file_path task_name params f = inr result) /\
  (code <> 200 -> code <> 201 -> code <> 202 -> code <> 409 ->
   create_task post function file_path task_name params f =
     inl (Raised (HTTPError ("API Error: " ++ error_message response)))).
Proof.
  intros He Hread Hg Hs Hp code result.
  assert (Hpass : create_task post function file_path task_name params f =
            if (code =? 200) || (code =? 201) || (code =? 202) || (code =? 409)
            then
              if (code =? 409)
                 || String.eqb (get (c_status result) "unknown"%string)
                               "duplicated"
              then inr (mkCreation (c_task_id result) (Some "duplicated"%string)
                          (Some (get (c_task_name result) task_name))
                          (Some (get (c_message result)
                                     "Task already exists"%string))
                          (Some 0))
              else inr result
            else inl (Raised (HTTPError ("API Error: " ++ error_message response)))).
  { unfold create_task. rewrite He, Hread. cbn [negb].
    destruct (String.eqb_spec function "group-only") as [Hf|Hf].
    - rewrite (Hg Hf). subst function. simpl. rewrite Hp. reflexivity.
    - cbn [andb].
      destruct (String.eqb_spec function "scrap-and-group") as [Hf2|Hf2].
      + destruct (Hs Hf2) as [Hx|Hx]; rewrite Hx; simpl; rewrite Hp; reflexivity.
      + cbn [andb]. rewrite Hp. reflexivity. }
  rewrite Hpass. clear Hpass. repeat split.
  - intros [H9|[Hc Hd]].
    + rewrite H9. reflexivity.
    + rewrite Hd. cbn [get String.eqb Ascii.eqb Bool.eqb].
      rewrite orb_true_r.
      destruct Hc as [Hc|[Hc|Hc]]; rewrite Hc; reflexivity.
  - intros Hc Hnd.
    assert (Hst : String.eqb (get (c_status result) "unknown"%string)
                             "duplicated" = false).
    { destruct (c_status result) as [st|] eqn:Hcs; cbn [get].
      - destruct (String.eqb_spec st "duplicated"); [congruence | reflexivity].
      - reflexivity. }
    rewrite Hst. destruct Hc as [Hc|[Hc|Hc]]; rewrite Hc; reflexivity.
  - intros H0 H1 H2 H9.
    destruct (Z.eqb_spec code 200); [contradiction|].
    destruct (Z.eqb_spec code 201); [contradiction|].
    destruct (Z.eqb_spec code 202); [contradiction|].
    destruct (Z.eqb_spec code 409); [contradiction|].
    reflexivity.
Qed.

Lemma create_task_reads_the_answer_witness :
  file_exists keywords_json = true /\
  read_error keywords_json = None /\
  create_task known_task "group-only" "keywords.json" "my_task" [] keywords_json
    = inr (mkCreation (Some "t1"%string) (Some "duplicated"%string)
                      (Some "my_task"%string)
                      (Some "Task already exists"%string) (Some 0)).
Proof.
  split; [reflexivity|]. split; [reflexivity|].
  destruct (create_task_reads_the_answer known_task "group-only" "keywords.json"
              "my_task" [] keywords_json
              (mkResponse 409
                 (mkCreation (Some "t1"%string) None None None (Some 45)) "")
              eq_refl eq_refl (fun _ => eq_refl)
              (fun H => ltac:(discriminate H)) eq_refl) as [H _].
  apply H. left. reflexivity.
Defined.

(** ** Merging the defaults into the settings *)

(** [d'] has every entry of [d]. *)
Lemma has_key_get (k : string) (d : dict) :
  has_key k d = true <-> exists v, dict_get k d = Some v.
Proof.
  unfold has_key. destruct (dict_get k d) as [v|]; split.
  - intros _. exists v. reflexivity.
  - reflexivity.
  - discriminate.
  - intros [v H]. discriminate H.
Qed.

Lemma fill_entry_dict (d : dict) (sub_key : string) (sub_value : json) :
  exists d',
    fill_entry (JDict d) sub_key sub_value = Some (JDict d') /\
    has_key sub_key d' = true /\
    (forall k v, dict_get k d = Some v -> dict_get k d' = Some v).
Proof.
  unfold fill_entry. destruct (has_key sub_key d) eqn:Hk.
  - exists d. repeat split; auto.
  - exists (dict_set sub_key sub_value d). repeat split.
    + unfold has_key. rewrite dict_get_set_same. reflexivity.
    + intros k v Hg. destruct (String.eqb_spec sub_key k) as [->|Hne].
      * unfold has_key in Hk. rewrite Hg in Hk. discriminate.
      * rewrite dict_get_set_other by exact Hne. exact Hg.
Qed.

Lemma fill_section_dict (sub d : dict) :
  exists d',
    fill_section sub (JDict d) = Some (JDict d') /\
    (forall k, has_key k sub = true -> has_key k d' = true) /\
    (forall k v, dict_get k d = Some v -> dict_get k d' = Some v).
Proof.
  revert d. induction sub as [|[sk sv] sub IH]; intro d.
  - exists d. repeat split; auto. intros k H. discriminate H.
  - destruct (fill_entry_dict d sk sv) as [d1 [Hf [Hk Hkeep]]].
    destruct (IH d1) as [d' [Hs [Hcov Hkeep']]].
    exists d'. cbn [fill_section]. rewrite Hf. repeat split.
    + exact Hs.
    + intros k Hin. unfold has_key in Hin. cbn [dict_get] in Hin.
      destruct (String.eqb_spec k sk) as [Heq|Hne].
      * subst k. apply has_key_get in Hk. destruct Hk as [v Hv].
        apply has_key_get. exists v. apply Hkeep'. exact Hv.
      * apply Hcov. exact Hin.
    + intros k v Hg. apply Hkeep', Hkeep. exact Hg.
Qed.

Lemma fill_section_other (sub : dict) (section section' : json) :
  (forall d, section <> JDict d) ->
  fill_section sub section = Some section' ->
  section' = section.
Proof.
  intro Hnd. revert section'. induction sub as [|[sk sv] sub IH]; intro s'.
  - simpl. congruence.
  - cbn [fill_section].
    destruct section as [| b | n | s | l | d]; simpl; try discriminate.
    + destruct (contains sk s); [|discriminate]. apply IH.
    + destruct (existsb (is_str sk) l); [|discriminate]. apply IH.
    + exfalso. apply (Hnd d). reflexivity.
Qed.

(** What one default entry does to the settings. *)
Lemma merge_entry_elsewhere (settings settings' : dict) (key : string)
    (value : json) (k : string) :
  merge_entry settings key value = Some settings' ->
  k <> key ->
  dict_get k settings' = dict_get k settings.
Proof.
  unfold merge_entry. intros H Hne.
  destruct (dict_get key settings) as [section|].
  - destruct value; try (inversion H; subst; reflexivity).
    destruct (fill_section d section); [|discriminate].
    inversion H; subst. apply dict_get_set_other. congruence.
  - inversion H; subst. apply dict_get_set_other. congruence.
Qed.

Lemma merge_entry_here (settings settings' : dict) (key : string)
    (value : json) :
  merge_entry settings key value = Some settings' ->
  match dict_get key settings with
  | None => dict_get key settings' = Some value
  | Some (JDict d) =>
      exists d',
        dict_get key settings' = Some (JDict d') /\
        (forall k v, dict_get k d = Some v -> dict_get k d' = Some v) /\
        (forall sub, value = JDict sub ->
                     forall k, has_key k sub = true -> has_key k d' = true)
  | Some section => dict_get key settings' = Some section
  end.
Proof.
  unfold merge_entry.
  destruct (dict_get key settings) as [section|] eqn:Hg.
  - destruct section as [| b | n | s | l | d].
    1-5: destruct value as [| b' | n' | s' | l' | sub];
      try (intro H; inversion H; subst; exact Hg);
      (destruct (fill_section sub _) as [s1|] eqn:Hf; [|discriminate];
       intro H; inversion H; subst;
       apply fill_section_other in Hf; [|intros d0 Hd0; discriminate Hd0];
       subst s1; apply dict_get_set_same).
    destruct value as [| b' | n' | s' | l' | sub].
    1-5: intro H; inversion H; subst; exists d;
      (split; [exact Hg|]); (split; [auto|]); intros sub Hs; discriminate Hs.
    destruct (fill_section_dict sub d) as [d' [Hf [Hcov Hkeep]]].
    rewrite Hf. intro H. inversion H; subst. exists d'.
    split; [apply dict_get_set_same|]. split; [exact Hkeep|].
    intros sub0 Hs. inversion Hs; subst. exact Hcov.
  - intro H. inversion H; subst. apply dict_get_set_same.
Qed.

Lemma merge_entry_keeps_keys (settings settings' : dict) (key : string)
    (value : json) (k : string) :
  merge_entry settings key value = Some settings' ->
  (has_key k settings = true -> has_key k settings' = true) /\
  has_key key settings' = true.
Proof.
  intro H. pose proof (merge_entry_here settings settings' key value H) as Hh.
  assert (Hkey : has_key key settings' = true).
  { apply has_key_get.
    destruct (dict_get key settings) as [[| b | n | s | l | d]|];
      try (eexists; exact Hh).
    destruct Hh as [d' [Hd' _]]. eexists. exact Hd'. }
  split; [|exact Hkey].
  intro Hk. destruct (String.eqb_spec k key) as [->|Hne]; [exact Hkey|].
  unfold has_key.
  rewrite (merge_entry_elsewhere settings settings' key value k H Hne).
  exact Hk.
Qed.

(** A user entry survives one default entry: as it is when it is not a
    dict, with all its own entries when it is. *)
Lemma merge_entry_keeps_values (settings settings' : dict) (key : string)
    (value : json) (k : string) :
  merge_entry settings key value = Some settings' ->
  match dict_get k settings with
  | None => True
  | Some (JDict d) =>
      exists d',
        dict_get k settings' = Some (JDict d') /\
        (forall sk sv, dict_get sk d = Some sv -> dict_get sk d' = Some sv)
  | Some section => dict_get k settings' = Some section
  end.
Proof.
  intro H. destruct (String.eqb_spec k key) as [->|Hne].
  - pose proof (merge_entry_here settings settings' key value H) as Hh.
    destruct (dict_get key settings) as [[| b | n | s | l | d]|]; auto.
    destruct Hh as [d' [Hd' [Hkeep _]]]. exists d'. auto.
  - rewrite (merge_entry_elsewhere settings settings' key value k H Hne).
    destruct (dict_get k settings) as [[| b | n | s | l | d]|]; auto.
    exists d. auto.
Qed.

Lemma merge_defaults_keeps (default_settings settings merged : dict) :
  merge_defaults default_settings settings = Some merged ->
  (forall k v,
     dict_get k settings = Some v -> (forall d, v <> JDict d) ->
     dict_get k merged = Some v) /\
  (forall k d,
     dict_get k settings = Some (JDict d) ->
     exists d',
       dict_get k merged = Some (JDict d') /\
       (forall sk sv, dict_get sk d = Some sv -> dict_get sk d' = Some sv)).
Proof.
  revert settings.
  induction default_settings as [|[key value] rest IH]; intros settings Hm.
  - simpl in Hm. inversion Hm; subst. split.
    + auto.
    + intros k d Hg. exists d. auto.
  - cbn [merge_defaults] in Hm.
    destruct (merge_entry settings key value) as [s1|] eqn:He; [|discriminate].
    destruct (IH s1 Hm) as [IH1 IH2]. split.
    + intros k v Hg Hnd.
      pose proof (merge_entry_keeps_values settings s1 key value k He) as Hk.
      rewrite Hg in Hk. apply IH1; [|exact Hnd].
      destruct v; try exact Hk. exfalso. apply (Hnd d). reflexivity.
    + intros k d Hg.
      pose proof (merge_entry_keeps_values settings s1 key value k He) as Hk.
      rewrite Hg in Hk. destruct Hk as [d1 [Hd1 Hkeep]].
      destruct (IH2 k d1 Hd1) as [d' [Hd' Hkeep']].
      exists d'. split; [exact Hd'|]. auto.
Qed.

(** X17.  Nothing the user wrote is replaced.  When [load_settings]
    returns, an entry of the file that is not a dict is in the result as
    it was, also when the default under that key is a dict; an entry that
    is a dict is still a dict and has every one of its own entries,
    unchanged.  Without a file, with one that is gone when it is opened
    and with one that is not JSON, [load_settings] returns the defaults;
    a file that cannot be opened or decoded makes it raise, as the
    [except] clause names [json.JSONDecodeError] and [FileNotFoundError]
    only. *)
Theorem user_settings_are_kept (default_settings : dict) (file : settings_file)
    (merged : dict) :
  (load_settings default_settings file = Some merged ->
   match file with
   | Content settings =>
       (forall k v,
          dict_get k settings = Some v -> (forall d, v <> JDict d) ->
          dict_get k merged = Some v) /\
       (forall k d,
          dict_get k settings = Some (JDict d) ->
          exists d',
            dict_get k merged = Some (JDict d') /\
            (forall sk sv, dict_get sk d = Some sv -> dict_get sk d' = Some sv))
   | _ => merged = default_settings
   end) /\
  (file = NoFile \/ file = Vanished \/ file = NotJson ->
   load_settings default_settings file = Some default_settings) /\
  (file = Unreadable -> load_settings default_settings file = None).
Proof.
  split; [|split].
  - destruct file as [| | | |settings]; simpl; intro H.
    + congruence.
    + congruence.
    + congruence.
    + discriminate H.
    + apply (merge_defaults_keeps default_settings settings merged H).
  - intros [H|[H|H]]; subst file; reflexivity.
  - intro H. subst file. reflexivity.
Qed.

Lemma user_settings_are_kept_witness :
  load_settings polling_defaults (Content my_settings)
    = Some [("polling"%string,
             JDict [("max_retries"%string, JNum 10);
                    ("respect_estimate_time"%string, JBool true);
                    ("custom_interval_seconds"%string, JNum 5)]);
            ("api_key"%string, JStr "secret")] /\
  dict_get "api_key"
    [("polling"%string,
      JDict [("max_retries"%string, JNum 10);
             ("respect_estimate_time"%string, JBool true);
             ("custom_interval_seconds"%string, JNum 5)]);
     ("api_key"%string, JStr "secret")] = Some (JStr "secret").
Proof.
  assert (Hm : load_settings polling_defaults (Content my_settings)
               = Some [("polling"%string,
                        JDict [("max_retries"%string, JNum 10);
                               ("respect_estimate_time"%string, JBool true);
                               ("custom_interval_seconds"%string, JNum 5)]);
                       ("api_key"%string, JStr "secret")])
    by reflexivity.
  split; [exact Hm|].
  destruct (user_settings_are_kept polling_defaults (Content my_settings)
              [("polling"%string,
                JDict [("max_retries"%string, JNum 10);
                       ("respect_estimate_time"%string, JBool true);
                       ("custom_interval_seconds"%string, JNum 5)]);
               ("api_key"%string, JStr "secret")]) as [Hkeep _].
  destruct (Hkeep Hm) as [H _].
  apply H; [reflexivity | intros d Hd; discriminate Hd].
Defined.

Lemma merge_defaults_complete (default_settings settings merged : dict) :
  merge_defaults default_settings settings = Some merged ->
  (forall k, has_key k default_settings = true -> has_key k merged = true) /\
  (forall k, has_key k settings = true -> has_key k merged = true) /\
  (forall k sub rd,
     In (k, JDict sub) default_settings ->
     dict_get k merged = Some (JDict rd) ->
     forall sk, has_key sk sub = true -> has_key sk rd = true).
Proof.
  revert settings.
  induction default_settings as [|[key value] rest IH]; intros settings Hm.
  - simpl in Hm. inversion Hm; subst. repeat split.
    + intros k H. discriminate H.
    + auto.
    + intros k sub rd [].
  - cbn [merge_defaults] in Hm.
    destruct (merge_entry settings key value) as [s1|] eqn:He; [|discriminate].
    destruct (IH s1 Hm) as [IH1 [IH2 IH3]].
    split; [|split].
    + intros k Hk. unfold has_key in Hk. cbn [dict_get] in Hk.
      destruct (String.eqb_spec k key) as [Heq|Hne].
      * subst k. apply IH2.
        apply (merge_entry_keeps_keys settings s1 key value key He).
      * apply IH1. exact Hk.
    + intros k Hk. apply IH2.
      apply (merge_entry_keeps_keys settings s1 key value k He). exact Hk.
    + intros k sub rd [Hin|Hin] Hg sk Hsk; [|exact (IH3 k sub rd Hin Hg sk Hsk)].
      inversion Hin; subst key value.
      pose proof (merge_entry_here settings s1 k (JDict sub) He) as Hh.
      destruct (merge_defaults_keeps rest s1 merged Hm) as [Hnd Hd].
      specialize (Hnd k). specialize (Hd k).
      destruct (dict_get k settings) as [[| b | n | s | l | d]|].
      1-5: rewrite (Hnd _ Hh) in Hg by (intros d0 Hd0; discriminate Hd0);
        discriminate Hg.
      * destruct Hh as [d1 [Hd1 [_ Hcov]]].
        destruct (Hd d1 Hd1) as [d' [Hd' Hkeep]].
        rewrite Hd' in Hg. inversion Hg; subst rd.
        specialize (Hcov sub eq_refl sk Hsk).
        apply has_key_get in Hcov. destruct Hcov as [v Hv].
        apply has_key_get. exists v. apply Hkeep. exact Hv.
      * destruct (Hd sub Hh) as [d' [Hd' Hkeep]].
        rewrite Hd' in Hg. inversion Hg; subst rd.
        apply has_key_get in Hsk. destruct Hsk as [v Hv].
        apply has_key_get. exists v. apply Hkeep. exact Hv.
Qed.

Lemma dict_get_In (k : string) (v : json) (d : dict) :
  dict_get k d = Some v -> In (k, v) d.
Proof.
  induction d as [|[k' v'] d IH]; simpl; [discriminate|].
  destruct (String.eqb_spec k k') as [Heq|Hne].
  - intro H. inversion H; subst. left. reflexivity.
  - intro H. right. apply IH. exact H.
Qed.

(** X18.  [load_settings] fills in what is missing, two levels deep.
    When it returns, every key of the defaults is a key of the result, and
    so is every key of the file; and under a key whose default is a dict,
    the result, when it is a dict, has every key of that default. *)
Theorem merged_settings_are_complete (default_settings : dict)
    (file : settings_file) (merged : dict) :
  load_settings default_settings file = Some merged ->
  (forall k, has_key k default_settings = true -> has_key k merged = true) /\
  (forall settings k,
     file = Content settings ->
     has_key k settings = true -> has_key k merged = true) /\
  (forall k sub rd,
     dict_get k default_settings = Some (JDict sub) ->
     dict_get k merged = Some (JDict rd) ->
     forall sk, has_key sk sub = true -> has_key sk rd = true).
Proof.
  destruct file as [| | | |settings]; simpl; intro H; try discriminate H.
  - inversion H; subst. repeat split; auto.
    + intros settings k Hf. discriminate Hf.
    + intros k sub rd H1 H2. rewrite H1 in H2. inversion H2; subst. auto.
  - inversion H; subst. repeat split; auto.
    + intros settings k Hf. discriminate Hf.
    + intros k sub rd H1 H2. rewrite H1 in H2. inversion H2; subst. auto.
  - inversion H; subst. repeat split; auto.
    + intros settings k Hf. discriminate Hf.
    + intros k sub rd H1 H2. rewrite H1 in H2. inversion H2; subst. auto.
  - destruct (merge_defaults_complete default_settings settings merged H)
      as [H1 [H2 H3]].
    repeat split.
    + exact H1.
    + intros settings' k Hf. inversion Hf; subst. apply H2.
    + intros k sub rd Hd. apply H3. apply dict_get_In. exact Hd.
Qed.

Lemma merged_settings_are_complete_witness :
  load_settings polling_defaults (Content my_settings)
    = Some [("polling"%string,
             JDict [("max_retries"%string, JNum 10);
                    ("respect_estimate_time"%string, JBool true);
                    ("custom_interval_seconds"%string, JNum 5)]);
            ("api_key"%string, JStr "secret")] /\
  has_key "custom_interval_seconds"
          [("max_retries"%string, JNum 10);
           ("respect_estimate_time"%string, JBool true);
           ("custom_interval_seconds"%string, JNum 5)] = true.
Proof.
  assert (Hm : load_settings polling_defaults (Content my_settings)
               = Some [("polling"%string,
                        JDict [("max_retries"%string, JNum 10);
                               ("respect_estimate_time"%string, JBool true);
                               ("custom_interval_seconds"%string, JNum 5)]);
                       ("api_key"%string, JStr "secret")])
    by reflexivity.
  split; [exact Hm|].
  destruct (merged_settings_are_complete polling_defaults (Content my_settings)
              _ Hm) as [_ [_ H]].
  apply (H "polling"%string
           [("respect_estimate_time"%string, JBool true);
            ("custom_interval_seconds"%string, JNum 5);
            ("max_retries"%string, JNum 3)]); reflexivity.
Defined.

(** X19.  The merge takes the sections of the file for dicts.  A file
    that has a number, a truth value or null under a key for which the
    defaults hold a non-empty dict makes [load_settings] raise (the
    [TypeError] of [in], which its [except] clause does not catch). *)
Theorem scalar_section_breaks_the_load (default_settings settings : dict)
    (key : string) (sub : dict) (v : json) :
  In (key, JDict sub) default_settings ->
  sub <> [] ->
  dict_get key settings = Some v ->
  (v = JNull \/ (exists b, v = JBool b) \/ (exists n, v = JNum n)) ->
  load_settings default_settings (Content settings) = None.
Proof.
  intros Hin Hne Hg Hv. simpl.
  assert (Hnd : forall d, v <> JDict d).
  { intros d Hd. destruct Hv as [H|[[b H]|[n H]]]; congruence. }
  assert (Hfill : fill_section sub v = None).
  { destruct sub as [|[sk sv] sub']; [congruence|].
    cbn [fill_section].
    destruct Hv as [H|[[b H]|[n H]]]; subst v; reflexivity. }
  revert settings Hg.
  induction default_settings as [|[k0 v0] rest IH]; intros settings Hg;
    [destruct Hin|].
  cbn [merge_defaults].
  destruct (merge_entry settings k0 v0) as [s1|] eqn:He; [|reflexivity].
  destruct Hin as [Heq|Hin].
  - inversion Heq; subst k0 v0. exfalso. revert He.
    unfold merge_entry. rewrite Hg, Hfill. discriminate.
  - apply IH; [exact Hin|].
    pose proof (merge_entry_keeps_values settings s1 k0 v0 key He) as Hk.
    rewrite Hg in Hk.
    destruct v; try exact Hk. exfalso. apply (Hnd d). reflexivity.
Qed.

Lemma scalar_section_breaks_the_load_witness :
  In ("polling"%string,
      JDict [("respect_estimate_time"%string, JBool true);
             ("custom_interval_seconds"%string, JNum 5);
             ("max_retries"%string, JNum 3)]) polling_defaults /\
  load_settings polling_defaults (Content [("polling"%string, JNum 5)]) = None.
Proof.
  assert (Hin : In ("polling"%string,
                    JDict [("respect_estimate_time"%string, JBool true);
                           ("custom_interval_seconds"%string, JNum 5);
                           ("max_retries"%string, JNum 3)]) polling_defaults)
    by (right; left; reflexivity).
  split; [exact Hin|].
  apply (scalar_section_breaks_the_load polling_defaults
           [("polling"%string, JNum 5)] "polling" _ (JNum 5) Hin).
  - discriminate.
  - reflexivity.
  - right. right. exists 5. reflexivity.
Defined.

(** ** Showing the results; the constructor *)

(** X20.  [_display_results] starts with [results.get], so it raises on
    everything that is not a dict, a list included; for a dict it picks
    the v2 printer when ['response_version'] is "2.0" or a ['task'] key is
    there, and the unknown-format printer otherwise.  The printer for the
    legacy format, a non-empty list, is never reached. *)
Theorem legacy_results_are_never_shown (results : json) :
  display_results results <> Some RenderLegacy /\
  (forall l, results = JList l -> display_results results = None) /\
  (forall d, results = JDict d ->
     display_results results =
       if is_str "2.0" (get (dict_get "response_version" d) (JStr "1.0"))
          || has_key "task" d
       then Some RenderV2 else Some RenderUnknown).
Proof.
  repeat split.
  - destruct results; simpl; try discriminate.
    destruct (is_str "2.0" (get (dict_get "response_version" d) (JStr "1.0"))
              || has_key "task" d); discriminate.
  - intros l Hl. subst results. reflexivity.
  - intros d Hd. subst results. simpl.
    destruct (is_str "2.0" (get (dict_get "response_version" d) (JStr "1.0"))
              || has_key "task" d); reflexivity.
Qed.

Lemma legacy_results_are_never_shown_witness :
  display_results (JList [JDict [("task name"%string, JStr "my_task")]]) = None.
Proof.
  destruct (legacy_results_are_never_shown
              (JList [JDict [("task name"%string, JStr "my_task")]]))
    as [_ [H _]].
  apply (H [JDict [("task name"%string, JStr "my_task")]]). reflexivity.
Defined.

Lemma init_polling_config_resolved (given : option polling_config) :
  let P := init_polling_config given in
  let Q := match given with Some pc => pc | None => defaults end in
  respect_estimate_time P = respect_estimate_time Q /\
  custom_interval P = custom_interval Q /\
  min_interval P = min_interval Q /\
  max_interval P = max_interval Q /\
  limited_retry_strategy P = limited_retry_strategy Q /\
  max_retries P = max_retries Q /\
  retry_on_error P = retry_on_error Q.
Proof.
  destruct given as [pc|]; [|repeat split].
  unfold init_polling_config.
  destruct pc as [[a|] [b|] [c|] [d|] [e|] [f|] [g|]]; repeat split.
Qed.

Section SamePolicy.

Variable E : env.
Variables P P' : polling_config.

Hypothesis same_respect : respect_estimate_time P = respect_estimate_time P'.
Hypothesis same_custom : custom_interval P = custom_interval P'.
Hypothesis same_min : min_interval P = min_interval P'.
Hypothesis same_max : max_interval P = max_interval P'.
Hypothesis same_limited : limited_retry_strategy P = limited_retry_strategy P'.
Hypothesis same_retries : max_retries P = max_retries P'.
Hypothesis same_on_error : retry_on_error P = retry_on_error P'.

Lemma next_interval_same (estimate_time : Z) (elapsed : Q) (n : Z) :
  next_interval P estimate_time elapsed n = next_interval P' estimate_time elapsed n.
Proof.
  unfold next_interval.
  rewrite same_respect, same_custom, same_min, same_max. reflexivity.
Qed.

Lemma poll_body_same (task_id : string) (estimate_time : Z) (elapsed : Q)
    (s : session) (i : status_info) (w : world) :
  poll_body E P task_id estimate_time elapsed s i w =
    poll_body E P' task_id estimate_time elapsed s i w.
Proof.
  unfold poll_body, interval_overflows.
  rewrite next_interval_same, same_respect, same_limited, same_retries.
  reflexivity.
Qed.

Lemma on_exception_same (task_id : string) (s : session) (e : exn) (w : world) :
  on_exception E P task_id s e w = on_exception E P' task_id s e w.
Proof. unfold on_exception. rewrite same_on_error. reflexivity. Qed.

Lemma poll_iteration_same (task_id : string) (estimate_time max_wait : Z)
    (start_time : Q) (s : session) (w : world) :
  poll_iteration E P task_id estimate_time max_wait start_time s w =
    poll_iteration E P' task_id estimate_time max_wait start_time s w.
Proof.
  unfold poll_iteration, bind, attempt, time_time.
  destruct (Qlt_bool (inject_Z max_wait) (now w - start_time)); [reflexivity|].
  destruct (get_task_status E task_id w) as [[i|e|] w1].
  - rewrite poll_body_same.
    destruct (poll_body E P' task_id estimate_time (now w - start_time)
                {| check_count := check_count s + 1; error_count := 0 |} i w1)
      as [[next|e|] w2]; try reflexivity.
    apply on_exception_same.
  - apply on_exception_same.
  - reflexivity.
Qed.

Lemma poll_loop_same (fuel : nat) (task_id : string)
    (estimate_time max_wait : Z) (start_time : Q) (s : session) (w : world) :
  poll_loop E P fuel task_id estimate_time max_wait start_time s w =
    poll_loop E P' fuel task_id estimate_time max_wait start_time s w.
Proof.
  revert s w. induction fuel as [|fuel IH]; intros s w; [reflexivity|].
  cbn [poll_loop]. unfold bind. rewrite poll_iteration_same.
  destruct (poll_iteration E P' task_id estimate_time max_wait start_time s w)
    as [[[s'|r]|e|] w1]; try reflexivity.
  apply IH.
Qed.

Lemma wait_for_completion_same (fuel : nat) (task_id : string)
    (estimate_time max_wait : Z) (w : world) :
  wait_for_completion E P fuel task_id estimate_time max_wait w =
    wait_for_completion E P' fuel task_id estimate_time max_wait w.
Proof.
  unfold wait_for_completion, bind, time_time. rewrite same_respect.
  destruct ((0 <? estimate_time) && respect_estimate_time P').
  - destruct (estimate_wait E fuel estimate_time (now w) w) as [[[]|e|] w1];
      try reflexivity.
    apply poll_loop_same.
  - unfold ret. apply poll_loop_same.
Qed.

End SamePolicy.

(** X21.  The dict the constructor falls back to names four keys only;
    the waiter reads all seven with the same defaults.  So a client made
    without a polling config, or with one that sets none of the keys,
    waits exactly as one made with the empty config: the estimate is
    respected, polling is limited to 3 polls, and status-fetch errors are
    retried.  A config that sets a key is taken as it is. *)
Theorem constructor_fallback_changes_nothing (E : env)
    (given : option polling_config) (fuel : nat) (task_id : string)
    (estimate_time max_wait : Z) (w : world) :
  wait_for_completion E (init_polling_config given) fuel task_id estimate_time
                      max_wait w =
    wait_for_completion E (match given with Some pc => pc | None => defaults end)
                        fuel task_id estimate_time max_wait w /\
  respect_estimate_time (init_polling_config None) = true /\
  limited_retry_strategy (init_polling_config None) = true /\
  max_retries (init_polling_config None) = 3 /\
  retry_on_error (init_polling_config None) = true.
Proof.
  split; [|repeat split].
  destruct (init_polling_config_resolved given)
    as [H1 [H2 [H3 [H4 [H5 [H6 H7]]]]]].
  apply wait_for_completion_same; assumption.
Qed.
